(** * MedAI front end: the session controller of [frontend/script.js]

    A shallow embedding of the class [MedAIApp]: its two script globals
    ([currentUser], [chatHistory]), the two [localStorage] keys it uses, the
    part of the DOM its operations read and write, and the REST backend it
    calls through [fetch].

    - Methods run in a state-and-exception monad over [World].  Besides
      returning and throwing, a method can stay [Pending]: an [await] on a
      request that never settles.
    - The backend is a script of answers per endpoint, consumed in call
      order; every [fetch] is logged in [requests].
    - A body read with [response.json()] has the shape the interface gives
      it, or is not JSON at all (the promise rejects).  The body of a created
      user is the exception: the script stores and returns it unread, so it
      is any JSON value ([UserValue]).
    - [Date.now()] and [Math.random()] are read from [Entropy].
    - Of the DOM, the model keeps what the operations decide on.  Of the
      markdown library the page loads, it keeps whether the HTML made of a
      bot message holds a welcome screen ([renders_welcome]), which is what
      [addMessage] looks for; the layout of the page is left out. *)

From Stdlib Require Import ZArith List String Ascii Bool Lia.
From Stdlib Require Import DecimalString DecimalZ DecimalPos.
Import ListNotations.
Open Scope string_scope.
Open Scope Z_scope.

(* ===================================================================== *)
(** ** JavaScript values used by the script *)
(* ===================================================================== *)

Module Js.

(** A JavaScript number as the script meets it: the result of [parseInt] or
    [parseFloat] on a form field.  A finite value is kept as the exact decimal
    [mantissa * 10 ^ exp10] that the digits denote; rounding to IEEE doubles
    is not modelled. *)
Inductive Number : Type :=
  | NaN
  | Infinity (negative : bool)
  | Finite (mantissa exp10 : Z).

Definition of_Z (z : Z) : Number := Finite z 0.

(** [ToBoolean] on numbers: [NaN], [+0] and [-0] are falsy. *)
Definition truthy (n : Number) : bool :=
  match n with
  | NaN => false
  | Infinity _ => true
  | Finite m _ => negb (m =? 0)
  end.

(** [a || b] on numbers. *)
Definition or_else (a b : Number) : Number := if truthy a then a else b.

(** [a || b] where [a] is a string or [null] ([None]); the empty string is
    falsy. *)
Definition str_or_else (a : option string) (b : string) : string :=
  match a with
  | Some (String c s) => String c s
  | _ => b
  end.

(** [ToString] on a value that is a string or [null]. *)
Definition to_string (a : option string) : string :=
  match a with
  | Some s => s
  | None => "null"
  end.

(** Decimal rendering of an integer inside a template literal. *)
Definition show_Z (z : Z) : string := NilZero.string_of_int (Z.to_int z).

(** White space skipped by [trim], [parseInt] and [parseFloat] (the ASCII
    part of the ECMAScript [WhiteSpace] and [LineTerminator] classes). *)
Definition is_white (c : ascii) : bool :=
  let n := nat_of_ascii c in
  (Nat.eqb n 9 || Nat.eqb n 10 || Nat.eqb n 11 || Nat.eqb n 12
   || Nat.eqb n 13 || Nat.eqb n 32)%bool.

Fixpoint trimStart (s : string) : string :=
  match s with
  | String c r => if is_white c then trimStart r else s
  | EmptyString => EmptyString
  end.

Fixpoint trimEnd (s : string) : string :=
  match s with
  | EmptyString => EmptyString
  | String c r =>
      match trimEnd r with
      | EmptyString => if is_white c then EmptyString else String c EmptyString
      | r' => String c r'
      end
  end.

(** [String.prototype.trim]. *)
Definition trim (s : string) : string := trimEnd (trimStart s).

(** [String.prototype.substring(0, n)]. *)
Definition substring0 (n : nat) (s : string) : string := String.substring 0 n s.

(** [String.prototype.includes]. *)
Fixpoint includes (needle s : string) : bool :=
  (String.prefix needle s
   || match s with
      | EmptyString => false
      | String _ r => includes needle r
      end)%bool.

(** [Array.prototype.join]. *)
Fixpoint join (sep : string) (l : list string) : string :=
  match l with
  | [] => EmptyString
  | [x] => x
  | x :: r => x ++ sep ++ join sep r
  end.

(** Value of a digit in the given radix (10 or 16). *)
Definition digit_value (radix : Z) (c : ascii) : option Z :=
  let n := Z.of_nat (nat_of_ascii c) in
  let v :=
    if (48 <=? n) && (n <=? 57) then Some (n - 48)
    else if (97 <=? n) && (n <=? 102) then Some (n - 87)
    else if (65 <=? n) && (n <=? 70) then Some (n - 55)
    else None in
  match v with
  | Some d => if d <? radix then Some d else None
  | None => None
  end.

(** Longest prefix of digits: the number of digits read, their value after
    the accumulator [acc], and the rest of the string. *)
Fixpoint read_digits (radix : Z) (s : string) (count : nat) (acc : Z)
  : nat * Z * string :=
  match s with
  | String c r =>
      match digit_value radix c with
      | Some d => read_digits radix r (S count) (acc * radix + d)
      | None => (count, acc, s)
      end
  | EmptyString => (count, acc, s)
  end.

(** An optional sign: [true] for a leading minus. *)
Definition read_sign (s : string) : bool * string :=
  match s with
  | String "-" r => (true, r)
  | String "+" r => (false, r)
  | _ => (false, s)
  end.

Definition signed (negative : bool) (z : Z) : Z := if negative then - z else z.

(** [parseInt(string)] with no radix argument: leading white space, a sign,
    an optional [0x] prefix, then the longest run of digits; [NaN] when
    there is none. *)
Definition parseInt (a : option string) : Number :=
  let s := trimStart (to_string a) in
  let (negative, s) := read_sign s in
  let (radix, s) :=
    match s with
    | String "0" (String "x" r) => (16, r)
    | String "0" (String "X" r) => (16, r)
    | _ => (10, s)
    end in
  match read_digits radix s 0 0 with
  | (O, _, _) => NaN
  | (_, v, _) => Finite (signed negative v) 0
  end.

(** The exponent part of a decimal literal, counted only when at least one
    digit follows the [e]. *)
Definition read_exponent (s : string) : Z :=
  match s with
  | String c r =>
      if (Ascii.eqb c "e" || Ascii.eqb c "E")%bool then
        let (negative, r) := read_sign r in
        match read_digits 10 r 0 0 with
        | (O, _, _) => 0
        | (_, e, _) => signed negative e
        end
      else 0
  | EmptyString => 0
  end.

(** [parseFloat(string)]: leading white space, then the longest prefix that
    is a [StrDecimalLiteral]; [NaN] when there is none. *)
Definition parseFloat (a : option string) : Number :=
  let s := trimStart (to_string a) in
  let (negative, s) := read_sign s in
  if String.prefix "Infinity" s then Infinity negative
  else
    let '(ni, vi, s1) := read_digits 10 s 0 0 in
    let '(nf, v, s2) :=
      match s1 with
      | String "." r => read_digits 10 r 0 vi
      | _ => (O, vi, s1)
      end in
    match ni, nf with
    | O, O => NaN
    | _, _ => Finite (signed negative v) (read_exponent s2 - Z.of_nat nf)
    end.

End Js.

(* ===================================================================== *)
(** ** Data model *)
(* ===================================================================== *)

(** The identity record the backend returns from [POST /users] and the script
    keeps in [currentUser] and under the [medai_user] key. *)
Record User : Type := mkUser {
  id : Z;
  name : string;
  email : string
}.

(** A value where the script expects a user: what [response.json()] gives
    for a [POST /users] that succeeded, hence what [currentUser] and the
    [medai_user] key hold.  The script never checks its shape.  Besides the
    record of the interface it is [null], or another JSON value (a boolean,
    a number, a string, an array, an object without [id]): of such a value
    the script only tests the truth and reads an [id] that is undefined. *)
Inductive UserValue : Type :=
  | null
  | record (u : User)
  | other (truthy : bool).

(** [!!v] *)
Definition user_truthy (v : UserValue) : bool :=
  match v with
  | null => false
  | record _ => true
  | other truthy => truthy
  end.

(** An element of the [chatHistory] array.  [timestamp] is the instant that
    [new Date().toISOString()] renders. *)
Record ChatHistoryEntry : Type := mkEntry {
  query : string;
  response : string;
  timestamp : Z
}.

Inductive MessageType : Type := user | bot.

(** A child of [#chatContainer]: the welcome screen, or a message [div] with
    the content handed to [addMessage] and the time it shows. *)
Inductive Node : Type :=
  | WelcomeScreen
  | Message (type : MessageType) (content : string) (time : Z).

(** Whether [querySelector('.welcome-screen')] finds an element in a child
    of the container.  It searches all descendants: it finds the welcome
    screen, and it finds an element of that class in the HTML that
    [marked.parse] made of a bot message; [renders_welcome] tells for which
    contents there is one.  A user message is set as [textContent] and holds
    no element; the [div]s that [addMessage] creates have other classes. *)
Definition is_welcome (renders_welcome : string -> bool) (n : Node) : bool :=
  match n with
  | WelcomeScreen => true
  | Message bot content _ => renders_welcome content
  | Message user _ _ => false
  end.

(** A toast appended to [#toastContainer]; the timer that removes it after
    five seconds is not modelled, so the container is the log of toasts. *)
Record Toast : Type := mkToast {
  toast_message : string;
  toast_type : string
}.

(** A [File] of the report input. *)
Record File : Type := mkFile {
  file_name : string;
  file_type : string;
  file_size : Z
}.

(** [FormData]: entries in document order; [get] returns the first value of
    a name, or [null]. *)
Definition FormData : Type := list (string * string).

Fixpoint get (name : string) (fd : FormData) : option string :=
  match fd with
  | [] => None
  | (k, v) :: r => if String.eqb k name then Some v else get name r
  end.

(** The prediction form: the values its controls have now, and the values
    [form.reset()] restores. *)
Record Form : Type := mkForm {
  form_values : FormData;
  form_defaults : FormData
}.

Definition reset (f : Form) : Form :=
  {| form_values := form_defaults f; form_defaults := form_defaults f |}.

Inductive ModalId : Type := predictionModal | analyzeModal | loadingModal.

(** The body of [POST /predict]. *)
Record Demographics : Type := mkDemographics {
  age : Js.Number;
  gender : string
}.

Record Vitals : Type := mkVitals {
  bmi : Js.Number;
  glucose : Js.Number;
  blood_pressure : Js.Number;
  diabetes_pedigree : Js.Number;
  pregnancies : Js.Number;
  skin_thickness : Js.Number;
  insulin : Js.Number
}.

Record PredictionData : Type := mkPredictionData {
  user_id : option Z;
  demographics : Demographics;
  lifestyle : string;   (* lifestyle.description *)
  symptoms : string;    (* symptoms.description *)
  vitals : Vitals
}.

(* ===================================================================== *)
(** ** The backend, as the script sees it through [fetch] *)
(* ===================================================================== *)

Inductive HistoryKind : Type := predictions | chats | reports.

(** A request handed to [fetch].  A [user_id] is what [currentUser.id]
    gave: [None] when it is undefined, which [JSON.stringify] leaves out of
    a body and a URL or a form field spells out.  The three identifiers of
    a report request are numbers or [null]. *)
Inductive Request : Type :=
  | PostUsers (name email : string)
  | PostChat (user_id : option Z) (query : string)
  | PostPredict (data : PredictionData)
  | PostAnalyzeReport (file : File) (user_id : option Z)
  | GetHistory (kind : HistoryKind) (user_id : option Z)
  | PostGenerateReport (user_id : option Z)
      (prediction_id chat_id report_id : option Z).

(** How one [fetch] settles: the promise rejects (network error), or it
    resolves to a response with [response.ok] false, or to one with
    [response.ok] true.  [E] and [A] are what the script reads from the body
    in the two cases. *)
Inductive Outcome (E A : Type) : Type :=
  | Rejected
  | NotOk (status : Z) (body : E)
  | Ok (body : A).
Arguments Rejected {E A}.
Arguments NotOk {E A} status body.
Arguments Ok {E A} body.

(** [errorData] of a failed [POST /users]. *)
Record ErrorData : Type := mkErrorData { detail : option string }.

(** [data] of [POST /chat]. *)
Record ChatData : Type := mkChatData {
  chat_answer : option string;
  chat_response : option string
}.

(** [result] of [POST /predict]. *)
Record PredictionResult : Type := mkPredictionResult {
  disease : string;
  risk : Js.Number;
  explanation : string;
  recommendations : string
}.

(** [result] of [POST /analyze-report]. *)
Record AnalysisResult : Type := mkAnalysisResult {
  findings : option string;
  advice : option string
}.

(** What [generateReport] reads of a successful [POST /generate-report]: the
    [content-type] header, and whether the body parses as JSON. *)
Record Generated : Type := mkGenerated {
  content_type : option string;
  body_is_json : bool
}.

(** Bodies read with [response.json()] are [None] when that promise rejects
    (the body is not JSON), or gives [null] where the script goes on to read
    a property of the body, which throws at the same place; otherwise they
    have the shape of the interface.  The body of a created user is not
    read: it is any [UserValue].  A history body is the list of the [id]s
    of its records, newest first. *)
Definition UsersOutcome := Outcome (option ErrorData) (option UserValue).
Definition ChatOutcome := Outcome string (option ChatData).
Definition PredictOutcome := Outcome string (option PredictionResult).
Definition AnalyzeOutcome := Outcome string (option AnalysisResult).
Definition HistoryOutcome := Outcome unit (option (list Z)).
Definition GenerateOutcome := Outcome unit Generated.

(** The answers the backend will give, per endpoint and in call order, and
    the requests issued so far (oldest first).  A request for which the
    script is empty never settles. *)
Record Network : Type := mkNetwork {
  users_script : list UsersOutcome;
  chat_script : list ChatOutcome;
  predict_script : list PredictOutcome;
  analyze_script : list AnalyzeOutcome;
  history_script : list HistoryOutcome;
  generate_script : list GenerateOutcome;
  requests : list Request
}.

(* ===================================================================== *)
(** ** The state the script runs in *)
(* ===================================================================== *)

(** The two [let] globals of the script. *)
Record Globals : Type := mkGlobals {
  currentUser : UserValue;
  chatHistory : list ChatHistoryEntry
}.

(** [localStorage], restricted to the two keys of the script; a key is
    absent ([None]) or holds what [JSON.stringify] wrote and [JSON.parse]
    gives back. *)
Record LocalStorage : Type := mkLocalStorage {
  medai_user : option UserValue;
  medai_chat_history : option (list ChatHistoryEntry)
}.

(** The part of the document the operations touch.  The labels of the upload
    preview and the height of the text area are left out. *)
Record Dom : Type := mkDom {
  messageInput : string;            (* #messageInput.value *)
  sendBtn_disabled : bool;          (* #sendBtn.disabled *)
  chatContainer : list Node;        (* children of #chatContainer *)
  toastContainer : list Toast;      (* toasts shown, oldest first *)
  modalOverlay_active : bool;       (* #modalOverlay has class active *)
  predictionModal_shown : bool;     (* style.display is block *)
  analyzeModal_shown : bool;
  loadingModal_shown : bool;
  loadingText : string;
  predictionForm : Form;
  reportFile : option File;         (* #reportFile.files[0] *)
  uploadArea_shown : bool;
  uploadPreview_shown : bool;
  downloads : list Z                (* report downloads, by their date *)
}.

(** [Date.now()] / [new Date()] and [Math.random()]: the k-th reading of the
    clock, and [Math.floor(Math.random() * 1000)] at the k-th draw. *)
Record Entropy : Type := mkEntropy {
  clock : nat -> Z;
  ticks : nat;
  random : nat -> Z;
  draws : nat
}.

(** [renders_welcome content]: the HTML that [marked.parse] makes of
    [preprocessMarkdown(content)] holds an element of class
    [welcome-screen] (markdown lets raw HTML through).  It is [false] where
    [marked.parse] throws: the content is then set as text. *)
Record World : Type := mkWorld {
  globals : Globals;
  localStorage : LocalStorage;
  dom : Dom;
  network : Network;
  entropy : Entropy;
  renders_welcome : string -> bool
}.

(* ===================================================================== *)
(** ** Field updates *)
(* ===================================================================== *)

Definition with_currentUser v (g : Globals) : Globals :=
  mkGlobals v (chatHistory g).
Definition with_chatHistory v (g : Globals) : Globals :=
  mkGlobals (currentUser g) v.

Definition with_medai_user v (l : LocalStorage) : LocalStorage :=
  mkLocalStorage v (medai_chat_history l).
Definition with_medai_chat_history v (l : LocalStorage) : LocalStorage :=
  mkLocalStorage (medai_user l) v.

Definition with_messageInput v (d : Dom) : Dom :=
  mkDom v (sendBtn_disabled d) (chatContainer d) (toastContainer d)
    (modalOverlay_active d) (predictionModal_shown d) (analyzeModal_shown d)
    (loadingModal_shown d) (loadingText d) (predictionForm d) (reportFile d)
    (uploadArea_shown d) (uploadPreview_shown d) (downloads d).
Definition with_sendBtn_disabled v (d : Dom) : Dom :=
  mkDom (messageInput d) v (chatContainer d) (toastContainer d)
    (modalOverlay_active d) (predictionModal_shown d) (analyzeModal_shown d)
    (loadingModal_shown d) (loadingText d) (predictionForm d) (reportFile d)
    (uploadArea_shown d) (uploadPreview_shown d) (downloads d).
Definition with_chatContainer v (d : Dom) : Dom :=
  mkDom (messageInput d) (sendBtn_disabled d) v (toastContainer d)
    (modalOverlay_active d) (predictionModal_shown d) (analyzeModal_shown d)
    (loadingModal_shown d) (loadingText d) (predictionForm d) (reportFile d)
    (uploadArea_shown d) (uploadPreview_shown d) (downloads d).
Definition with_toastContainer v (d : Dom) : Dom :=
  mkDom (messageInput d) (sendBtn_disabled d) (chatContainer d) v
    (modalOverlay_active d) (predictionModal_shown d) (analyzeModal_shown d)
    (loadingModal_shown d) (loadingText d) (predictionForm d) (reportFile d)
    (uploadArea_shown d) (uploadPreview_shown d) (downloads d).
Definition with_modalOverlay_active v (d : Dom) : Dom :=
  mkDom (messageInput d) (sendBtn_disabled d) (chatContainer d)
    (toastContainer d) v (predictionModal_shown d) (analyzeModal_shown d)
    (loadingModal_shown d) (loadingText d) (predictionForm d) (reportFile d)
    (uploadArea_shown d) (uploadPreview_shown d) (downloads d).
Definition with_predictionModal_shown v (d : Dom) : Dom :=
  mkDom (messageInput d) (sendBtn_disabled d) (chatContainer d)
    (toastContainer d) (modalOverlay_active d) v (analyzeModal_shown d)
    (loadingModal_shown d) (loadingText d) (predictionForm d) (reportFile d)
    (uploadArea_shown d) (uploadPreview_shown d) (downloads d).
Definition with_analyzeModal_shown v (d : Dom) : Dom :=
  mkDom (messageInput d) (sendBtn_disabled d) (chatContainer d)
    (toastContainer d) (modalOverlay_active d) (predictionModal_shown d) v
    (loadingModal_shown d) (loadingText d) (predictionForm d) (reportFile d)
    (uploadArea_shown d) (uploadPreview_shown d) (downloads d).
Definition with_loadingModal_shown v (d : Dom) : Dom :=
  mkDom (messageInput d) (sendBtn_disabled d) (chatContainer d)
    (toastContainer d) (modalOverlay_active d) (predictionModal_shown d)
    (analyzeModal_shown d) v (loadingText d) (predictionForm d) (reportFile
    d) (uploadArea_shown d) (uploadPreview_shown d) (downloads d).
Definition with_loadingText v (d : Dom) : Dom :=
  mkDom (messageInput d) (sendBtn_disabled d) (chatContainer d)
    (toastContainer d) (modalOverlay_active d) (predictionModal_shown d)
    (analyzeModal_shown d) (loadingModal_shown d) v (predictionForm d)
    (reportFile d) (uploadArea_shown d) (uploadPreview_shown d) (downloads
    d).
Definition with_predictionForm v (d : Dom) : Dom :=
  mkDom (messageInput d) (sendBtn_disabled d) (chatContainer d)
    (toastContainer d) (modalOverlay_active d) (predictionModal_shown d)
    (analyzeModal_shown d) (loadingModal_shown d) (loadingText d) v
    (reportFile d) (uploadArea_shown d) (uploadPreview_shown d) (downloads
    d).
Definition with_reportFile v (d : Dom) : Dom :=
  mkDom (messageInput d) (sendBtn_disabled d) (chatContainer d)
    (toastContainer d) (modalOverlay_active d) (predictionModal_shown d)
    (analyzeModal_shown d) (loadingModal_shown d) (loadingText d)
    (predictionForm d) v (uploadArea_shown d) (uploadPreview_shown d)
    (downloads d).
Definition with_uploadArea_shown v (d : Dom) : Dom :=
  mkDom (messageInput d) (sendBtn_disabled d) (chatContainer d)
    (toastContainer d) (modalOverlay_active d) (predictionModal_shown d)
    (analyzeModal_shown d) (loadingModal_shown d) (loadingText d)
    (predictionForm d) (reportFile d) v (uploadPreview_shown d) (downloads
    d).
Definition with_uploadPreview_shown v (d : Dom) : Dom :=
  mkDom (messageInput d) (sendBtn_disabled d) (chatContainer d)
    (toastContainer d) (modalOverlay_active d) (predictionModal_shown d)
    (analyzeModal_shown d) (loadingModal_shown d) (loadingText d)
    (predictionForm d) (reportFile d) (uploadArea_shown d) v (downloads d).
Definition with_downloads v (d : Dom) : Dom :=
  mkDom (messageInput d) (sendBtn_disabled d) (chatContainer d)
    (toastContainer d) (modalOverlay_active d) (predictionModal_shown d)
    (analyzeModal_shown d) (loadingModal_shown d) (loadingText d)
    (predictionForm d) (reportFile d) (uploadArea_shown d)
    (uploadPreview_shown d) v.

Definition with_users_script v (n : Network) : Network :=
  mkNetwork v (chat_script n) (predict_script n) (analyze_script n)
    (history_script n) (generate_script n) (requests n).
Definition with_chat_script v (n : Network) : Network :=
  mkNetwork (users_script n) v (predict_script n) (analyze_script n)
    (history_script n) (generate_script n) (requests n).
Definition with_predict_script v (n : Network) : Network :=
  mkNetwork (users_script n) (chat_script n) v (analyze_script n)
    (history_script n) (generate_script n) (requests n).
Definition with_analyze_script v (n : Network) : Network :=
  mkNetwork (users_script n) (chat_script n) (predict_script n) v
    (history_script n) (generate_script n) (requests n).
Definition with_history_script v (n : Network) : Network :=
  mkNetwork (users_script n) (chat_script n) (predict_script n)
    (analyze_script n) v (generate_script n) (requests n).
Definition with_generate_script v (n : Network) : Network :=
  mkNetwork (users_script n) (chat_script n) (predict_script n)
    (analyze_script n) (history_script n) v (requests n).
Definition with_requests v (n : Network) : Network :=
  mkNetwork (users_script n) (chat_script n) (predict_script n)
    (analyze_script n) (history_script n) (generate_script n) v.

Definition with_ticks v (e : Entropy) : Entropy :=
  mkEntropy (clock e) v (random e) (draws e).
Definition with_draws v (e : Entropy) : Entropy :=
  mkEntropy (clock e) (ticks e) (random e) v.

Definition on_globals (f : Globals -> Globals) (w : World) : World :=
  mkWorld (f (globals w)) (localStorage w) (dom w) (network w) (entropy w)
    (renders_welcome w).
Definition on_localStorage (f : LocalStorage -> LocalStorage) (w : World) : World :=
  mkWorld (globals w) (f (localStorage w)) (dom w) (network w) (entropy w)
    (renders_welcome w).
Definition on_dom (f : Dom -> Dom) (w : World) : World :=
  mkWorld (globals w) (localStorage w) (f (dom w)) (network w) (entropy w)
    (renders_welcome w).
Definition on_network (f : Network -> Network) (w : World) : World :=
  mkWorld (globals w) (localStorage w) (dom w) (f (network w)) (entropy w)
    (renders_welcome w).
Definition on_entropy (f : Entropy -> Entropy) (w : World) : World :=
  mkWorld (globals w) (localStorage w) (dom w) (network w) (f (entropy w))
    (renders_welcome w).

(* ===================================================================== *)
(** ** The monad of the script's methods *)
(* ===================================================================== *)

(** How a method call ends: it returns, it throws (an [async] method rejects
    its promise), or it stays suspended on a request that never settles. *)
Inductive Completion (A : Type) : Type :=
  | Normal (a : A)
  | Throw (error : string)
  | Pending.
Arguments Normal {A} a.
Arguments Throw {A} error.
Arguments Pending {A}.

Definition Op (A : Type) : Type := World -> Completion A * World.

Definition ret {A} (a : A) : Op A := fun w => (Normal a, w).

Definition bind {A B} (m : Op A) (k : A -> Op B) : Op B :=
  fun w =>
    match m w with
    | (Normal a, w') => k a w'
    | (Throw e, w') => (Throw e, w')
    | (Pending, w') => (Pending, w')
    end.

Notation "x <- m ;; k" := (bind m (fun x => k))
  (at level 61, m at next level, right associativity).
Notation "m ;; k" := (bind m (fun _ => k))
  (at level 61, right associativity).

Definition throw {A} (error : string) : Op A := fun w => (Throw error, w).

Definition pending {A} : Op A := fun w => (Pending, w).

Definition gets {A} (f : World -> A) : Op A := fun w => (Normal (f w), w).

Definition modify (f : World -> World) : Op unit := fun w => (Normal tt, f w).

(** [try { body } catch (error) { handler }]. *)
Definition try_catch {A} (body : Op A) (handler : string -> Op A) : Op A :=
  fun w =>
    match body w with
    | (Throw e, w') => handler e w'
    | r => r
    end.

(** [try { body } finally { finalizer }]: the finalizer runs when the body
    returns or throws, and its own throw replaces the body's completion. *)
Definition try_finally {A} (body : Op A) (finalizer : Op unit) : Op A :=
  fun w =>
    match body w with
    | (Pending, w') => (Pending, w')
    | (c, w') =>
        match finalizer w' with
        | (Normal _, w'') => (c, w'')
        | (Throw e, w'') => (Throw e, w'')
        | (Pending, w'') => (Pending, w'')
        end
    end.

(** [Date.now()] and [new Date()]. *)
Definition Date_now : Op Z :=
  fun w =>
    let e := entropy w in
    (Normal (clock e (ticks e)), on_entropy (with_ticks (S (ticks e))) w).

(** [Math.floor(Math.random() * 1000)]. *)
Definition Math_random_1000 : Op Z :=
  fun w =>
    let e := entropy w in
    (Normal (random e (draws e) mod 1000),
     on_entropy (with_draws (S (draws e))) w).

(** [await fetch(...)] on the endpoint whose script [script] selects: the
    request is issued, then the next scripted outcome is delivered. *)
Definition fetch {E A} (script : Network -> list (Outcome E A))
    (with_script : list (Outcome E A) -> Network -> Network)
    (request : Request) : Op (Outcome E A) :=
  fun w =>
    let w := on_network (fun n => with_requests (requests n ++ [request]) n) w in
    match script (network w) with
    | [] => (Pending, w)
    | o :: rest => (Normal o, on_network (with_script rest) w)
    end.

(** The rejection of [fetch] and of [response.json()]. *)
Definition failed_to_fetch : string := "TypeError: Failed to fetch".
Definition not_json : string := "SyntaxError: Unexpected token".

Definition nl : string := String (ascii_of_nat 10) EmptyString.

(* ===================================================================== *)
(** ** [class MedAIApp] *)
(* ===================================================================== *)

(** [Array.prototype.slice(start)]. *)
Definition slice {A} (start : Z) (l : list A) : list A :=
  let len := Z.of_nat (List.length l) in
  let k := if start <? 0 then Z.max (len + start) 0 else Z.min start len in
  skipn (Z.to_nat k) l.

Definition showToast (message type : string) : Op unit :=
  modify (on_dom (fun d =>
    with_toastContainer (toastContainer d ++ [mkToast message type]) d)).

Definition addMessage (content : string) (type : MessageType) : Op unit :=
  found <- gets (fun w =>
    existsb (is_welcome (renders_welcome w)) (chatContainer (dom w))) ;;
  (* Hide welcome screen if it's the first message *)
  (if found
   then modify (on_dom (with_chatContainer []))
   else ret tt) ;;
  time <- Date_now ;;
  modify (on_dom (fun d =>
    with_chatContainer (chatContainer d ++ [Message type content time]) d)).

Definition with_modal (modalId : ModalId) (shown : bool) : Dom -> Dom :=
  match modalId with
  | predictionModal => with_predictionModal_shown shown
  | analyzeModal => with_analyzeModal_shown shown
  | loadingModal => with_loadingModal_shown shown
  end.

Definition showModal (modalId : ModalId) : Op unit :=
  modify (on_dom (with_modalOverlay_active true)) ;;
  modify (on_dom (with_modal modalId true)).

Definition hideModal (modalId : ModalId) : Op unit :=
  modify (on_dom (with_modal modalId false)) ;;
  modify (on_dom (with_modalOverlay_active false)).

Definition showLoading (message : string) : Op unit :=
  modify (on_dom (with_loadingText message)) ;;
  showModal loadingModal.

Definition hideLoading : Op unit := hideModal loadingModal.

Definition guest_email (now : Z) : string :=
  "guest-" ++ Js.show_Z now ++ "@example.com".

Definition retry_email (now : Z) : string :=
  "guest-" ++ Js.show_Z now ++ "-retry@example.com".

(** [response.status === 400 && errorData.detail === 'Email already registered'] *)
Definition email_already_registered (status : Z) (errorData : ErrorData) : bool :=
  (status =? 400)
  && match detail errorData with
     | Some d => String.eqb d "Email already registered"
     | None => false
     end.

(** The [catch] block of [createUser]: a mock user for demo purposes. *)
Definition mockUser : Op UserValue :=
  r <- Math_random_1000 ;;
  now <- Date_now ;;
  let mock := record (mkUser (r + 1) "Guest User" (guest_email now)) in
  modify (on_localStorage (with_medai_user (Some mock))) ;;
  ret mock.

(** [createUser(name, email)].  The method calls itself after a duplicate
    e-mail answer; each call consumes one answer of the [/users] script, so
    the recursion is on what is left of that script.  The body of a created
    user is stored and returned as it is. *)
Fixpoint createUser_on (script : list UsersOutcome) (name email : string)
  : Op UserValue :=
  try_catch
    (now <- Date_now ;;
     let uniqueEmail := guest_email now in
     modify (on_network (fun n =>
       with_requests
         (requests n ++ [PostUsers (Js.str_or_else (Some name) "Guest User")
                                   (Js.str_or_else (Some email) uniqueEmail)])
         n)) ;;
     match script with
     | [] => pending
     | o :: rest =>
         modify (on_network (with_users_script rest)) ;;
         match o with
         | Rejected => throw failed_to_fetch
         | NotOk status None => throw not_json
         | NotOk status (Some errorData) =>
             if email_already_registered status errorData then
               (* Use a different email *)
               now' <- Date_now ;;
               createUser_on rest name (retry_email now')
             else throw ("Failed to create user: " ++ Js.show_Z status)
         | Ok None => throw not_json
         | Ok (Some created) =>
             modify (on_localStorage (with_medai_user (Some created))) ;;
             showToast "User profile created successfully!" "success" ;;
             ret created
         end
     end)
    (fun error => mockUser).

Definition createUser (name email : string) : Op UserValue :=
  fun w => createUser_on (users_script (network w)) name email w.

(** [if (!currentUser) { currentUser = await this.createUser('Guest User',
    'guest@example.com'); }], the statement every operation starts from. *)
Definition ensureUser : Op unit :=
  cu <- gets (fun w => currentUser (globals w)) ;;
  if user_truthy cu then ret tt
  else
    created <- createUser "Guest User" "guest@example.com" ;;
    modify (on_globals (with_currentUser created)).

Definition cannot_read_id : string :=
  "TypeError: Cannot read properties of null (reading 'id')".

(** [currentUser.id]: reading a property of [null] throws; a value that is
    not a user record has no [id]. *)
Definition currentUser_id : Op (option Z) :=
  cu <- gets (fun w => currentUser (globals w)) ;;
  match cu with
  | null => throw cannot_read_id
  | record u => ret (Some (id u))
  | other _ => ret None
  end.

Definition callGeminiAPI (query : string) : Op string :=
  cu <- gets (fun w => currentUser (globals w)) ;;
  if negb (user_truthy cu) then throw "User not created"
  else
    uid <- currentUser_id ;;
    o <- fetch chat_script with_chat_script (PostChat uid query) ;;
    match o with
    | Rejected => throw failed_to_fetch
    | NotOk status errorText =>
        throw ("API request failed: " ++ Js.show_Z status ++ " " ++ errorText)
    | Ok None => throw not_json
    | Ok (Some data) =>
        ret (Js.str_or_else (chat_answer data)
               (Js.str_or_else (chat_response data)
                  "I received your message but got an unexpected response."))
    end.

Definition loadUserData : Op unit :=
  savedUser <- gets (fun w => medai_user (localStorage w)) ;;
  match savedUser with
  | Some saved => modify (on_globals (with_currentUser saved))
  | None => ret tt
  end ;;
  savedHistory <- gets (fun w => medai_chat_history (localStorage w)) ;;
  match savedHistory with
  | Some h => modify (on_globals (with_chatHistory h))
  | None => ret tt
  end.

Definition saveChatHistory (query response : string) : Op unit :=
  now <- Date_now ;;
  modify (on_globals (fun g =>
    with_chatHistory (chatHistory g ++ [mkEntry query response now]) g)) ;;
  (* Keep only last 50 messages *)
  h <- gets (fun w => chatHistory (globals w)) ;;
  (if Z.of_nat (List.length h) >? 50
   then modify (on_globals (with_chatHistory (slice (-50) h)))
   else ret tt) ;;
  h <- gets (fun w => chatHistory (globals w)) ;;
  modify (on_localStorage (with_medai_chat_history (Some h))).

Definition sendMessage : Op unit :=
  message <- gets (fun w => Js.trim (messageInput (dom w))) ;;
  match message with
  | EmptyString => ret tt
  | String _ _ =>
      (* Add user message to chat *)
      addMessage message user ;;
      modify (on_dom (with_messageInput EmptyString)) ;;
      (* Show loading state *)
      modify (on_dom (with_sendBtn_disabled true)) ;;
      try_finally
        (try_catch
           (ensureUser ;;
            response <- callGeminiAPI message ;;
            addMessage response bot ;;
            saveChatHistory message response)
           (fun error =>
              showToast "Error sending message. Please try again." "error" ;;
              addMessage "Sorry, I encountered an error. Please try again." bot))
        (modify (on_dom (with_sendBtn_disabled false)))
  end.

(** The object posted to [/predict]: every field of the form, with the
    default that [||] substitutes for a falsy value. *)
Definition predictionData (uid : option Z) (formData : FormData)
  : PredictionData :=
  {| user_id := uid;
     demographics :=
       {| age := Js.or_else (Js.parseInt (get "age" formData)) (Js.of_Z 30);
          gender := Js.str_or_else (get "gender" formData) "unknown" |};
     lifestyle := Js.str_or_else (get "lifestyle" formData) "Not specified";
     symptoms := Js.str_or_else (get "symptoms" formData) "No symptoms reported";
     vitals :=
       {| bmi := Js.or_else (Js.parseFloat (get "bmi" formData)) (Js.of_Z 25);
          glucose :=
            Js.or_else (Js.parseInt (get "glucose" formData)) (Js.of_Z 100);
          blood_pressure :=
            Js.or_else (Js.parseInt (get "blood_pressure" formData)) (Js.of_Z 120);
          diabetes_pedigree :=
            Js.or_else (Js.parseFloat (get "diabetes_pedigree" formData))
              (Js.Finite 5 (-1));
          pregnancies :=
            Js.or_else (Js.parseInt (get "pregnancies" formData)) (Js.of_Z 0);
          skin_thickness :=
            Js.or_else (Js.parseFloat (get "skin_thickness" formData)) (Js.of_Z 20);
          insulin :=
            Js.or_else (Js.parseInt (get "insulin" formData)) (Js.of_Z 80) |} |}.

Section Prediction.

(** [(risk * 100).toFixed(1)]: arithmetic and rounding on IEEE doubles, taken
    as given. *)
Variable risk_percent : Js.Number -> string.

Definition predictionMessage (result : PredictionResult) : string :=
  nl ++ "Disease: " ++ disease result ++ nl
  ++ "Risk: " ++ risk_percent (risk result) ++ "%" ++ nl
  ++ nl
  ++ "Explanation:" ++ nl
  ++ explanation result ++ nl
  ++ nl
  ++ "Recommendations:" ++ nl
  ++ recommendations result ++ nl
  ++ "            ".

Definition submitPredictionForm : Op unit :=
  formData <- gets (fun w => form_values (predictionForm (dom w))) ;;
  ensureUser ;;
  uid <- currentUser_id ;;
  let data := predictionData uid formData in
  showLoading "Calculating your health risk..." ;;
  try_finally
    (try_catch
       (o <- fetch predict_script with_predict_script (PostPredict data) ;;
        match o with
        | Rejected => throw failed_to_fetch
        | NotOk status errorText =>
            throw ("Prediction failed: " ++ Js.show_Z status ++ " " ++ errorText)
        | Ok None => throw not_json
        | Ok (Some result) =>
            (* Add prediction result to chat *)
            addMessage (predictionMessage result) bot ;;
            hideModal predictionModal ;;
            modify (on_dom (fun d =>
              with_predictionForm (reset (predictionForm d)) d)) ;;
            showToast "Risk assessment completed successfully!" "success"
        end)
       (fun error =>
          showToast "Error calculating risk. Please try again." "error"))
    hideLoading.

End Prediction.

Definition clearFile : Op unit :=
  modify (on_dom (with_reportFile None)) ;;
  modify (on_dom (with_uploadArea_shown true)) ;;
  modify (on_dom (with_uploadPreview_shown false)).

(** [handleFileSelect(event)], where [event.target] is [#reportFile]. *)
Definition handleFileSelect : Op unit :=
  file <- gets (fun w => reportFile (dom w)) ;;
  match file with
  | None => ret tt
  | Some file =>
      if negb (String.eqb (file_type file) "application/pdf") then
        showToast "Please select a PDF file" "error" ;;
        clearFile
      else if file_size file >? 10 * 1024 * 1024 then (* 10MB limit *)
        showToast "File too large. Please select a file under 10MB." "error" ;;
        clearFile
      else
        modify (on_dom (with_uploadArea_shown false)) ;;
        modify (on_dom (with_uploadPreview_shown true))
  end.

(** The user picks or drops a file on the report input: the file becomes
    [#reportFile.files[0]] and the listener calls [handleFileSelect]. *)
Definition selectFile (file : File) : Op unit :=
  modify (on_dom (with_reportFile (Some file))) ;;
  handleFileSelect.

Definition analysisMessage (result : AnalysisResult) : string :=
  nl ++ "Medical Report Analysis:" ++ nl
  ++ nl
  ++ "Findings:" ++ nl
  ++ Js.str_or_else (findings result) "No specific findings" ++ nl
  ++ nl
  ++ "Advice:" ++ nl
  ++ Js.str_or_else (advice result)
       "Please consult with a healthcare professional" ++ nl
  ++ "            ".

Definition analyzeReport : Op unit :=
  file <- gets (fun w => reportFile (dom w)) ;;
  match file with
  | None => showToast "Please select a PDF file first" "error"
  | Some file =>
      ensureUser ;;
      showLoading "Analyzing your medical report..." ;;
      try_finally
        (try_catch
           (uid <- currentUser_id ;;
            o <- fetch analyze_script with_analyze_script
                   (PostAnalyzeReport file uid) ;;
            match o with
            | Rejected => throw failed_to_fetch
            | NotOk status errorText =>
                throw ("Report analysis failed: " ++ Js.show_Z status ++ " "
                       ++ errorText)
            | Ok None => throw not_json
            | Ok (Some result) =>
                (* Add analysis result to chat *)
                addMessage (analysisMessage result) bot ;;
                hideModal analyzeModal ;;
                clearFile ;;
                showToast "Report analysis completed successfully!" "success"
            end)
           (fun error =>
              showToast "Error analyzing report. Please try again." "error"))
        hideLoading
  end.

(** One line of the topics list: [`* ${chat.query.substring(0, 50)}...`]. *)
Definition topic_line (chat : ChatHistoryEntry) : string :=
  "* " ++ Js.substring0 50 (query chat) ++ "...".

Definition report_heading : string :=
  nl ++ "# Health Summary Report" ++ nl
  ++ nl
  ++ "Based on our conversation, here's a summary of your health inquiries:" ++ nl
  ++ nl
  ++ "## Topics Discussed" ++ nl.

Definition report_advice : string :=
  nl
  ++ nl
  ++ "## General Health Advice" ++ nl
  ++ "* Maintain a balanced diet with plenty of fruits and vegetables" ++ nl
  ++ "* Exercise regularly (at least 30 minutes most days)" ++ nl
  ++ "* Get 7-9 hours of quality sleep each night" ++ nl
  ++ "* Stay hydrated by drinking plenty of water" ++ nl
  ++ "* Manage stress through relaxation techniques" ++ nl
  ++ nl
  ++ "*Note: This is a general health summary. For personalized medical advice, please consult with a healthcare professional.*" ++ nl
  ++ "        ".

(** The template literal of [createFallbackReport]. *)
Definition reportMessage (history : list ChatHistoryEntry) : string :=
  report_heading ++ Js.join nl (map topic_line history) ++ report_advice.

Definition createFallbackReport : Op unit :=
  (* Create a simple report based on chat history *)
  history <- gets (fun w => chatHistory (globals w)) ;;
  addMessage (reportMessage history) bot ;;
  showToast "Health summary created based on our conversation" "success".

(** One of the three lookups of [generateReport]: the [id] of the first
    record of [/history/<kind>/<user id>], or [null]. *)
Definition latestId (kind : HistoryKind) : Op (option Z) :=
  try_catch
    (uid <- currentUser_id ;;
     o <- fetch history_script with_history_script (GetHistory kind uid) ;;
     match o with
     | Rejected => throw failed_to_fetch
     | NotOk _ _ => ret None
     | Ok None => throw not_json
     | Ok (Some []) => ret None
     | Ok (Some (latest :: _)) => ret (Some latest)
     end)
    (fun e => ret None).

(** [!x] on an identifier that is a number or [null]. *)
Definition no_id (x : option Z) : bool :=
  match x with
  | None => true
  | Some i => i =? 0
  end.

(** [contentType && contentType.includes('application/pdf')] *)
Definition is_pdf (contentType : option string) : bool :=
  match contentType with
  | Some t => Js.includes "application/pdf" t
  | None => false
  end.

Definition generateReport : Op unit :=
  ensureUser ;;
  showLoading "Generating your health report..." ;;
  try_finally
    (try_catch
       (predictionId <- latestId predictions ;;
        chatId <- latestId chats ;;
        reportId <- latestId reports ;;
        (* If no data available, create fallback report *)
        if no_id predictionId && no_id chatId && no_id reportId then
          hideLoading ;;
          createFallbackReport
        else
          uid <- currentUser_id ;;
          o <- fetch generate_script with_generate_script
                 (PostGenerateReport uid predictionId chatId reportId) ;;
          match o with
          | Rejected => throw failed_to_fetch
          | NotOk status _ => throw ("Server returned " ++ Js.show_Z status)
          | Ok generated =>
              (* Check if response is PDF *)
              if is_pdf (content_type generated) then
                today <- Date_now ;;
                modify (on_dom (fun d => with_downloads (downloads d ++ [today]) d)) ;;
                showToast "Health report downloaded successfully!" "success"
              else if body_is_json generated then
                showToast "Report generated successfully!" "success"
              else throw not_json
          end)
       (fun error =>
          showToast "Error generating report. Please try again." "error"))
    hideLoading.

Definition startNewChat : Op unit :=
  modify (on_dom (with_chatContainer [WelcomeScreen])) ;;
  (* Clear chat history *)
  modify (on_globals (with_chatHistory [])) ;;
  modify (on_localStorage (with_medai_chat_history None)) ;;
  showToast "New conversation started" "success".

(** The four user-initiated operations of the session controller. *)
Inductive Operation : Type :=
  | SendMessage
  | SubmitPredictionForm
  | AnalyzeReport
  | GenerateReport.

Definition run (risk_percent : Js.Number -> string) (op : Operation) : Op unit :=
  match op with
  | SendMessage => sendMessage
  | SubmitPredictionForm => submitPredictionForm risk_percent
  | AnalyzeReport => analyzeReport
  | GenerateReport => generateReport
  end.

(** The busy indicator of an operation: the disabled send button, or the
    loading modal. *)
Definition busy (op : Operation) (w : World) : bool :=
  match op with
  | SendMessage => sendBtn_disabled (dom w)
  | _ => loadingModal_shown (dom w)
  end.

(* ===================================================================== *)
(** ** Vocabulary of the statements *)
(* ===================================================================== *)

Definition is_PostUsers (r : Request) : bool :=
  match r with
  | PostUsers _ _ => true
  | _ => false
  end.

Definition is_PostGenerateReport (r : Request) : bool :=
  match r with
  | PostGenerateReport _ _ _ _ => true
  | _ => false
  end.

(** The toasts of the script that the statements name. *)
Definition success_toast : Toast :=
  mkToast "User profile created successfully!" "success".

Definition error_toast : Toast :=
  mkToast "Error sending message. Please try again." "error".

Definition wrong_type_toast : Toast := mkToast "Please select a PDF file" "error".

Definition too_large_toast : Toast :=
  mkToast "File too large. Please select a file under 10MB." "error".

Definition no_file_toast : Toast :=
  mkToast "Please select a PDF file first" "error".

Definition summary_toast : Toast :=
  mkToast "Health summary created based on our conversation" "success".

(** The bot message of the [catch] block of [sendMessage]. *)
Definition apology : string :=
  "Sorry, I encountered an error. Please try again.".

(** A [/users] answer after which [createUser] calls itself again. *)
Definition is_duplicate (o : UsersOutcome) : bool :=
  match o with
  | NotOk status (Some errorData) => email_already_registered status errorData
  | _ => false
  end.

(** The number of duplicate e-mail answers at the head of a [/users] script. *)
Fixpoint leading_duplicates (script : list UsersOutcome) : nat :=
  match script with
  | o :: rest => if is_duplicate o then S (leading_duplicates rest) else O
  | [] => O
  end.

(** The request a call of [createUser] issues, given the reading of the
    clock it starts with. *)
Definition users_request (name email : string) (now : Z) : Request :=
  PostUsers (Js.str_or_else (Some name) "Guest User")
            (Js.str_or_else (Some email) (guest_email now)).

(** A retry of [createUser]: same name, an e-mail made from the clock. *)
Definition is_retry_of (name : string) (r : Request) : Prop :=
  exists now, r = PostUsers (Js.str_or_else (Some name) "Guest User")
                            (retry_email now).

(** The [k]-th retry (from 0) of a [createUser] that starts at reading [t]
    of the clock: every call reads the clock once for its own e-mail, and
    once more to make the e-mail of the retry. *)
Definition retry_request (name : string) (clock : nat -> Z) (t k : nat)
  : Request :=
  PostUsers (Js.str_or_else (Some name) "Guest User")
            (retry_email (clock (t + 2 * k + 1)%nat)).

(** The state [createUser] leaves: it writes the [medai_user] key, the toast
    container, the [/users] script, the request log and the two counters of
    the clock and of the random source, and nothing else. *)
Definition after_createUser (mu : option UserValue) (tc : list Toast)
    (rest : list UsersOutcome) (rq : list Request) (tk dr : nat) (w : World)
  : World :=
  mkWorld (globals w)
    (with_medai_user mu (localStorage w))
    (with_toastContainer tc (dom w))
    (with_users_script rest (with_requests rq (network w)))
    (with_ticks tk (with_draws dr (entropy w)))
    (renders_welcome w).

(** The answer that ends the retries of [createUser]: the first one of the
    [/users] script that is not a duplicate e-mail answer. *)
Fixpoint final_answer (script : list UsersOutcome) : option UsersOutcome :=
  match script with
  | [] => None
  | o :: rest => if is_duplicate o then final_answer rest else Some o
  end.

Definition is_record (v : UserValue) : bool :=
  match v with
  | record _ => true
  | _ => false
  end.

(** The [/users] script holds an answer that ends the retries of
    [createUser], and that answer leaves a user record: the one the backend
    created, or the mock one of the [catch] block. *)
Fixpoint creates_record (script : list UsersOutcome) : bool :=
  match script with
  | [] => false
  | o :: rest =>
      if is_duplicate o then creates_record rest
      else match o with
           | Ok (Some created) => is_record created
           | _ => true
           end
  end.

(** The identity is at hand: [currentUser] is a user record, or it is falsy
    and [createUser] will leave one. *)
Definition identity_available (w : World) : bool :=
  match currentUser (globals w) with
  | record _ => true
  | other true => false
  | _ => creates_record (users_script (network w))
  end.

(** The [/chat] call fails: network rejection, or a non-success status. *)
Definition chat_fails (o : ChatOutcome) : bool :=
  match o with
  | Rejected => true
  | NotOk _ _ => true
  | Ok _ => false
  end.

(** The identifier one history lookup finds in the answer it gets. *)
Definition latest_of (o : HistoryOutcome) : option Z :=
  match o with
  | Ok (Some (latest :: _)) => Some latest
  | _ => None
  end.

(** [v.id] of a value that is not [null]. *)
Definition id_of (v : UserValue) : option Z :=
  match v with
  | record u => Some (id u)
  | _ => None
  end.

(** The local summary as the reader gets it, written out line by line to
    compare [reportMessage] with: the heading down to the title of the list
    of topics, and the advice that follows the list. *)
Definition line_break : string := String "010"%char EmptyString.

Definition summary_heading : string :=
  String.concat line_break
    [ EmptyString;
      "# Health Summary Report";
      EmptyString;
      "Based on our conversation, here's a summary of your health inquiries:";
      EmptyString;
      "## Topics Discussed";
      EmptyString ].

Definition summary_advice : string :=
  String.concat line_break
    [ EmptyString;
      EmptyString;
      "## General Health Advice";
      "* Maintain a balanced diet with plenty of fruits and vegetables";
      "* Exercise regularly (at least 30 minutes most days)";
      "* Get 7-9 hours of quality sleep each night";
      "* Stay hydrated by drinking plenty of water";
      "* Manage stress through relaxation techniques";
      EmptyString;
      "*Note: This is a general health summary. For personalized medical advice, please consult with a healthcare professional.*";
      "        " ].

(** A line of the list of topics for a past query: a star, the query cut
    to its first fifty characters, three dots. *)
Definition lists_query (q topic : string) : Prop :=
  exists shown,
    topic = "* " ++ shown ++ "..."
    /\ String.prefix shown q = true
    /\ String.length shown = Nat.min 50 (String.length q).

(** A form field that is left out, or whose text the coercion ([parseInt] or
    [parseFloat]) turns into [NaN]. *)
Definition omitted_or_not_numeric (parse : option string -> Js.Number)
    (v : option string) : Prop :=
  v = None \/ parse v = Js.NaN.

(** A form field whose text the coercion turns into zero. *)
Definition parses_to_zero (n : Js.Number) : Prop :=
  exists e, n = Js.Finite 0 e.

Definition nonempty {A} (l : list A) : bool :=
  match l with
  | [] => false
  | _ :: _ => true
  end.

(** The backend settles every request an operation can make: the identity
    is at hand and each script still holds the answers one operation needs. *)
Definition backend_answers (w : World) : bool :=
  identity_available w
  && nonempty (chat_script (network w))
  && nonempty (predict_script (network w))
  && nonempty (analyze_script (network w))
  && (3 <=? List.length (history_script (network w)))%nat
  && nonempty (generate_script (network w)).

(** The operation stops at its opening guard, before it sets its busy
    indicator: [sendMessage] on an empty message, [analyzeReport] without a
    file. *)
Definition guard_rejects (op : Operation) (w : World) : bool :=
  match op with
  | SendMessage =>
      match Js.trim (messageInput (dom w)) with
      | EmptyString => true
      | String _ _ => false
      end
  | AnalyzeReport =>
      match reportFile (dom w) with
      | None => true
      | Some _ => false
      end
  | _ => false
  end.

(** How an operation ends, short of throwing: it returns with its busy
    indicator clear (or untouched, when its guard stopped it), or it is left
    waiting on a request that the backend does not answer. *)
Definition returns_or_waits risk_percent (op : Operation) (w : World) : Prop :=
  (exists w', run risk_percent op w = (Normal tt, w')
              /\ busy op w' = guard_rejects op w && busy op w)
  \/ (exists w', run risk_percent op w = (Pending, w')
                 /\ backend_answers w = false).

(* ===================================================================== *)
(** ** Sample states *)
(* ===================================================================== *)

(** A freshly loaded page: welcome screen, empty storage, a clock that
    advances by one millisecond per reading, and a backend that answers
    nothing yet. *)
Definition fresh_page : World :=
  {| globals := mkGlobals null [];
     localStorage := mkLocalStorage None None;
     dom := mkDom EmptyString false [WelcomeScreen] [] false false false false
              EmptyString (mkForm [] []) None true false [];
     network := mkNetwork [] [] [] [] [] [] [];
     entropy := mkEntropy (fun k => 1700000000000 + Z.of_nat k) 0
                  (fun k => 41 + Z.of_nat k) 0;
     renders_welcome := fun _ => false |}.

Definition alice : User := mkUser 7 "Guest User" "guest@example.com".

Definition duplicate_email : UsersOutcome :=
  NotOk 400 (Some (mkErrorData (Some "Email already registered"))).

Definition old_entry : ChatHistoryEntry :=
  mkEntry "How to sleep better?" "Keep a schedule." 1.

Definition sample_pdf (size : Z) : File := mkFile "scan.pdf" "application/pdf" size.

Definition percent_stub (n : Js.Number) : string := "12.5".

(** The backend reports a duplicate e-mail once, then creates the user. *)
Definition taken_once : World :=
  on_network (with_users_script [duplicate_email; Ok (Some (record alice))])
    fresh_page.

(** The backend reports a duplicate e-mail twice, then creates the user. *)
Definition taken_twice : World :=
  on_network
    (with_users_script
       [duplicate_email; duplicate_email; Ok (Some (record alice))])
    fresh_page.

(** The same, in a browser that rounds the clock (reduced timer precision):
    all the readings taken during the call give the same value. *)
Definition taken_twice_coarse_clock : World :=
  on_entropy (fun e =>
    mkEntropy (fun _ => 1700000000000) (ticks e) (random e) (draws e))
    taken_twice.

(** Storage left by an earlier visit: fifty-one entries. *)
Definition stored_51 : World :=
  on_localStorage (with_medai_chat_history (Some (repeat old_entry 51)))
    fresh_page.

(** A page with a question typed in, whose backend creates the user and then
    fails the chat call. *)
Definition chat_down : World :=
  on_network (with_chat_script [NotOk 503 "Service Unavailable"])
    (on_network (with_users_script [Ok (Some (record alice))])
       (on_dom (with_messageInput "  What is a normal BMI? ") fresh_page)).

(** A page whose prediction form has a text in [age], a zero in [bmi] and in
    [glucose], and no other numeric field; the backend refuses the
    connection to [/users] and answers nothing else. *)
Definition half_filled_form : World :=
  on_network (with_users_script [Rejected])
    (on_dom (with_predictionForm
               (mkForm [("age", "abc"); ("gender", "female"); ("bmi", "0");
                        ("glucose", "0")] []))
       fresh_page).

(** A page with one remembered exchange, whose backend creates the user and
    has no history of any kind for it. *)
Definition no_history : World :=
  on_network (with_history_script [Ok (Some []); NotOk 500 tt; Rejected])
    (on_network (with_users_script [Ok (Some (record alice))])
       (on_globals (with_chatHistory [old_entry]) fresh_page)).

(** A page with a message typed and a report selected, whose backend has one
    answer ready on every endpoint (three on the history one). *)
Definition all_up : World :=
  on_dom (with_reportFile (Some (sample_pdf 2048)))
    (on_dom (with_messageInput "hello")
       (on_network (fun _ =>
          mkNetwork [Ok (Some (record alice))]
            [Ok (Some (mkChatData (Some "Hi there.") None))]
            [Ok (Some (mkPredictionResult "diabetes" (Js.Finite 125 (-3))
                         "glucose" "walk"))]
            [Ok (Some (mkAnalysisResult None None))]
            [Ok (Some [3]); Ok (Some []); Rejected]
            [Ok (mkGenerated (Some "application/pdf") false)]
            [])
          fresh_page)).

(** The page of [all_up] with a backend that answers the creation of the
    user with status 200 and the JSON body [null]. *)
Definition null_user_created : World :=
  on_network (with_users_script [Ok (Some null)]) all_up.

(* ===================================================================== *)
(** ** The quick-action listener of [initializeEventListeners] *)
(* ===================================================================== *)

(** The delegated [click] listener of the quick-action buttons: the prompt
    of the button replaces the text of the input, then the message is sent. *)
Definition quickAction (prompt : string) : Op unit :=
  modify (on_dom (with_messageInput prompt)) ;;
  sendMessage.

(* ===================================================================== *)
(** ** More vocabulary and sample states *)
(* ===================================================================== *)

(** A string of white space only. *)
Fixpoint blank (s : string) : bool :=
  match s with
  | EmptyString => true
  | String c r => Js.is_white c && blank r
  end.

(** A [/users] answer that sends [createUser] to its [catch] block: the
    request is rejected, the response is not ok and is not the duplicate
    e-mail one, or a body is not JSON. *)
Definition users_call_fails (o : UsersOutcome) : bool :=
  match o with
  | Ok (Some _) => false
  | _ => negb (is_duplicate o)
  end.

(** A [/predict] answer that sends [submitPredictionForm] to its [catch]
    block; likewise for [/analyze-report]. *)
Definition json_call_fails {E A} (o : Outcome E (option A)) : bool :=
  match o with
  | Ok (Some _) => false
  | _ => true
  end.

(** A [/generate-report] answer that sends [generateReport] to its [catch]
    block. *)
Definition generate_call_fails (o : GenerateOutcome) : bool :=
  match o with
  | Ok generated =>
      negb (is_pdf (content_type generated)) && negb (body_is_json generated)
  | _ => true
  end.

Definition prediction_error_toast : Toast :=
  mkToast "Error calculating risk. Please try again." "error".

Definition prediction_done_toast : Toast :=
  mkToast "Risk assessment completed successfully!" "success".

Definition analysis_error_toast : Toast :=
  mkToast "Error analyzing report. Please try again." "error".

Definition analysis_done_toast : Toast :=
  mkToast "Report analysis completed successfully!" "success".

Definition report_error_toast : Toast :=
  mkToast "Error generating report. Please try again." "error".

Definition report_downloaded_toast : Toast :=
  mkToast "Health report downloaded successfully!" "success".

Definition report_generated_toast : Toast :=
  mkToast "Report generated successfully!" "success".

Definition new_chat_toast : Toast :=
  mkToast "New conversation started" "success".

(** The transcript once the welcome screen, if it is there, has been
    cleared by [addMessage]. *)
Definition without_welcome (renders : string -> bool) (nodes : list Node)
  : list Node :=
  if existsb (is_welcome renders) nodes then [] else nodes.

(** [saveChatHistory] for each exchange of a list, in order. *)
Fixpoint save_each (exchanges : list (string * string)) : Op unit :=
  match exchanges with
  | [] => ret tt
  | (q, r) :: rest => saveChatHistory q r ;; save_each rest
  end.

(** A page whose markdown library lets raw HTML through: the HTML made of a
    bot message holds a welcome screen when the message has an element of
    that class in it. *)
Definition raw_html_page : World :=
  {| globals := globals fresh_page;
     localStorage := localStorage fresh_page;
     dom := dom fresh_page;
     network := network fresh_page;
     entropy := entropy fresh_page;
     renders_welcome := Js.includes "<div class=welcome-screen>" |}.

(** A signed-in page: [alice] is the current user. *)
Definition signed_in : World :=
  on_globals (with_currentUser (record alice)) fresh_page.

(** A signed-in page with a filled prediction form, whose backend rejects
    the [/predict] request. *)
Definition predict_down : World :=
  on_network (with_predict_script [Rejected])
    (on_dom (with_predictionModal_shown true)
       (on_dom (with_predictionForm
                  (mkForm [("age", "41"); ("bmi", "27.5")] [("age", "")]))
          signed_in)).

(** A signed-in page with a report selected, whose backend answers 500 on
    [/analyze-report]. *)
Definition analyze_down : World :=
  on_network (with_analyze_script [NotOk 500 "boom"])
    (on_dom (with_reportFile (Some (sample_pdf 2048))) signed_in).

(** A signed-in page whose history lookups all find records with id 0. *)
Definition zero_ids : World :=
  on_network (with_generate_script [Ok (mkGenerated None true)])
    (on_network
       (with_history_script [Ok (Some [0]); Ok (Some [0; 4]); Ok (Some [0])])
       signed_in).

(** A signed-in page with a message typed, whose backend never answers. *)
Definition silent_backend : World :=
  on_dom (with_messageInput "anyone there?") signed_in.

(** A page with fifty-one exchanges in memory. *)
Definition long_history : World :=
  on_globals (with_chatHistory (repeat old_entry 51)) fresh_page.

(** The acknowledgment [callGeminiAPI] returns when the body has neither an
    [answer] nor a [response]. *)
Definition unexpected_response : string :=
  "I received your message but got an unexpected response.".

(** A field of a body that is missing or the empty string. *)
Definition missing (field : option string) : Prop :=
  field = None \/ field = Some EmptyString.

(** A sequence of operations, each started when the one before has ended:
    it has returned, or it has thrown (the page goes on after the rejected
    promise of a listener).  The sequence stops at an operation that is
    left waiting. *)
Fixpoint run_each (risk_percent : Js.Number -> string) (ops : list Operation)
  : Op unit :=
  match ops with
  | [] => ret tt
  | op :: rest =>
      fun w =>
        match run risk_percent op w with
        | (Pending, w') => (Pending, w')
        | (_, w') => run_each risk_percent rest w'
        end
  end.

(** [m] relates every state to the state it leaves, however it ends. *)
Definition respects {A} (R : World -> World -> Prop) (m : Op A) : Prop :=
  forall w, R w (snd (m w)).

(** The history stays within the cap if it was. *)
Definition keeps_cap (w w' : World) : Prop :=
  (List.length (chatHistory (globals w)) <= 50)%nat ->
  (List.length (chatHistory (globals w')) <= 50)%nat.

(** The history, in memory and in storage, is not written. *)
Definition keeps_history (w w' : World) : Prop :=
  chatHistory (globals w') = chatHistory (globals w)
  /\ medai_chat_history (localStorage w')
     = medai_chat_history (localStorage w).

(** A user record in [currentUser] is not replaced, and the stored identity
    is not written. *)
Definition keeps_identity (w w' : World) : Prop :=
  forall u, currentUser (globals w) = record u ->
            currentUser (globals w') = record u
            /\ medai_user (localStorage w') = medai_user (localStorage w).

(* ===================================================================== *)
(** ** Chat history: [saveChatHistory], [loadUserData], [startNewChat] *)
(* ===================================================================== *)

Open Scope list_scope.

Lemma slice_last_50 {A} (l : list A) :
  (50 < List.length l)%nat ->
  slice (-50) l = skipn (List.length l - 50) l.
Proof.
  intros Hlen. unfold slice.
  replace (-50 <? 0) with true by reflexivity.
  f_equal. lia.
Qed.

(** What [saveChatHistory] leaves in [chatHistory]: the old array with the
    new entry pushed, cut to its last fifty elements. *)
Lemma saveChatHistory_run (w : World) (q r : string) :
  let h := chatHistory (globals w) in
  let e := mkEntry q r (clock (entropy w) (ticks (entropy w))) in
  let h' := skipn (List.length h + 1 - 50) (h ++ [e]) in
  saveChatHistory q r w =
    (Normal tt,
     on_localStorage (with_medai_chat_history (Some h'))
       (on_globals (with_chatHistory h')
          (on_entropy (with_ticks (S (ticks (entropy w)))) w))).
Proof.
  intros h e h'. unfold saveChatHistory, bind, Date_now, modify, gets, ret.
  cbn [globals entropy chatHistory on_globals on_entropy on_localStorage
       with_chatHistory].
  fold h e.
  assert (Hlen : List.length (h ++ [e]) = (List.length h + 1)%nat)
    by (rewrite length_app; reflexivity).
  destruct (Z.of_nat (List.length (h ++ [e])) >? 50) eqn:Hcap.
  - apply Z.gtb_lt in Hcap.
    rewrite slice_last_50 by lia.
    cbn [globals chatHistory on_globals with_chatHistory].
    rewrite Hlen. reflexivity.
  - assert (Hle : (List.length h + 1 - 50 = 0)%nat).
    { rewrite Z.gtb_ltb in Hcap. apply Z.ltb_ge in Hcap. lia. }
    subst h'. rewrite Hle. cbn [skipn].
    unfold on_globals, on_localStorage, on_entropy, with_chatHistory.
    cbn. reflexivity.
Qed.

(** C3.  From every state, [saveChatHistory] returns having pushed exactly
    one entry (the new one is the last element, and what precedes it are the
    most recent old entries in order: the oldest are the ones dropped), the
    stored array has [min (previous + 1) 50] elements, so never more than
    fifty, and the same array is what is written under the
    [medai_chat_history] key. *)
Theorem saveChatHistory_appends_one_capped_at_50 (w : World) (q r : string) :
  let h := chatHistory (globals w) in
  let e := mkEntry q r (clock (entropy w) (ticks (entropy w))) in
  exists w',
    saveChatHistory q r w = (Normal tt, w')
    /\ (exists evicted, h ++ [e] = evicted ++ chatHistory (globals w')
                        /\ List.length evicted = (List.length h + 1 - 50)%nat)
    /\ List.length (chatHistory (globals w')) = Nat.min (List.length h + 1) 50
    /\ (List.length (chatHistory (globals w')) <= 50)%nat
    /\ medai_chat_history (localStorage w') = Some (chatHistory (globals w')).
Proof.
  intros h e. eexists. split; [apply saveChatHistory_run|].
  cbn [globals localStorage chatHistory medai_chat_history on_globals
       on_localStorage on_entropy with_chatHistory with_medai_chat_history].
  fold h e.
  assert (Hlen : List.length (h ++ [e]) = (List.length h + 1)%nat)
    by (rewrite length_app; reflexivity).
  repeat split.
  - exists (firstn (List.length h + 1 - 50) (h ++ [e])). split.
    + symmetry. apply firstn_skipn.
    + rewrite length_firstn. lia.
  - rewrite length_skipn. lia.
  - rewrite length_skipn. lia.
Qed.

(** C9.  [loadUserData] takes the stored history as it is: when the
    [medai_chat_history] key holds more than fifty entries, [chatHistory]
    holds all of them after loading, and it is the next [saveChatHistory]
    that brings the array back to fifty. *)
Theorem loadUserData_does_not_cap (w : World) (h : list ChatHistoryEntry) :
  medai_chat_history (localStorage w) = Some h ->
  (50 < List.length h)%nat ->
  exists w',
    loadUserData w = (Normal tt, w')
    /\ chatHistory (globals w') = h
    /\ (50 < List.length (chatHistory (globals w')))%nat
    /\ forall q r, exists w'',
         saveChatHistory q r w' = (Normal tt, w'')
         /\ List.length (chatHistory (globals w'')) = 50%nat.
Proof.
  intros Hstored Hlong.
  assert (Hrun : loadUserData w =
                 (Normal tt,
                  on_globals (with_chatHistory h)
                    match medai_user (localStorage w) with
                    | Some u => on_globals (with_currentUser u) w
                    | None => w
                    end)).
  { unfold loadUserData, bind, gets, modify, ret.
    destruct (medai_user (localStorage w)) as [u|];
      cbn [localStorage on_globals]; rewrite Hstored; reflexivity. }
  eexists. split; [exact Hrun|].
  cbn [globals chatHistory on_globals with_chatHistory].
  split; [reflexivity|]. split; [exact Hlong|].
  intros q r. eexists. split; [apply saveChatHistory_run|].
  cbn [globals chatHistory on_globals on_localStorage on_entropy
       with_chatHistory].
  rewrite length_skipn, length_app. cbn [List.length]. lia.
Qed.

Lemma loadUserData_does_not_cap_witness :
  exists w',
    loadUserData stored_51 = (Normal tt, w')
    /\ chatHistory (globals w') = repeat old_entry 51
    /\ (50 < List.length (chatHistory (globals w')))%nat
    /\ forall q r, exists w'',
         saveChatHistory q r w' = (Normal tt, w'')
         /\ List.length (chatHistory (globals w'')) = 50%nat.
Proof.
  apply (loadUserData_does_not_cap stored_51 (repeat old_entry 51)).
  - reflexivity.
  - vm_compute. lia.
Defined.

(** C10.  [startNewChat] empties [chatHistory] and removes the
    [medai_chat_history] key, and touches neither [currentUser] nor the
    [medai_user] key. *)
Theorem startNewChat_keeps_identity (w : World) :
  exists w',
    startNewChat w = (Normal tt, w')
    /\ chatHistory (globals w') = []
    /\ medai_chat_history (localStorage w') = None
    /\ currentUser (globals w') = currentUser (globals w)
    /\ medai_user (localStorage w') = medai_user (localStorage w).
Proof.
  eexists. split; [reflexivity|].
  cbn. repeat split.
Qed.

(* ===================================================================== *)
(** ** The JavaScript primitives on sample inputs *)
(* ===================================================================== *)

Example parseInt_42 : Js.parseInt (Some "  42px") = Js.Finite 42 0.
Proof. reflexivity. Qed.
Example parseInt_hex : Js.parseInt (Some "-0x1f") = Js.Finite (-31) 0.
Proof. reflexivity. Qed.
Example parseInt_null : Js.parseInt None = Js.NaN.
Proof. reflexivity. Qed.
Example parseFloat_half : Js.parseFloat (Some "0.5") = Js.Finite 5 (-1).
Proof. reflexivity. Qed.
Example parseFloat_exp : Js.parseFloat (Some "12.5e3kg") = Js.Finite 125 2.
Proof. reflexivity. Qed.
Example parseFloat_dot : Js.parseFloat (Some ".") = Js.NaN.
Proof. reflexivity. Qed.
Example trim_both : Js.trim "  a b  " = "a b".
Proof. reflexivity. Qed.
Example show_Z_17 : Js.show_Z 1700 = "1700".
Proof. reflexivity. Qed.


(* ===================================================================== *)
(** ** [createUser] *)
(* ===================================================================== *)

Lemma users_request_retry name now now' :
  users_request name (retry_email now) now'
  = PostUsers (Js.str_or_else (Some name) "Guest User") (retry_email now).
Proof. reflexivity. Qed.

Ltac destruct_world w :=
  let g := fresh "g" in let l := fresh "l" in let d := fresh "d" in
  let n := fresh "n" in let e := fresh "e" in let r := fresh "r" in
  destruct w as [g l d n e r]; destruct l, d, n, e.

Lemma retry_requests_shift (name : string) (clock : nat -> Z) (t n : nat) :
  map (retry_request name clock t) (seq 0 (S n))
  = retry_request name clock t 0
    :: map (retry_request name clock (S (S t))) (seq 0 n).
Proof.
  cbn [seq map]. f_equal.
  rewrite <- seq_shift, map_map. apply map_ext. intros k.
  unfold retry_request. do 3 f_equal. lia.
Qed.

Lemma final_answer_settles (script : list UsersOutcome) :
  existsb (fun o => negb (is_duplicate o)) script = true ->
  final_answer script <> None.
Proof.
  induction script as [|o rest IH]; cbn [existsb final_answer].
  - discriminate.
  - destruct (is_duplicate o); cbn [negb orb]; [exact IH|discriminate].
Qed.

(** [createUser] never throws: it returns a value that it has stored under
    [medai_user], or it is left waiting on a request.  It issues one
    [POST /users], and one more for each duplicate e-mail answer it gets,
    with an e-mail made from the clock.  What it returns is the body of the
    answer that ends the retries, or the mock user. *)
Lemma createUser_on_run (script : list UsersOutcome) :
  forall (name email : string) (w : World),
  exists c mu tc rest rq tk dr,
    createUser_on script name email w
      = (c, after_createUser mu tc rest rq tk dr w)
    /\ (c = Pending \/ exists u, c = Normal u /\ mu = Some u)
    /\ (existsb (fun o => negb (is_duplicate o)) script = true -> c <> Pending)
    /\ (exists ts, tc = toastContainer (dom w) ++ ts
                   /\ (ts = [] \/ ts = [success_toast]))
    /\ (exists retries,
          rq = requests (network w)
               ++ users_request name email (clock (entropy w) (ticks (entropy w)))
                  :: retries
          /\ List.length retries = leading_duplicates script
          /\ Forall (is_retry_of name) retries)
    /\ rq = requests (network w)
            ++ users_request name email (clock (entropy w) (ticks (entropy w)))
               :: map (retry_request name (clock (entropy w)) (ticks (entropy w)))
                    (seq 0 (leading_duplicates script))
    /\ (creates_record script = true -> exists u, c = Normal (record u))
    /\ (forall b, final_answer script = Some (Ok (Some b)) -> c = Normal b)
    /\ (final_answer script = None -> c = Pending).
Proof.
  induction script as [|o rest IH]; intros name email w.
  - exists Pending, (medai_user (localStorage w)), (toastContainer (dom w)),
      (users_script (network w)),
      (requests (network w)
       ++ [users_request name email (clock (entropy w) (ticks (entropy w)))]),
      (S (ticks (entropy w))), (draws (entropy w)).
    split; [destruct_world w; reflexivity|].
    split; [left; reflexivity|]. split; [discriminate|].
    split; [exists []; rewrite app_nil_r; auto|].
    split; [exists []; auto|].
    split; [reflexivity|].
    split; [discriminate|]. split; [discriminate|]. reflexivity.
  - destruct (is_duplicate o) eqn:Hdup.
    + destruct o as [|status [errorData|]|[created|]]; try discriminate Hdup.
      cbn [is_duplicate] in Hdup.
      cbn [createUser_on]. unfold try_catch at 1.
      unfold bind at 1. cbn [Date_now].
      unfold bind at 1. unfold modify at 1.
      unfold bind at 1. unfold modify at 1.
      rewrite Hdup.
      unfold bind at 1. cbn [Date_now].
      match goal with
      | |- context [createUser_on rest name ?e ?w2] =>
          destruct (IH name e w2)
            as (c & mu & tc & rest' & rq & tk' & dr' & Hrun & Hc & Hprog
                & Htoast & (retries & Hrq & Hlen & Hretries) & Hclosed
                & Hrecord & Hbody & Hnone);
          rewrite Hrun
      end.
      exists c, mu, tc, rest', rq, tk', dr'.
      split.
      { destruct Hc as [->|(u & -> & _)]; destruct_world w; reflexivity. }
      split; [exact Hc|].
      split; [cbn [existsb is_duplicate]; rewrite Hdup; exact Hprog|].
      split; [exact Htoast|].
      cbn [network entropy requests clock ticks on_entropy on_network
           with_requests with_users_script with_ticks] in Hrq, Hclosed.
      rewrite users_request_retry in Hrq, Hclosed.
      split.
      { eexists (_ :: retries).
        split; [rewrite Hrq, <- app_assoc; reflexivity|].
        split; [cbn [List.length leading_duplicates is_duplicate];
                rewrite Hdup, Hlen; reflexivity|].
        constructor; [eexists; reflexivity|exact Hretries]. }
      split.
      { cbn [leading_duplicates is_duplicate]. rewrite Hdup.
        rewrite retry_requests_shift, Hclosed, <- app_assoc.
        cbn [app]. unfold retry_request at 2.
        replace (ticks (entropy w) + 2 * 0 + 1)%nat with (S (ticks (entropy w)))
          by lia.
        reflexivity. }
      cbn [creates_record final_answer is_duplicate]. rewrite Hdup.
      split; [exact Hrecord|]. split; [exact Hbody|exact Hnone].
    + assert (Hlead : leading_duplicates (o :: rest) = O)
        by (cbn [leading_duplicates]; rewrite Hdup; reflexivity).
      rewrite Hlead.
      pose (mock := record
                      (mkUser (random (entropy w) (draws (entropy w)) mod 1000 + 1)
                         "Guest User"
                         (guest_email (clock (entropy w) (S (ticks (entropy w))))))).
      pose (rq := requests (network w)
                  ++ [users_request name email
                        (clock (entropy w) (ticks (entropy w)))]).
      assert (Hcases :
        (createUser_on (o :: rest) name email w =
          (Normal mock,
           after_createUser (Some mock) (toastContainer (dom w)) rest rq
             (S (S (ticks (entropy w)))) (S (draws (entropy w))) w)
         /\ users_call_fails o = true)
        \/ (exists u, o = Ok (Some u)
           /\ createUser_on (o :: rest) name email w =
           (Normal u,
            after_createUser (Some u) (toastContainer (dom w) ++ [success_toast])
              rest rq (S (ticks (entropy w))) (draws (entropy w)) w))).
      { subst mock rq. destruct o as [|status [errorData|]|[created|]].
        - left. split; [destruct_world w; reflexivity|reflexivity].
        - left. split; [|unfold users_call_fails; rewrite Hdup; reflexivity].
          cbn [is_duplicate] in Hdup.
          cbn [createUser_on]. unfold try_catch, bind. cbn [Date_now modify].
          rewrite Hdup. destruct_world w. reflexivity.
        - left. split; [destruct_world w; reflexivity|reflexivity].
        - right. exists created. split; [reflexivity|].
          destruct_world w. reflexivity.
        - left. split; [destruct_world w; reflexivity|reflexivity]. }
      cbn [creates_record final_answer]. rewrite Hdup.
      destruct Hcases as [(Hrun & Hfails)|(u & -> & Hrun)]; rewrite Hrun;
        do 7 eexists;
        (split; [reflexivity|]);
        (split; [right; eexists; split; reflexivity|]);
        (split; [discriminate|]).
      * split; [exists []; rewrite app_nil_r; auto|].
        split; [exists []; auto|].
        split; [reflexivity|].
        split; [intros _; eexists; reflexivity|].
        split; [|discriminate].
        intros b Hb. injection Hb as ->. discriminate Hfails.
      * split; [exists [success_toast]; auto|].
        split; [exists []; auto|].
        split; [reflexivity|].
        split.
        { intros Hrec. destruct u as [|u|t]; try discriminate Hrec.
          eexists; reflexivity. }
        split; [|discriminate].
        intros b Hb. injection Hb as ->. reflexivity.
Qed.

Lemma createUser_run (name email : string) (w : World) :
  exists c mu tc rest rq tk dr,
    createUser name email w = (c, after_createUser mu tc rest rq tk dr w)
    /\ (c = Pending \/ exists u, c = Normal u /\ mu = Some u)
    /\ (existsb (fun o => negb (is_duplicate o)) (users_script (network w)) = true
        -> c <> Pending)
    /\ (exists ts, tc = toastContainer (dom w) ++ ts
                   /\ (ts = [] \/ ts = [success_toast]))
    /\ (exists retries,
          rq = requests (network w)
               ++ users_request name email (clock (entropy w) (ticks (entropy w)))
                  :: retries
          /\ List.length retries = leading_duplicates (users_script (network w))
          /\ Forall (is_retry_of name) retries)
    /\ rq = requests (network w)
            ++ users_request name email (clock (entropy w) (ticks (entropy w)))
               :: map (retry_request name (clock (entropy w)) (ticks (entropy w)))
                    (seq 0 (leading_duplicates (users_script (network w))))
    /\ (creates_record (users_script (network w)) = true
        -> exists u, c = Normal (record u))
    /\ (forall b, final_answer (users_script (network w)) = Some (Ok (Some b))
                  -> c = Normal b)
    /\ (final_answer (users_script (network w)) = None -> c = Pending).
Proof. unfold createUser. apply createUser_on_run. Qed.

Lemma world_eta (w : World) :
  on_globals (with_currentUser (currentUser (globals w)))
    (after_createUser (medai_user (localStorage w)) (toastContainer (dom w))
       (users_script (network w)) (requests (network w))
       (ticks (entropy w)) (draws (entropy w)) w) = w.
Proof. destruct_world w. destruct g. reflexivity. Qed.

(** [ensureUser] returns or stays pending; it returns with a user record in
    [currentUser] when the identity is at hand.  Besides [currentUser] it
    changes what [createUser] changes, and it calls [createUser] only when
    [currentUser] is falsy. *)
Lemma ensureUser_run (w : World) :
  exists c cu mu tc rest rq tk dr,
    ensureUser w
      = (c, on_globals (with_currentUser cu)
              (after_createUser mu tc rest rq tk dr w))
    /\ ((c = Pending /\ identity_available w = false)
        \/ (c = Normal tt
            /\ (identity_available w = true -> exists u, cu = record u)))
    /\ (exists ts, tc = toastContainer (dom w) ++ ts
                   /\ (ts = [] \/ ts = [success_toast]))
    /\ (exists issued, rq = requests (network w) ++ issued
                       /\ forallb is_PostUsers issued = true)
    /\ (user_truthy (currentUser (globals w)) = true ->
        c = Normal tt /\ cu = currentUser (globals w)
        /\ rq = requests (network w))
    /\ (user_truthy (currentUser (globals w)) = false ->
        (c = Pending -> cu = currentUser (globals w)
                        /\ final_answer (users_script (network w)) = None)
        /\ (forall b,
              final_answer (users_script (network w)) = Some (Ok (Some b)) ->
              c = Normal tt /\ cu = b)
        /\ (final_answer (users_script (network w)) = None -> c = Pending)
        /\ (c = Normal tt -> medai_user (localStorage
               (after_createUser mu tc rest rq tk dr w)) = Some cu)).
Proof.
  unfold ensureUser, bind, gets.
  destruct (user_truthy (currentUser (globals w))) eqn:Htruthy.
  - exists (Normal tt), (currentUser (globals w)), (medai_user (localStorage w)),
      (toastContainer (dom w)), (users_script (network w)),
      (requests (network w)), (ticks (entropy w)), (draws (entropy w)).
    split; [unfold ret; rewrite world_eta; reflexivity|].
    split.
    { right. split; [reflexivity|]. unfold identity_available.
      destruct (currentUser (globals w)) as [|u|[|]];
        try discriminate Htruthy; [eauto|discriminate]. }
    split; [exists []; rewrite app_nil_r; auto|].
    split; [exists []; rewrite app_nil_r; auto|].
    split; [auto|discriminate].
  - destruct (createUser_run "Guest User" "guest@example.com" w)
      as (c & mu & tc & rest & rq & tk & dr & Hrun & Hc & Hprog & Htoast
          & (retries & Hrq & Hlen & Hretries) & _ & Hrecord & Hbody & Hnone).
    rewrite Hrun.
    assert (Hissued : exists issued, rq = requests (network w) ++ issued
                                     /\ forallb is_PostUsers issued = true).
    { eexists. split; [exact Hrq|]. cbn [forallb users_request is_PostUsers].
      clear - Hretries. induction Hretries as [|r l (now & ->) _ IH];
        [reflexivity|exact IH]. }
    assert (Hid : identity_available w
                  = creates_record (users_script (network w))).
    { unfold identity_available.
      destruct (currentUser (globals w)) as [|u|[|]];
        try discriminate Htruthy; reflexivity. }
    destruct Hc as [->|(u & -> & ->)].
    + exists Pending, (currentUser (globals w)), mu, tc, rest, rq, tk, dr.
      split.
      { f_equal. unfold after_createUser, on_globals. cbn.
        destruct (globals w); reflexivity. }
      split.
      { left. split; [reflexivity|]. rewrite Hid.
        destruct (creates_record _); [|reflexivity].
        destruct (Hrecord eq_refl) as (u & Hu). discriminate Hu. }
      split; [assumption|]. split; [assumption|].
      split; [discriminate|]. intros _.
      split.
      { intros _. split; [reflexivity|].
        destruct (final_answer (users_script (network w))) as [o|] eqn:Hfinal;
          [|reflexivity].
        exfalso. apply Hprog; [|reflexivity].
        clear - Hfinal.
        induction (users_script (network w)) as [|o' r IH]; [discriminate|].
        cbn [final_answer] in Hfinal. cbn [existsb].
        destruct (is_duplicate o'); cbn [negb orb]; [auto|reflexivity]. }
      split; [intros b Hb; discriminate (Hbody b Hb)|].
      split; [reflexivity|discriminate].
    + exists (Normal tt), u, (Some u), tc, rest, rq, tk, dr.
      split; [reflexivity|].
      split.
      { right. split; [reflexivity|]. rewrite Hid. intros Hrec.
        destruct (Hrecord Hrec) as (u' & Hu'). injection Hu' as ->. eauto. }
      split; [assumption|]. split; [assumption|].
      split; [discriminate|]. intros _.
      split; [discriminate|].
      split.
      { intros b Hb. specialize (Hbody b Hb). injection Hbody as ->. auto. }
      split; [intros Hn; discriminate (Hnone Hn)|].
      intros _. reflexivity.
Qed.

Lemma addMessage_run (content : string) (type : MessageType) (w : World) :
  addMessage content type w =
    (Normal tt,
     on_dom (with_chatContainer
               ((if existsb (is_welcome (renders_welcome w))
                       (chatContainer (dom w))
                 then [] else chatContainer (dom w))
                ++ [Message type content (clock (entropy w) (ticks (entropy w)))]))
       (on_entropy (with_ticks (S (ticks (entropy w)))) w)).
Proof.
  unfold addMessage, bind, gets.
  destruct (existsb (is_welcome (renders_welcome w)) (chatContainer (dom w)));
    reflexivity.
Qed.

Arguments ensureUser : simpl never.
Arguments addMessage : simpl never.
Arguments saveChatHistory : simpl never.
Arguments Js.show_Z : simpl never.
Arguments Js.trim : simpl never.

Lemma is_welcome_user renders content time :
  is_welcome renders (Message user content time) = false.
Proof. reflexivity. Qed.

(** Once [addMessage] has added a user message, no welcome screen is found:
    the next message of the same operation is appended. *)
Lemma no_welcome_after_message renders (nodes : list Node) content time :
  existsb (is_welcome renders)
    ((if existsb (is_welcome renders) nodes then [] else nodes)
     ++ [Message user content time]) = false.
Proof.
  rewrite existsb_app. destruct (existsb (is_welcome renders) nodes) eqn:H; cbn.
  - reflexivity.
  - rewrite H. reflexivity.
Qed.

(** C4.  When the trimmed input is not empty and the [/chat] call is made
    and fails (the promise rejects, or the response is not ok),
    [sendMessage] returns with the transcript grown by the user message
    followed by exactly one bot message, the apology; the error toast is the
    last toast shown; [chatHistory] and the [medai_chat_history] key are as
    before. *)
Theorem sendMessage_chat_failure (w : World) (o : ChatOutcome)
    (rest : list ChatOutcome) :
  Js.trim (messageInput (dom w)) <> EmptyString ->
  identity_available w = true ->
  chat_script (network w) = o :: rest ->
  chat_fails o = true ->
  exists w' t1 t2 ts,
    sendMessage w = (Normal tt, w')
    /\ chatContainer (dom w')
       = (if existsb (is_welcome (renders_welcome w)) (chatContainer (dom w))
          then [] else chatContainer (dom w))
         ++ [Message user (Js.trim (messageInput (dom w))) t1;
             Message bot apology t2]
    /\ toastContainer (dom w') = toastContainer (dom w) ++ ts ++ [error_toast]
    /\ (ts = [] \/ ts = [success_toast])
    /\ chatHistory (globals w') = chatHistory (globals w)
    /\ medai_chat_history (localStorage w') = medai_chat_history (localStorage w)
    /\ sendBtn_disabled (dom w') = false.
Proof.
  intros Hmsg Hid Hscript Hfail.
  unfold sendMessage. unfold bind at 1. unfold gets at 1.
  destruct (Js.trim (messageInput (dom w))) as [|c0 s0] eqn:Htrim;
    [congruence|].
  unfold bind at 1. rewrite addMessage_run.
  unfold bind at 1. unfold modify at 1.
  unfold bind at 1. unfold modify at 1.
  unfold try_finally, try_catch.
  unfold bind at 1.
  match goal with
  | |- context [ensureUser ?w2] =>
      destruct (ensureUser_run w2)
        as (c & cu & mu & tc & rest' & rq & tk & dr & Hrun & Hc & Htoast & Hrq
            & _);
      rewrite Hrun
  end.
  destruct Hc as [(-> & Hna)|(-> & Hu)].
  { exfalso. revert Hna. unfold identity_available in *. cbn.
    rewrite Hid. discriminate. }
  destruct Hu as (u & ->).
  { revert Hid. unfold identity_available. cbn. auto. }
  unfold bind at 1. unfold callGeminiAPI at 1.
  unfold bind at 1. unfold gets at 1.
  cbn [globals on_globals currentUser with_currentUser user_truthy negb].
  unfold bind at 1. unfold currentUser_id at 1.
  unfold bind at 1. unfold gets at 1.
  cbn [globals on_globals currentUser with_currentUser]. unfold ret at 1.
  unfold bind at 1. unfold fetch at 1.
  cbn [network on_network on_globals after_createUser chat_script
       with_requests with_users_script with_chat_script on_dom on_entropy].
  rewrite Hscript.
  destruct Htoast as (ts & -> & Hts).
  destruct o as [|status errorText|body]; try discriminate Hfail;
    unfold throw at 1; unfold bind at 1; unfold showToast at 1;
    unfold modify at 1; rewrite addMessage_run; unfold modify at 1;
    (do 3 eexists); exists ts;
    (split; [reflexivity|]);
    cbn; rewrite no_welcome_after_message, <- !app_assoc; cbn;
    repeat split; auto.
Qed.

(* ===================================================================== *)
(** ** Report upload: [handleFileSelect], [analyzeReport] *)
(* ===================================================================== *)

Lemma analyzeReport_without_file (w : World) :
  reportFile (dom w) = None ->
  analyzeReport w =
    (Normal tt,
     on_dom (fun d => with_toastContainer (toastContainer d ++ [no_file_toast]) d)
       w).
Proof.
  intros Hnone. unfold analyzeReport, bind, gets. rewrite Hnone. reflexivity.
Qed.

(** C5.  A file that is not a PDF, or a PDF of more than 10 MiB, is turned
    away when it is selected, each with its own toast, and the input is
    emptied, so that [analyzeReport] then stops at its own "select a file
    first" toast; a missing file stops there too.  In all three cases the
    network is untouched: no request is issued and no answer consumed.  A
    PDF of at most 10 MiB (so also of exactly 10 MiB) stays selected and
    raises no toast. *)
Theorem invalid_report_rejected_locally (w : World) (file : File) :
  (file_type file <> "application/pdf"%string ->
   exists w1 w2,
     selectFile file w = (Normal tt, w1)
     /\ analyzeReport w1 = (Normal tt, w2)
     /\ toastContainer (dom w1) = toastContainer (dom w) ++ [wrong_type_toast]
     /\ toastContainer (dom w2)
        = toastContainer (dom w) ++ [wrong_type_toast; no_file_toast]
     /\ network w2 = network w)
  /\ (file_type file = "application/pdf"%string ->
      10 * 1024 * 1024 < file_size file ->
      exists w1 w2,
        selectFile file w = (Normal tt, w1)
        /\ analyzeReport w1 = (Normal tt, w2)
        /\ toastContainer (dom w1) = toastContainer (dom w) ++ [too_large_toast]
        /\ toastContainer (dom w2)
           = toastContainer (dom w) ++ [too_large_toast; no_file_toast]
        /\ network w2 = network w)
  /\ (reportFile (dom w) = None ->
      exists w2,
        analyzeReport w = (Normal tt, w2)
        /\ toastContainer (dom w2) = toastContainer (dom w) ++ [no_file_toast]
        /\ network w2 = network w)
  /\ (file_type file = "application/pdf"%string ->
      file_size file <= 10 * 1024 * 1024 ->
      exists w1,
        selectFile file w = (Normal tt, w1)
        /\ reportFile (dom w1) = Some file
        /\ toastContainer (dom w1) = toastContainer (dom w)
        /\ network w1 = network w).
Proof.
  split; [|split; [|split]].
  - intros Htype. apply String.eqb_neq in Htype.
    do 2 eexists. split.
    { unfold selectFile, handleFileSelect, bind, modify, gets. cbn.
      rewrite Htype. cbn. reflexivity. }
    split; [apply analyzeReport_without_file; reflexivity|].
    cbn. rewrite <- app_assoc. auto.
  - intros Htype Hsize. apply String.eqb_eq in Htype.
    apply Z.gtb_lt in Hsize.
    do 2 eexists. split.
    { unfold selectFile, handleFileSelect, bind, modify, gets.
      cbn -[Z.gtb Z.mul String.eqb].
      rewrite Htype. cbn -[Z.gtb Z.mul].
      rewrite Hsize. cbn. reflexivity. }
    split; [apply analyzeReport_without_file; reflexivity|].
    cbn. rewrite <- app_assoc. auto.
  - intros Hnone. eexists.
    split; [apply analyzeReport_without_file; exact Hnone|].
    cbn. auto.
  - intros Htype Hsize. apply String.eqb_eq in Htype.
    assert (Hle : (file_size file >? 10 * 1024 * 1024) = false).
    { rewrite Z.gtb_ltb. apply Z.ltb_ge. exact Hsize. }
    eexists. split.
    { unfold selectFile, handleFileSelect, bind, modify, gets.
      cbn -[Z.gtb Z.mul String.eqb].
      rewrite Htype. cbn -[Z.gtb Z.mul].
      rewrite Hle. cbn. reflexivity. }
    cbn. auto.
Qed.

Lemma invalid_report_rejected_locally_witness :
  (exists w1 w2,
     selectFile (mkFile "notes.txt" "text/plain" 12) fresh_page = (Normal tt, w1)
     /\ analyzeReport w1 = (Normal tt, w2)
     /\ toastContainer (dom w2) = [wrong_type_toast; no_file_toast]
     /\ network w2 = network fresh_page)
  /\ (exists w1 w2,
        selectFile (sample_pdf 10485761) fresh_page = (Normal tt, w1)
        /\ analyzeReport w1 = (Normal tt, w2)
        /\ toastContainer (dom w2) = [too_large_toast; no_file_toast]
        /\ network w2 = network fresh_page)
  /\ (exists w2,
        analyzeReport fresh_page = (Normal tt, w2)
        /\ toastContainer (dom w2) = [no_file_toast])
  /\ (exists w1,
        selectFile (sample_pdf 10485760) fresh_page = (Normal tt, w1)
        /\ reportFile (dom w1) = Some (sample_pdf 10485760)
        /\ toastContainer (dom w1) = []).
Proof.
  split; [|split; [|split]].
  - destruct (proj1 (invalid_report_rejected_locally fresh_page
                       (mkFile "notes.txt" "text/plain" 12)))
      as (w1 & w2 & H1 & H2 & _ & H4 & H5); [discriminate|].
    exists w1, w2. auto.
  - destruct (proj1 (proj2 (invalid_report_rejected_locally fresh_page
                              (sample_pdf 10485761))))
      as (w1 & w2 & H1 & H2 & _ & H4 & H5); [reflexivity|reflexivity|].
    exists w1, w2. auto.
  - destruct (proj1 (proj2 (proj2 (invalid_report_rejected_locally fresh_page
                                     (sample_pdf 0)))))
      as (w2 & H1 & H2 & _); [reflexivity|].
    exists w2. auto.
  - destruct (proj2 (proj2 (proj2 (invalid_report_rejected_locally fresh_page
                                     (sample_pdf 10485760)))))
      as (w1 & H1 & H2 & H3 & _); [reflexivity|discriminate|].
    exists w1. auto.
Defined.

(* ===================================================================== *)
(** ** The prediction form: [submitPredictionForm] *)
(* ===================================================================== *)

Lemma PostUsers_only (issued : list Request) (r : Request) :
  forallb is_PostUsers issued = true -> In r issued -> is_PostUsers r = true.
Proof. intros Hall Hin. rewrite forallb_forall in Hall. auto. Qed.

Arguments predictionData : simpl never.

(** What [submitPredictionForm] sends: besides the [POST /users] of
    [createUser], one [POST /predict] whose body is [predictionData] of the
    form, and it does send it once the identity is at hand. *)
Lemma submitPredictionForm_requests risk_percent (w : World) :
  let formData := form_values (predictionForm (dom w)) in
  exists issued,
    requests (network (snd (submitPredictionForm risk_percent w)))
      = requests (network w) ++ issued
    /\ (forall d, In (PostPredict d) issued ->
                  exists uid, d = predictionData uid formData)
    /\ (identity_available w = true ->
        exists uid, In (PostPredict (predictionData uid formData)) issued).
Proof.
  intros formData. unfold submitPredictionForm.
  unfold bind at 1. unfold gets at 1. fold formData.
  unfold bind at 1.
  destruct (ensureUser_run w)
    as (c & cu & mu & tc & rest' & rq & tk & dr & Hrun & Hc & Htoast
        & (issued & -> & Hissued) & _).
  rewrite Hrun.
  destruct Hc as [(-> & Hna)|(-> & Hu)].
  { exists issued. split; [reflexivity|]. split.
    - intros d Hin. apply (PostUsers_only _ _ Hissued) in Hin. discriminate.
    - rewrite Hna. discriminate. }
  unfold bind at 1. unfold currentUser_id at 1.
  unfold bind at 1. unfold gets at 1.
  cbn [globals on_globals currentUser with_currentUser].
  destruct cu as [|u|truthy].
  { (* [currentUser.id] throws before anything is sent *)
    exists issued. split; [reflexivity|]. split.
    - intros d Hin. apply (PostUsers_only _ _ Hissued) in Hin. discriminate.
    - intros Hid. destruct (Hu Hid) as (u & Hnull). discriminate Hnull. }
  all: cbn [ret]; unfold bind at 1; unfold showLoading, showModal, bind, modify;
    unfold try_finally, try_catch, fetch;
    cbn [network on_network on_globals on_dom after_createUser predict_script
         with_requests with_users_script with_predict_script];
    match goal with
    | |- context [PostPredict (predictionData ?uid ?fd)] =>
        exists (issued ++ [PostPredict (predictionData uid fd)]);
        (split; [|split]);
        [ destruct (predict_script (network w)) as [|o rest];
          [ cbn; rewrite <- app_assoc; reflexivity
          | destruct o as [|status errorText|[result|]];
            try rewrite addMessage_run; cbn; rewrite <- app_assoc;
            reflexivity ]
        | intros d Hin; apply in_app_or in Hin;
          destruct Hin as [Hin|[Heq|[]]];
          [ apply (PostUsers_only _ _ Hissued) in Hin; discriminate
          | exists uid; congruence ]
        | intros _; exists uid; apply in_or_app; right; left; reflexivity ]
    end.
Qed.

(** C7.  Whatever [submitPredictionForm] posts to [/predict] (and it does
    post once the identity is at hand) carries, for every numeric field that
    the form leaves out or whose text does not parse as a number, the default
    of that field: age 30, bmi 25, glucose 100, blood_pressure 120,
    diabetes_pedigree 0.5, pregnancies 0, skin_thickness 20, insulin 80; and
    for a missing gender, lifestyle or symptoms, "unknown", "Not specified"
    and "No symptoms reported". *)
Theorem omitted_fields_get_defaults risk_percent (w : World) :
  let formData := form_values (predictionForm (dom w)) in
  exists issued,
    requests (network (snd (submitPredictionForm risk_percent w)))
      = requests (network w) ++ issued
    /\ (identity_available w = true -> exists d, In (PostPredict d) issued)
    /\ forall d, In (PostPredict d) issued ->
         (omitted_or_not_numeric Js.parseInt (get "age" formData) ->
          age (demographics d) = Js.Finite 30 0)
         /\ (omitted_or_not_numeric Js.parseFloat (get "bmi" formData) ->
             bmi (vitals d) = Js.Finite 25 0)
         /\ (omitted_or_not_numeric Js.parseInt (get "glucose" formData) ->
             glucose (vitals d) = Js.Finite 100 0)
         /\ (omitted_or_not_numeric Js.parseInt (get "blood_pressure" formData) ->
             blood_pressure (vitals d) = Js.Finite 120 0)
         /\ (omitted_or_not_numeric Js.parseFloat
               (get "diabetes_pedigree" formData) ->
             diabetes_pedigree (vitals d) = Js.Finite 5 (-1))
         /\ (omitted_or_not_numeric Js.parseInt (get "pregnancies" formData) ->
             pregnancies (vitals d) = Js.Finite 0 0)
         /\ (omitted_or_not_numeric Js.parseFloat
               (get "skin_thickness" formData) ->
             skin_thickness (vitals d) = Js.Finite 20 0)
         /\ (omitted_or_not_numeric Js.parseInt (get "insulin" formData) ->
             insulin (vitals d) = Js.Finite 80 0)
         /\ (get "gender" formData = None ->
             gender (demographics d) = "unknown"%string)
         /\ (get "lifestyle" formData = None ->
             lifestyle d = "Not specified"%string)
         /\ (get "symptoms" formData = None ->
             symptoms d = "No symptoms reported"%string).
Proof.
  intros formData.
  destruct (submitPredictionForm_requests risk_percent w)
    as (issued & Hreq & Hshape & Hsent).
  fold formData in Hshape, Hsent.
  exists issued. split; [exact Hreq|]. split.
  - intros Hid. destruct (Hsent Hid) as (uid & Hin). eauto.
  - intros d Hin. destruct (Hshape d Hin) as (uid & ->).
    unfold predictionData, omitted_or_not_numeric.
    cbn [age gender demographics vitals bmi glucose blood_pressure
         diabetes_pedigree pregnancies skin_thickness insulin lifestyle
         symptoms].
    repeat split; intros H; try (rewrite H; reflexivity);
      destruct H as [H|H]; rewrite H; reflexivity.
Qed.

Lemma omitted_fields_get_defaults_witness :
  exists d,
    In (PostPredict d)
       (requests (network (snd (submitPredictionForm percent_stub
                                  half_filled_form))))
    /\ age (demographics d) = Js.Finite 30 0
    /\ insulin (vitals d) = Js.Finite 80 0
    /\ lifestyle d = "Not specified"%string.
Proof.
  destruct (omitted_fields_get_defaults percent_stub half_filled_form)
    as (issued & Hreq & Hsent & Hdefaults).
  destruct (Hsent eq_refl) as (d & Hin).
  exists d. split; [rewrite Hreq; apply in_or_app; right; exact Hin|].
  destruct (Hdefaults d Hin)
    as (Hage & _ & _ & _ & _ & _ & _ & Hinsulin & _ & Hlifestyle & _).
  split; [apply Hage; right; reflexivity|].
  split; [apply Hinsulin; left; reflexivity|].
  apply Hlifestyle. reflexivity.
Defined.

(** C8.  The default also replaces an entered zero: for every numeric field
    whose text parses to 0, what [submitPredictionForm] posts to [/predict]
    is the default of the field (age 30, bmi 25, glucose 100, ...), not 0;
    so a [bmi] of "0" is sent as 25 and a [glucose] of "0" as 100. *)
Theorem zero_fields_get_defaults risk_percent (w : World) :
  let formData := form_values (predictionForm (dom w)) in
  exists issued,
    requests (network (snd (submitPredictionForm risk_percent w)))
      = requests (network w) ++ issued
    /\ (identity_available w = true -> exists d, In (PostPredict d) issued)
    /\ forall d, In (PostPredict d) issued ->
         (parses_to_zero (Js.parseInt (get "age" formData)) ->
          age (demographics d) = Js.Finite 30 0)
         /\ (parses_to_zero (Js.parseFloat (get "bmi" formData)) ->
             bmi (vitals d) = Js.Finite 25 0)
         /\ (parses_to_zero (Js.parseInt (get "glucose" formData)) ->
             glucose (vitals d) = Js.Finite 100 0)
         /\ (parses_to_zero (Js.parseInt (get "blood_pressure" formData)) ->
             blood_pressure (vitals d) = Js.Finite 120 0)
         /\ (parses_to_zero (Js.parseFloat (get "diabetes_pedigree" formData)) ->
             diabetes_pedigree (vitals d) = Js.Finite 5 (-1))
         /\ (parses_to_zero (Js.parseInt (get "pregnancies" formData)) ->
             pregnancies (vitals d) = Js.Finite 0 0)
         /\ (parses_to_zero (Js.parseFloat (get "skin_thickness" formData)) ->
             skin_thickness (vitals d) = Js.Finite 20 0)
         /\ (parses_to_zero (Js.parseInt (get "insulin" formData)) ->
             insulin (vitals d) = Js.Finite 80 0)
         /\ (get "bmi" formData = Some "0"%string ->
             bmi (vitals d) = Js.Finite 25 0)
         /\ (get "glucose" formData = Some "0"%string ->
             glucose (vitals d) = Js.Finite 100 0).
Proof.
  intros formData.
  destruct (submitPredictionForm_requests risk_percent w)
    as (issued & Hreq & Hshape & Hsent).
  fold formData in Hshape, Hsent.
  exists issued. split; [exact Hreq|]. split.
  - intros Hid. destruct (Hsent Hid) as (uid & Hin). eauto.
  - intros d Hin. destruct (Hshape d Hin) as (uid & ->).
    unfold predictionData, parses_to_zero.
    cbn [age gender demographics vitals bmi glucose blood_pressure
         diabetes_pedigree pregnancies skin_thickness insulin lifestyle
         symptoms].
    repeat split; intros H; try (rewrite H; reflexivity);
      destruct H as (e & H); rewrite H; reflexivity.
Qed.

Lemma zero_fields_get_defaults_witness :
  exists d,
    In (PostPredict d)
       (requests (network (snd (submitPredictionForm percent_stub
                                  half_filled_form))))
    /\ get "bmi" (form_values (predictionForm (dom half_filled_form)))
       = Some "0"%string
    /\ bmi (vitals d) = Js.Finite 25 0
    /\ glucose (vitals d) = Js.Finite 100 0.
Proof.
  destruct (zero_fields_get_defaults percent_stub half_filled_form)
    as (issued & Hreq & Hsent & Hdefaults).
  destruct (Hsent eq_refl) as (d & Hin).
  exists d. split; [rewrite Hreq; apply in_or_app; right; exact Hin|].
  destruct (Hdefaults d Hin)
    as (_ & Hbmi & Hglucose & _ & _ & _ & _ & _ & _ & _).
  split; [reflexivity|].
  split; [apply Hbmi; exists 0; reflexivity|].
  apply Hglucose. exists 0. reflexivity.
Defined.
(* ===================================================================== *)
(** ** Duplicate e-mail: the retries of [createUser] *)
(* ===================================================================== *)

Lemma to_int_proper (z : Z) :
  Z.to_int z <> Decimal.Pos Decimal.Nil /\ Z.to_int z <> Decimal.Neg Decimal.Nil.
Proof.
  destruct z as [|p|p]; cbn; split; try discriminate;
    intros H; injection H as H; exact (DecimalPos.Unsigned.to_uint_nonnil p H).
Qed.

(** Different numbers are written differently. *)
Lemma show_Z_inj (a b : Z) : Js.show_Z a = Js.show_Z b -> a = b.
Proof.
  unfold Js.show_Z. intros H. apply DecimalZ.to_int_inj.
  destruct (to_int_proper a) as (Ha1 & Ha2).
  destruct (to_int_proper b) as (Hb1 & Hb2).
  pose proof (NilZero.isi _ Ha1 Ha2) as Ia.
  pose proof (NilZero.isi _ Hb1 Hb2) as Ib.
  rewrite H in Ia. congruence.
Qed.

Lemma length_append_string (s t : string) :
  String.length (s ++ t)%string = (String.length s + String.length t)%nat.
Proof.
  induction s as [|c s IH]; cbn; [reflexivity|rewrite IH; reflexivity].
Qed.

Lemma append_cancel_r (s1 s2 t : string) :
  (s1 ++ t)%string = (s2 ++ t)%string -> s1 = s2.
Proof.
  intros H.
  assert (Hlen : String.length s1 = String.length s2).
  { apply (f_equal String.length) in H.
    rewrite !length_append_string in H. lia. }
  revert s2 H Hlen. induction s1 as [|c s1 IH]; intros [|c2 s2] H Hlen;
    try discriminate Hlen; [reflexivity|].
  cbn in H. injection H as -> H. f_equal. apply IH; [exact H|].
  cbn in Hlen. lia.
Qed.

Lemma retry_email_inj (a b : Z) : retry_email a = retry_email b <-> a = b.
Proof.
  split; [|intros ->; reflexivity].
  unfold retry_email. intros H. cbn in H.
  injection H as H. apply append_cancel_r in H. apply show_Z_inj. exact H.
Qed.

Lemma retry_email_is_new (now : Z) :
  retry_email now <> "guest@example.com"%string.
Proof. unfold retry_email. cbn. discriminate. Qed.

(** C2, as stated, fails.  When the backend answers "Email already
    registered" twice, [createUser] retries twice: three [POST /users] are
    issued, the last two with regenerated e-mails.  And the regenerated
    e-mail is made of the clock reading alone: when the clock gives the
    same value at both retries, both carry the same e-mail. *)
Lemma createUser_retries_twice :
  let r := createUser "Guest User" "guest@example.com" taken_twice in
  let r' := createUser "Guest User" "guest@example.com"
              taken_twice_coarse_clock in
  hd_error (users_script (network taken_twice)) = Some duplicate_email
  /\ is_duplicate duplicate_email = true
  /\ fst r = Normal (record alice)
  /\ requests (network (snd r))
     = [PostUsers "Guest User" "guest@example.com";
        PostUsers "Guest User" "guest-1700000000001-retry@example.com";
        PostUsers "Guest User" "guest-1700000000003-retry@example.com"]
  /\ List.length (tl (requests (network (snd r)))) <> 1%nat
  /\ requests (network (snd r'))
     = [PostUsers "Guest User" "guest@example.com";
        PostUsers "Guest User" "guest-1700000000000-retry@example.com";
        PostUsers "Guest User" "guest-1700000000000-retry@example.com"].
Proof. vm_compute. repeat split; discriminate. Qed.

(** C2, amended.  [createUser] issues its [POST /users], and then one retry
    for each "Email already registered" answer it receives in a row.  Each
    retry goes under the same name with the e-mail
    [guest-<now>-retry@example.com], where [<now>] is the reading of the
    clock taken for that retry (the second reading of the call that got the
    answer).  That e-mail is never [guest@example.com], and two retries
    carry the same e-mail exactly when their readings of the clock are the
    same.  When the answer to the first retry is a created user, there is
    exactly one retry, [createUser] returns that user and has stored it, and
    the only toast shown is the success one. *)
Theorem createUser_retries_once_per_duplicate (name email : string) (w : World) :
  let now := clock (entropy w) in
  let t := ticks (entropy w) in
  let duplicates := leading_duplicates (users_script (network w)) in
  let retry_of (k : nat) :=
    ("guest-" ++ Js.show_Z (now (t + 2 * k + 1)%nat)
     ++ "-retry@example.com")%string in
  exists c w',
    createUser name email w = (c, w')
    /\ requests (network w')
       = requests (network w)
         ++ users_request name email (now t)
            :: map (fun k =>
                      PostUsers (Js.str_or_else (Some name) "Guest User")
                                (retry_of k))
                 (seq 0 duplicates)
    /\ (forall k, retry_of k <> "guest@example.com"%string)
    /\ (forall j k, retry_of j = retry_of k
                    <-> now (t + 2 * j + 1)%nat = now (t + 2 * k + 1)%nat)
    /\ (forall o u rest,
          users_script (network w) = o :: Ok (Some u) :: rest ->
          is_duplicate o = true ->
          c = Normal u
          /\ duplicates = 1%nat
          /\ toastContainer (dom w') = toastContainer (dom w) ++ [success_toast]
          /\ medai_user (localStorage w') = Some u).
Proof.
  intros now t duplicates retry_of.
  destruct (createUser_run name email w)
    as (c & mu & tc & rest' & rq & tk & dr & Hrun & Hc & Hprog & Htoast
        & _ & Hrq & _).
  exists c, (after_createUser mu tc rest' rq tk dr w).
  split; [exact Hrun|].
  split; [exact Hrq|].
  split; [intros k; apply retry_email_is_new|].
  split; [intros j k; apply retry_email_inj|].
  intros o u rest Hscript Hdup.
  assert (Hone : duplicates = 1%nat).
  { subst duplicates. rewrite Hscript.
    cbn [leading_duplicates is_duplicate]. rewrite Hdup. reflexivity. }
  destruct o as [|status [errorData|]|[created|]]; try discriminate Hdup.
  cbn [is_duplicate] in Hdup.
  unfold createUser in Hrun. rewrite Hscript in Hrun.
  cbn [createUser_on] in Hrun. unfold try_catch, bind in Hrun.
  cbn [Date_now modify] in Hrun. rewrite Hdup in Hrun.
  cbn in Hrun. injection Hrun as <- Hw.
  split; [reflexivity|]. split; [exact Hone|].
  rewrite <- Hw. cbn. auto.
Qed.

Lemma createUser_retries_once_per_duplicate_witness :
  exists w',
    createUser "Guest User" "guest@example.com" taken_once
      = (Normal (record alice), w')
    /\ requests (network w')
       = [PostUsers "Guest User" "guest@example.com";
          PostUsers "Guest User" "guest-1700000000001-retry@example.com"]
    /\ toastContainer (dom w') = [success_toast]
    /\ medai_user (localStorage w') = Some (record alice).
Proof.
  destruct (createUser_retries_once_per_duplicate
              "Guest User" "guest@example.com" taken_once)
    as (c & w' & Hrun & Hrq & _ & _ & Hretry).
  destruct (Hretry duplicate_email (record alice) [] eq_refl eq_refl)
    as (-> & Hone & Htoast & Hstored).
  exists w'. split; [exact Hrun|]. split; [exact Hrq|].
  split; [exact Htoast|exact Hstored].
Defined.
(* ===================================================================== *)
(** ** [generateReport] and its local fallback *)
(* ===================================================================== *)

Lemma latestId_run (kind : HistoryKind) (w : World) (u : User)
    (o : HistoryOutcome) (rest : list HistoryOutcome) :
  currentUser (globals w) = record u ->
  history_script (network w) = o :: rest ->
  latestId kind w =
    (Normal (latest_of o),
     on_network (with_history_script rest)
       (on_network (fun n =>
          with_requests (requests n ++ [GetHistory kind (Some (id u))]) n) w)).
Proof.
  intros Hcu Hscript.
  unfold latestId, try_catch, currentUser_id, bind, gets, fetch.
  rewrite Hcu. cbn [ret network on_network history_script with_requests].
  rewrite Hscript.
  destruct o as [|status []|[[|latest ids]|]]; reflexivity.
Qed.

(** A lookup for a value without [id] asks for the history of [undefined]. *)
Lemma latestId_other (kind : HistoryKind) (w : World) (truthy : bool)
    (o : HistoryOutcome) (rest : list HistoryOutcome) :
  currentUser (globals w) = other truthy ->
  history_script (network w) = o :: rest ->
  latestId kind w =
    (Normal (latest_of o),
     on_network (with_history_script rest)
       (on_network (fun n =>
          with_requests (requests n ++ [GetHistory kind None]) n) w)).
Proof.
  intros Hcu Hscript.
  unfold latestId, try_catch, currentUser_id, bind, gets, fetch.
  rewrite Hcu. cbn [ret network on_network history_script with_requests].
  rewrite Hscript.
  destruct o as [|status []|[[|latest ids]|]]; reflexivity.
Qed.

(** With [null] for a user the lookup throws before it asks, and the
    [catch] of the lookup leaves it without an identifier. *)
Lemma latestId_null (kind : HistoryKind) (w : World) :
  currentUser (globals w) = null ->
  latestId kind w = (Normal None, w).
Proof.
  intros Hcu.
  unfold latestId, try_catch, currentUser_id, bind, gets.
  rewrite Hcu. reflexivity.
Qed.

Lemma latestId_pending (kind : HistoryKind) (w : World) :
  currentUser (globals w) <> null ->
  history_script (network w) = [] ->
  fst (latestId kind w) = Pending.
Proof.
  intros Hcu Hscript.
  unfold latestId, try_catch, currentUser_id, bind, gets, fetch.
  destruct (currentUser (globals w)) as [|u|truthy]; [congruence| |];
    cbn [ret network on_network history_script with_requests];
    rewrite Hscript; reflexivity.
Qed.

Arguments latestId : simpl never.
Arguments reportMessage : simpl never.

Lemma substring0_length (n : nat) (s : string) :
  (String.length (Js.substring0 n s) <= n)%nat.
Proof.
  unfold Js.substring0. revert s.
  induction n as [|n IH]; intros [|c s]; cbn; try lia.
  specialize (IH s). lia.
Qed.

Lemma substring_whole (n : nat) (s : string) :
  (String.length s <= n)%nat -> String.substring 0 n s = s.
Proof.
  revert s. induction n as [|n IH]; intros [|c s] Hlen; cbn in *;
    try reflexivity; try lia.
  rewrite IH by lia. reflexivity.
Qed.

Lemma substring_cut (n : nat) (s : string) :
  (n <= String.length s)%nat -> String.length (String.substring 0 n s) = n.
Proof.
  revert s. induction n as [|n IH]; intros [|c s] Hlen; cbn in *;
    try reflexivity; try lia.
  rewrite IH by lia. reflexivity.
Qed.

Lemma substring_prefix (n : nat) (s : string) :
  String.prefix (String.substring 0 n s) s = true.
Proof.
  revert s. induction n as [|n IH]; intros [|c s]; cbn; try reflexivity.
  destruct (ascii_dec c c) as [_|Hne]; [apply IH|congruence].
Qed.

Lemma topic_line_lists_query (chat : ChatHistoryEntry) :
  lists_query (query chat) (topic_line chat).
Proof.
  exists (String.substring 0 50 (query chat)).
  split; [reflexivity|]. split; [apply substring_prefix|].
  destruct (Nat.le_gt_cases (String.length (query chat)) 50) as [Hle|Hgt].
  - rewrite substring_whole by exact Hle. lia.
  - rewrite substring_cut by lia. lia.
Qed.

Lemma join_is_concat (sep : string) (l : list string) :
  Js.join sep l = String.concat sep l.
Proof. induction l as [|x [|y r] IH]; cbn in *; congruence. Qed.

(** The template literal of [createFallbackReport], line by line. *)
Lemma reportMessage_text (history : list ChatHistoryEntry) :
  reportMessage history
  = (summary_heading
     ++ String.concat line_break (map topic_line history)
     ++ summary_advice)%string.
Proof.
  unfold reportMessage. rewrite join_is_concat.
  change nl with line_break.
  f_equal.
Qed.

(** C6.  When none of the three history lookups yields an identifier,
    [generateReport] issues no [POST /generate-report] (the requests it adds
    are those of [createUser] and the three lookups, and the
    [/generate-report] script is not consumed) and appends to the transcript
    one bot message, the summary built from [chatHistory].  The summary is
    the heading (a blank line, "# Health Summary Report", "Based on our
    conversation, here's a summary of your health inquiries:" and
    "## Topics Discussed", with blank lines between), then one line per past
    query, in order: a star, the query cut to its first fifty characters,
    three dots; then the advice: the title "## General Health Advice", its
    five fixed recommendations and the closing note. *)
Theorem generateReport_falls_back_locally (w : World)
    (o1 o2 o3 : HistoryOutcome) (rest : list HistoryOutcome) :
  identity_available w = true ->
  history_script (network w) = o1 :: o2 :: o3 :: rest ->
  latest_of o1 = None -> latest_of o2 = None -> latest_of o3 = None ->
  exists w' issued time ts topics,
    generateReport w = (Normal tt, w')
    /\ requests (network w') = requests (network w) ++ issued
    /\ forallb (fun r => negb (is_PostGenerateReport r)) issued = true
    /\ generate_script (network w') = generate_script (network w)
    /\ chatContainer (dom w')
       = (if existsb (is_welcome (renders_welcome w)) (chatContainer (dom w))
          then [] else chatContainer (dom w))
         ++ [Message bot
               (summary_heading ++ String.concat line_break topics
                ++ summary_advice)%string
               time]
    /\ Forall2 (fun chat topic => lists_query (query chat) topic)
         (chatHistory (globals w)) topics
    /\ toastContainer (dom w') = toastContainer (dom w) ++ ts ++ [summary_toast]
    /\ loadingModal_shown (dom w') = false.
Proof.
  intros Hid Hscript H1 H2 H3.
  unfold generateReport. unfold bind at 1.
  destruct (ensureUser_run w)
    as (c & cu & mu & tc & rest' & rq & tk & dr & Hrun & Hc & Htoast
        & (issued & -> & Hissued) & _).
  rewrite Hrun.
  destruct Hc as [(-> & Hna)|(-> & Hu)]; [congruence|].
  destruct (Hu Hid) as (u & ->).
  unfold bind at 1. unfold showLoading, showModal, bind at 1 2, modify at 1 2 3.
  unfold try_finally, try_catch.
  unfold bind at 1.
  erewrite latestId_run; [|reflexivity|cbn; exact Hscript].
  unfold bind at 1.
  erewrite latestId_run; [|reflexivity|cbn; reflexivity].
  unfold bind at 1.
  erewrite latestId_run; [|reflexivity|cbn; reflexivity].
  rewrite H1, H2, H3. cbn [no_id andb].
  unfold bind at 1. unfold hideLoading at 1, hideModal at 1.
  unfold bind at 1. unfold modify at 1 2.
  unfold createFallbackReport. unfold bind at 1. unfold gets at 1.
  unfold bind at 1. rewrite addMessage_run.
  unfold showToast, modify, hideLoading, hideModal, bind, modify.
  destruct Htoast as (ts & -> & Hts).
  eexists. exists (issued ++ [GetHistory predictions (Some (id u));
                              GetHistory chats (Some (id u));
                              GetHistory reports (Some (id u))]).
  eexists. exists ts. exists (map topic_line (chatHistory (globals w))).
  split; [reflexivity|].
  cbn. rewrite <- !app_assoc. cbn.
  split; [reflexivity|]. split.
  { rewrite forallb_app. cbn. rewrite andb_true_r.
    rewrite forallb_forall in Hissued |- *. intros r Hin.
    specialize (Hissued r Hin). destruct r; try discriminate; reflexivity. }
  split; [reflexivity|].
  split; [rewrite reportMessage_text; reflexivity|].
  split; [|auto].
  induction (chatHistory (globals w)) as [|chat l IH]; cbn [map];
    constructor; [apply topic_line_lists_query|exact IH].
Qed.

Lemma generateReport_falls_back_locally_witness :
  exists w' time,
    generateReport no_history = (Normal tt, w')
    /\ requests (network w')
       = [PostUsers "Guest User" "guest@example.com";
          GetHistory predictions (Some 7); GetHistory chats (Some 7);
          GetHistory reports (Some 7)]
    /\ chatContainer (dom w')
       = [Message bot
            (String.concat line_break
               [ EmptyString;
                 "# Health Summary Report";
                 EmptyString;
                 "Based on our conversation, here's a summary of your health inquiries:";
                 EmptyString;
                 "## Topics Discussed";
                 "* How to sleep better?...";
                 EmptyString;
                 "## General Health Advice";
                 "* Maintain a balanced diet with plenty of fruits and vegetables";
                 "* Exercise regularly (at least 30 minutes most days)";
                 "* Get 7-9 hours of quality sleep each night";
                 "* Stay hydrated by drinking plenty of water";
                 "* Manage stress through relaxation techniques";
                 EmptyString;
                 "*Note: This is a general health summary. For personalized medical advice, please consult with a healthcare professional.*";
                 "        " ])%string
            time]
    /\ loadingModal_shown (dom w') = false.
Proof.
  destruct (generateReport_falls_back_locally no_history
              (Ok (Some [])) (NotOk 500 tt) Rejected []
              eq_refl eq_refl eq_refl eq_refl eq_refl)
    as (w' & issued & time & ts & topics & Hrun & Hreq & Hnone & _ & Hchat
        & Htopics & _ & Hload).
  exists w', time. split; [exact Hrun|].
  assert (Hw : w' = snd (generateReport no_history))
    by (rewrite Hrun; reflexivity).
  split; [rewrite Hw; reflexivity|].
  split; [|exact Hload].
  rewrite Hchat.
  inversion Htopics as [|chat topic l l' (shown & -> & Hprefix & Hlen) Hrest];
    subst.
  inversion Hrest; subst.
  assert (Hshown : shown = "How to sleep better?"%string).
  { clear - Hprefix Hlen. cbn in Hlen, Hprefix.
    repeat (destruct shown as [|? shown]; [discriminate Hlen|];
            cbn in Hprefix;
            match type of Hprefix with
            | context [ascii_dec ?a ?b] =>
                destruct (ascii_dec a b) as [<-|]; [|discriminate Hprefix]
            end).
    destruct shown; [reflexivity|discriminate Hlen]. }
  rewrite Hshown. reflexivity.
Defined.

(* ===================================================================== *)
(** ** Failure handling of the four operations *)
(* ===================================================================== *)

Lemma sendMessage_chat_failure_witness :
  exists w' t1 t2,
    sendMessage chat_down = (Normal tt, w')
    /\ chatContainer (dom w')
       = [Message user "What is a normal BMI?" t1; Message bot apology t2]
    /\ toastContainer (dom w') = [success_toast; error_toast]
    /\ chatHistory (globals w') = [].
Proof.
  destruct (sendMessage_chat_failure chat_down
              (NotOk 503 "Service Unavailable"%string) [])
    as (w' & t1 & t2 & ts & Hrun & Hchat & Htoast & Hts & Hhist & _).
  - vm_compute. discriminate.
  - reflexivity.
  - reflexivity.
  - reflexivity.
  - exists w', t1, t2. split; [exact Hrun|]. split; [exact Hchat|].
    split; [|exact Hhist].
    assert (Hw : w' = snd (sendMessage chat_down)) by (rewrite Hrun; reflexivity).
    rewrite Hw. reflexivity.
Defined.

(** [try { body } catch { handler } finally { finalizer }] with a handler and
    a finalizer that always return: the statement returns through the
    finalizer, unless the body is left waiting. *)
Lemma try_catch_finally_run (body : Op unit) (handler : string -> Op unit)
    (finalizer : Op unit) (F : World -> World) (w : World) :
  (forall e w1, exists w2, handler e w1 = (Normal tt, w2)) ->
  (forall w1, finalizer w1 = (Normal tt, F w1)) ->
  (exists w1, try_finally (try_catch body handler) finalizer w
              = (Normal tt, F w1))
  \/ (exists w1, try_finally (try_catch body handler) finalizer w = (Pending, w1)
                 /\ fst (body w) = Pending).
Proof.
  intros Hhandler Hfinal. unfold try_finally, try_catch.
  destruct (body w) as [[[]|e|] w1].
  - left. exists w1. rewrite Hfinal. reflexivity.
  - destruct (Hhandler e w1) as (w2 & ->). left. exists w2.
    rewrite Hfinal. reflexivity.
  - right. exists w1. split; reflexivity.
Qed.

Lemma hideLoading_run (w : World) :
  hideLoading w =
    (Normal tt,
     on_dom (with_modalOverlay_active false)
       (on_dom (with_loadingModal_shown false) w)).
Proof. reflexivity. Qed.

Ltac split_answers H :=
  unfold backend_answers in H;
  repeat (let H' := fresh "Hans" in
          apply andb_prop in H; destruct H as [H H']).

(** Running a sequence: what the first statement of [m ;; k] does to the
    state, for the statements that always return. *)
Lemma run_ret {A B} (a : A) (k : A -> Op B) (w : World) :
  bind (ret a) k w = k a w.
Proof. reflexivity. Qed.

Lemma run_gets {A B} (f : World -> A) (k : A -> Op B) (w : World) :
  bind (gets f) k w = k (f w) w.
Proof. reflexivity. Qed.

Lemma run_modify {B} (f : World -> World) (k : unit -> Op B) (w : World) :
  bind (modify f) k w = k tt (f w).
Proof. reflexivity. Qed.

Lemma run_throw {A B} (e : string) (k : A -> Op B) (w : World) :
  bind (throw e) k w = (Throw e, w).
Proof. reflexivity. Qed.

Lemma run_showToast {B} (message type : string) (k : unit -> Op B) (w : World) :
  bind (showToast message type) k w
  = k tt (on_dom (fun d =>
       with_toastContainer (toastContainer d ++ [mkToast message type]) d) w).
Proof. reflexivity. Qed.

Lemma run_addMessage {B} content type (k : unit -> Op B) (w : World) :
  bind (addMessage content type) k w
  = k tt (on_dom (with_chatContainer
               ((if existsb (is_welcome (renders_welcome w))
                       (chatContainer (dom w))
                 then [] else chatContainer (dom w))
                ++ [Message type content (clock (entropy w) (ticks (entropy w)))]))
            (on_entropy (with_ticks (S (ticks (entropy w)))) w)).
Proof. unfold bind. rewrite addMessage_run. reflexivity. Qed.

Lemma run_showLoading {B} (message : string) (k : unit -> Op B) (w : World) :
  bind (showLoading message) k w
  = k tt (on_dom (with_loadingModal_shown true)
            (on_dom (with_modalOverlay_active true)
               (on_dom (with_loadingText message) w))).
Proof. reflexivity. Qed.

Lemma run_hideModal {B} (modalId : ModalId) (k : unit -> Op B) (w : World) :
  bind (hideModal modalId) k w
  = k tt (on_dom (with_modalOverlay_active false)
            (on_dom (with_modal modalId false) w)).
Proof. reflexivity. Qed.

Lemma run_hideLoading {B} (k : unit -> Op B) (w : World) :
  bind hideLoading k w
  = k tt (on_dom (with_modalOverlay_active false)
            (on_dom (with_loadingModal_shown false) w)).
Proof. reflexivity. Qed.

Lemma run_clearFile {B} (k : unit -> Op B) (w : World) :
  bind clearFile k w
  = k tt (on_dom (with_uploadPreview_shown false)
            (on_dom (with_uploadArea_shown true)
               (on_dom (with_reportFile None) w))).
Proof. reflexivity. Qed.

Lemma showToast_run (message type : string) (w : World) :
  showToast message type w
  = (Normal tt,
     on_dom (fun d =>
       with_toastContainer (toastContainer d ++ [mkToast message type]) d) w).
Proof. reflexivity. Qed.

Lemma modify_run (f : World -> World) (w : World) :
  modify f w = (Normal tt, f w).
Proof. reflexivity. Qed.

Lemma throw_run {A} (e : string) (w : World) : @throw A e w = (Throw e, w).
Proof. reflexivity. Qed.

Lemma ret_run {A} (a : A) (w : World) : ret a w = (Normal a, w).
Proof. reflexivity. Qed.

Lemma gets_run {A} (f : World -> A) (w : World) : gets f w = (Normal (f w), w).
Proof. reflexivity. Qed.

Create Rewrite HintDb run.
#[local] Hint Rewrite @run_ret @run_gets @run_modify @run_throw @run_showToast
  @run_addMessage @run_showLoading @run_hideModal @run_hideLoading
  @run_clearFile addMessage_run saveChatHistory_run showToast_run modify_run
  @throw_run @ret_run @gets_run hideLoading_run : run.

Ltac run_script := repeat (progress (autorewrite with run; cbv beta iota)).

Arguments showToast : simpl never.
Arguments showLoading : simpl never.
Arguments hideLoading : simpl never.
Arguments hideModal : simpl never.
Arguments clearFile : simpl never.

Lemma currentUser_id_run {B} (k : option Z -> Op B) (w : World) (u : User) :
  currentUser (globals w) = record u ->
  bind currentUser_id k w = k (Some (id u)) w.
Proof.
  intros Hcu. unfold currentUser_id, bind, gets. rewrite Hcu. reflexivity.
Qed.

Lemma currentUser_id_other {B} (k : option Z -> Op B) (w : World) truthy :
  currentUser (globals w) = other truthy ->
  bind currentUser_id k w = k None w.
Proof.
  intros Hcu. unfold currentUser_id, bind, gets. rewrite Hcu. reflexivity.
Qed.

Lemma currentUser_id_null {B} (k : option Z -> Op B) (w : World) :
  currentUser (globals w) = null ->
  bind currentUser_id k w = (Throw cannot_read_id, w).
Proof.
  intros Hcu. unfold currentUser_id, bind, gets. rewrite Hcu. reflexivity.
Qed.

Lemma sendMessage_returns_or_waits risk_percent (w : World) :
  returns_or_waits risk_percent SendMessage w.
Proof.
  unfold returns_or_waits. cbn [run busy guard_rejects].
  destruct (sendMessage w) as [c w'] eqn:E.
  unfold sendMessage in E. rewrite run_gets in E.
  destruct (Js.trim (messageInput (dom w))) as [|c0 s0] eqn:Htrim.
  { injection E as <- <-. left. exists w. split; reflexivity. }
  run_script.
  rewrite run_addMessage, !run_modify in E.
  match type of E with
  | try_finally (try_catch ?b ?h) ?f ?W = _ =>
      destruct (try_catch_finally_run b h f
                  (on_dom (with_sendBtn_disabled false)) W)
        as [(w1 & Hrun)|(w1 & Hrun & Hwait)]
  end.
  - intros e w1. run_script. eexists. reflexivity.
  - reflexivity.
  - rewrite Hrun in E. injection E as <- <-.
    left. eexists. split; reflexivity.
  - rewrite Hrun in E. injection E as <- <-.
    right. eexists. split; [reflexivity|].
    destruct (backend_answers w) eqn:Hans; [exfalso|reflexivity].
    split_answers Hans.
    revert Hwait. unfold bind at 1.
    match goal with
    | |- context [ensureUser ?w2] =>
        destruct (ensureUser_run w2)
          as (c & cu & mu & tc & rest' & rq & tk & dr & Hen & Hc & _);
        rewrite Hen
    end.
    destruct Hc as [(-> & Hna)|(-> & Hu)].
    { exfalso. revert Hna. unfold identity_available in *. cbn.
      rewrite Hans. discriminate. }
    destruct Hu as (u & ->).
    { revert Hans. unfold identity_available. cbn. auto. }
    cbv beta iota. unfold bind at 1. unfold callGeminiAPI. rewrite run_gets.
    cbn [globals on_globals currentUser with_currentUser user_truthy negb].
    erewrite currentUser_id_run by reflexivity.
    unfold bind at 1. unfold fetch at 1.
    cbn [network on_network on_globals after_createUser chat_script
         with_requests with_users_script with_chat_script on_dom on_entropy].
    destruct (chat_script (network w)) as [|o rest]; [discriminate|].
    destruct o as [|status errorText|[data|]];
      cbv beta iota; run_script; cbn [fst]; discriminate.
Qed.

(** [submitPredictionForm] reads [currentUser.id] before its [try]: with
    [null] for a user it throws there, before it shows the loading modal
    and before it sends anything to [/predict]. *)
Lemma submitPredictionForm_returns_waits_or_throws risk_percent (w : World) :
  returns_or_waits risk_percent SubmitPredictionForm w
  \/ exists w' issued,
       submitPredictionForm risk_percent w = (Throw cannot_read_id, w')
       /\ currentUser (globals w') = null
       /\ identity_available w = false
       /\ loadingModal_shown (dom w') = loadingModal_shown (dom w)
       /\ requests (network w') = requests (network w) ++ issued
       /\ forallb is_PostUsers issued = true.
Proof.
  unfold returns_or_waits. cbn [run busy guard_rejects andb].
  destruct (submitPredictionForm risk_percent w) as [c w'] eqn:E.
  unfold submitPredictionForm in E. rewrite run_gets in E.
  unfold bind at 1 in E.
  destruct (ensureUser_run w)
    as (c1 & cu & mu & tc & rest' & rq & tk & dr & Hen & Hc & _ & Hrq & _).
  rewrite Hen in E.
  destruct Hc as [(-> & Hna)|(-> & Hu)].
  { injection E as <- <-. left. right. eexists. split; [reflexivity|].
    unfold backend_answers. rewrite Hna. reflexivity. }
  destruct cu as [|u|truthy].
  { rewrite currentUser_id_null in E by reflexivity.
    injection E as <- <-. right.
    destruct Hrq as (issued & -> & Hissued).
    do 2 eexists. split; [reflexivity|].
    split; [reflexivity|].
    split.
    { destruct (identity_available w); [|reflexivity].
      destruct (Hu eq_refl) as (u & Hnull). discriminate Hnull. }
    split; [reflexivity|]. split; [reflexivity|exact Hissued]. }
  all: left.
  all: first [ erewrite currentUser_id_run in E by reflexivity
             | erewrite currentUser_id_other in E by reflexivity ].
  all: rewrite run_showLoading in E.
  all: match type of E with
  | try_finally (try_catch ?b ?h) ?f ?W = _ =>
      destruct (try_catch_finally_run b h f
                  (fun w1 => on_dom (with_modalOverlay_active false)
                               (on_dom (with_loadingModal_shown false) w1)) W)
        as [(w1 & Hrun)|(w1 & Hrun & Hwait)]
  end.
  all: try (intros e w1; eexists; reflexivity).
  all: try reflexivity.
  all: rewrite Hrun in E; injection E as <- <-.
  all: try (left; eexists; split; reflexivity).
  all: right; eexists; (split; [reflexivity|]).
  all: destruct (backend_answers w) eqn:Hans; [exfalso|reflexivity].
  all: split_answers Hans.
  all: revert Hwait; unfold bind at 1; unfold fetch at 1.
  all: cbn [network on_network on_globals after_createUser predict_script
         with_requests with_users_script with_predict_script on_dom on_entropy].
  all: destruct (predict_script (network w)) as [|o rest]; [discriminate|].
  all: destruct o as [|status errorText|[result|]];
      cbv beta iota; run_script; cbn [fst]; discriminate.
Qed.

Lemma analyzeReport_returns_or_waits risk_percent (w : World) :
  returns_or_waits risk_percent AnalyzeReport w.
Proof.
  unfold returns_or_waits. cbn [run busy guard_rejects].
  destruct (analyzeReport w) as [c w'] eqn:E.
  unfold analyzeReport in E. rewrite run_gets in E.
  destruct (reportFile (dom w)) as [file|] eqn:Hfile.
  2:{ rewrite showToast_run in E. injection E as <- <-.
      left. eexists. split; reflexivity. }
  unfold bind at 1 in E.
  destruct (ensureUser_run w)
    as (c1 & cu & mu & tc & rest' & rq & tk & dr & Hen & Hc & _).
  rewrite Hen in E.
  destruct Hc as [(-> & Hna)|(-> & Hu)].
  { injection E as <- <-. right. eexists. split; [reflexivity|].
    unfold backend_answers. rewrite Hna. reflexivity. }
  rewrite run_showLoading in E.
  match type of E with
  | try_finally (try_catch ?b ?h) ?f ?W = _ =>
      destruct (try_catch_finally_run b h f
                  (fun w1 => on_dom (with_modalOverlay_active false)
                               (on_dom (with_loadingModal_shown false) w1)) W)
        as [(w1 & Hrun)|(w1 & Hrun & Hwait)]
  end.
  - intros e w1. eexists. reflexivity.
  - reflexivity.
  - rewrite Hrun in E. injection E as <- <-.
    left. eexists. split; reflexivity.
  - rewrite Hrun in E. injection E as <- <-.
    right. eexists. split; [reflexivity|].
    destruct (backend_answers w) eqn:Hans; [exfalso|reflexivity].
    split_answers Hans.
    destruct (Hu Hans) as (u & ->).
    revert Hwait. erewrite currentUser_id_run by reflexivity.
    unfold bind at 1. unfold fetch at 1.
    cbn [network on_network on_globals after_createUser analyze_script
         with_requests with_users_script with_analyze_script on_dom on_entropy].
    destruct (analyze_script (network w)) as [|o rest]; [discriminate|].
    destruct o as [|status errorText|[result|]];
      cbv beta iota; run_script; cbn [fst]; discriminate.
Qed.

Lemma generateReport_returns_or_waits risk_percent (w : World) :
  returns_or_waits risk_percent GenerateReport w.
Proof.
  unfold returns_or_waits. cbn [run busy guard_rejects andb].
  destruct (generateReport w) as [c w'] eqn:E.
  unfold generateReport in E. unfold bind at 1 in E.
  destruct (ensureUser_run w)
    as (c1 & cu & mu & tc & rest' & rq & tk & dr & Hen & Hc & _).
  rewrite Hen in E.
  destruct Hc as [(-> & Hna)|(-> & Hu)].
  { injection E as <- <-. right. eexists. split; [reflexivity|].
    unfold backend_answers. rewrite Hna. reflexivity. }
  rewrite run_showLoading in E.
  match type of E with
  | try_finally (try_catch ?b ?h) ?f ?W = _ =>
      destruct (try_catch_finally_run b h f
                  (fun w1 => on_dom (with_modalOverlay_active false)
                               (on_dom (with_loadingModal_shown false) w1)) W)
        as [(w1 & Hrun)|(w1 & Hrun & Hwait)]
  end.
  - intros e w1. eexists. reflexivity.
  - reflexivity.
  - rewrite Hrun in E. injection E as <- <-.
    left. eexists. split; reflexivity.
  - rewrite Hrun in E. injection E as <- <-.
    right. eexists. split; [reflexivity|].
    destruct (backend_answers w) eqn:Hans; [exfalso|reflexivity].
    split_answers Hans.
    destruct (Hu Hans) as (u & ->).
    destruct (history_script (network w)) as [|o1 [|o2 [|o3 rest]]] eqn:Hh;
      try discriminate.
    revert Hwait.
    unfold bind at 1.
    erewrite latestId_run; [|reflexivity|cbn; exact Hh].
    unfold bind at 1.
    erewrite latestId_run; [|reflexivity|cbn; reflexivity].
    unfold bind at 1.
    erewrite latestId_run; [|reflexivity|cbn; reflexivity].
    destruct (no_id (latest_of o1) && no_id (latest_of o2)
              && no_id (latest_of o3)).
    + unfold createFallbackReport. run_script. cbn [fst]. discriminate.
    + erewrite currentUser_id_run by reflexivity.
      unfold bind at 1. unfold fetch at 1.
      cbn [network on_network on_globals after_createUser generate_script
           with_requests with_users_script with_history_script
           with_generate_script on_dom on_entropy].
      destruct (generate_script (network w)) as [|o rest0]; [discriminate|].
      destruct o as [|status []|generated]; cbv beta iota;
        try destruct (is_pdf (content_type generated));
        try destruct (body_is_json generated);
        try (unfold bind at 1; unfold Date_now at 1; cbv beta iota zeta);
        run_script; cbn [fst]; discriminate.
Qed.

(** C1.  The claim fails for [submitPredictionForm]: it reads
    [currentUser.id] before its [try], so it throws when [createUser] has
    returned [null], the body of a [POST /users] answered with status 200
    and the JSON text [null].  Nothing has been sent to [/predict] then and
    the loading modal has not been shown.  The three other operations read
    [currentUser.id] inside their [try]: from every state and whatever the
    backend answers they return with their busy indicator clear (or as it
    was, when the opening guard stopped them), or are left waiting by a
    backend that does not answer; and so does [submitPredictionForm] for
    any other value of the user.  On the page [null_user_created] it throws
    where the three others return. *)
Theorem submitPredictionForm_throws_on_null_user :
  (forall risk_percent op w,
     op <> SubmitPredictionForm -> returns_or_waits risk_percent op w)
  /\ (forall risk_percent w,
        returns_or_waits risk_percent SubmitPredictionForm w
        \/ exists w',
             submitPredictionForm risk_percent w = (Throw cannot_read_id, w')
             /\ currentUser (globals w') = null
             /\ loadingModal_shown (dom w') = loadingModal_shown (dom w))
  /\ (let r := submitPredictionForm percent_stub null_user_created in
      fst r = Throw cannot_read_id
      /\ requests (network (snd r))
         = [PostUsers "Guest User" "guest@example.com"]
      /\ currentUser (globals (snd r)) = null
      /\ medai_user (localStorage (snd r)) = Some null
      /\ toastContainer (dom (snd r)) = [success_toast]
      /\ loadingModal_shown (dom (snd r)) = false
      /\ fst (sendMessage null_user_created) = Normal tt
      /\ fst (analyzeReport null_user_created) = Normal tt
      /\ fst (generateReport null_user_created) = Normal tt).
Proof.
  split; [|split].
  - intros risk_percent op w Hop. destruct op.
    + apply sendMessage_returns_or_waits.
    + congruence.
    + apply analyzeReport_returns_or_waits.
    + apply generateReport_returns_or_waits.
  - intros risk_percent w.
    destruct (submitPredictionForm_returns_waits_or_throws risk_percent w)
      as [H|(w' & issued & Hrun & Hnull & _ & Hload & _)]; [left; exact H|].
    right. exists w'. auto.
  - vm_compute. repeat split.
Qed.

(* ===================================================================== *)
(** ** A successful exchange, and the operations on sample states *)
(* ===================================================================== *)

(** The answer shown for a [/chat] body: [answer], else [response], else a
    fixed acknowledgment. *)
Lemma sendMessage_chat_success (w : World) (data : ChatData)
    (rest : list ChatOutcome) :
  Js.trim (messageInput (dom w)) <> EmptyString ->
  identity_available w = true ->
  chat_script (network w) = Ok (Some data) :: rest ->
  let message := Js.trim (messageInput (dom w)) in
  let answer :=
    Js.str_or_else (chat_answer data)
      (Js.str_or_else (chat_response data)
         "I received your message but got an unexpected response.") in
  exists w' t1 t2 t3 evicted,
    sendMessage w = (Normal tt, w')
    /\ chatContainer (dom w')
       = (if existsb (is_welcome (renders_welcome w)) (chatContainer (dom w))
          then [] else chatContainer (dom w))
         ++ [Message user message t1; Message bot answer t2]
    /\ chatHistory (globals w) ++ [mkEntry message answer t3]
       = evicted ++ chatHistory (globals w')
    /\ List.length (chatHistory (globals w'))
       = Nat.min (List.length (chatHistory (globals w)) + 1) 50
    /\ medai_chat_history (localStorage w') = Some (chatHistory (globals w'))
    /\ sendBtn_disabled (dom w') = false.
Proof.
  intros Hmsg Hid Hscript message answer. subst message.
  unfold sendMessage. rewrite run_gets.
  destruct (Js.trim (messageInput (dom w))) as [|c0 s0] eqn:Htrim;
    [congruence|].
  rewrite run_addMessage, !run_modify.
  unfold try_finally, try_catch.
  unfold bind at 1.
  match goal with
  | |- context [ensureUser ?w2] =>
      destruct (ensureUser_run w2)
        as (c & cu & mu & tc & rest' & rq & tk & dr & Hrun & Hc & _);
      rewrite Hrun
  end.
  destruct Hc as [(-> & Hna)|(-> & Hu)].
  { exfalso. revert Hna. unfold identity_available in *. cbn.
    rewrite Hid. discriminate. }
  destruct Hu as (u & ->).
  { revert Hid. unfold identity_available. cbn. auto. }
  unfold bind at 1. unfold callGeminiAPI at 1. rewrite run_gets.
  cbn [globals on_globals currentUser with_currentUser user_truthy negb].
  erewrite currentUser_id_run by reflexivity.
  unfold bind at 1. unfold fetch at 1.
  cbn [network on_network on_globals after_createUser chat_script
       with_requests with_users_script with_chat_script on_dom on_entropy].
  rewrite Hscript. cbv beta iota. run_script. fold answer.
  do 5 eexists.
  split; [reflexivity|].
  split.
  { cbn. rewrite no_welcome_after_message, <- app_assoc. reflexivity. }
  split; [cbn; symmetry; apply firstn_skipn|].
  split; [|split; reflexivity].
  cbn. rewrite length_skipn, length_app. cbn [List.length]. lia.
Qed.

Example sendMessage_on_whitespace :
  sendMessage (on_dom (with_messageInput "   ") all_up)
  = (Normal tt, on_dom (with_messageInput "   ") all_up).
Proof. reflexivity. Qed.

Example sendMessage_all_up :
  let w' := snd (sendMessage all_up) in
  chatContainer (dom w')
  = [Message user "hello" 1700000000000; Message bot "Hi there." 1700000000002]
  /\ chatHistory (globals w') = [mkEntry "hello" "Hi there." 1700000000003]
  /\ requests (network w')
     = [PostUsers "Guest User" "guest@example.com"; PostChat (Some 7) "hello"].
Proof. vm_compute. auto. Qed.

Example generateReport_all_up :
  let w' := snd (generateReport all_up) in
  requests (network w')
  = [PostUsers "Guest User" "guest@example.com";
     GetHistory predictions (Some 7); GetHistory chats (Some 7);
     GetHistory reports (Some 7);
     PostGenerateReport (Some 7) (Some 3) None None]
  /\ downloads (dom w') = [1700000000001]
  /\ chatContainer (dom w') = [WelcomeScreen].
Proof. vm_compute. auto. Qed.

Example submitPredictionForm_waits :
  let r := submitPredictionForm percent_stub half_filled_form in
  fst r = Pending
  /\ loadingModal_shown (dom (snd r)) = true
  /\ currentUser (globals (snd r))
     = record (mkUser 42 "Guest User" "guest-1700000000001@example.com").
Proof. vm_compute. auto. Qed.

Example topic_line_cut :
  topic_line (mkEntry "What are the early warning signs of type 2 diabetes in adults?"
                "..." 0)
  = "* What are the early warning signs of type 2 diabete...".
Proof. reflexivity. Qed.

(** A created user whose body is [null]: [sendMessage] apologises without
    asking [/chat], and [generateReport] falls back to the local summary
    without any lookup. *)
Example sendMessage_null_user :
  let w' := snd (sendMessage null_user_created) in
  chatContainer (dom w')
  = [Message user "hello" 1700000000000; Message bot apology 1700000000002]
  /\ requests (network w') = [PostUsers "Guest User" "guest@example.com"]
  /\ currentUser (globals w') = null.
Proof. vm_compute. auto. Qed.

Example generateReport_null_user :
  let w' := snd (generateReport null_user_created) in
  requests (network w') = [PostUsers "Guest User" "guest@example.com"]
  /\ last (toastContainer (dom w')) success_toast = summary_toast.
Proof. vm_compute. auto. Qed.

(** A created user whose body is [true]: the requests go out without a
    user id. *)
Example analyzeReport_id_undefined :
  let w := on_network (with_users_script [Ok (Some (other true))]) all_up in
  requests (network (snd (analyzeReport w)))
  = [PostUsers "Guest User" "guest@example.com";
     PostAnalyzeReport (sample_pdf 2048) None].
Proof. vm_compute. auto. Qed.

(* ===================================================================== *)
(** ** Blank input *)
(* ===================================================================== *)

Lemma trimStart_blank (s : string) : blank s = true -> Js.trimStart s = EmptyString.
Proof.
  induction s as [|c r IH]; cbn; [reflexivity|].
  intros H. apply andb_prop in H. destruct H as [Hc Hr].
  rewrite Hc. auto.
Qed.

Lemma trimStart_head (s : string) :
  match Js.trimStart s with
  | EmptyString => blank s = true
  | String c _ => Js.is_white c = false
  end.
Proof.
  induction s as [|c r IH]; cbn; [reflexivity|].
  destruct (Js.is_white c) eqn:Hc; cbn.
  - destruct (Js.trimStart r); assumption.
  - exact Hc.
Qed.

Lemma trimEnd_nonblank_head (c : ascii) (r : string) :
  Js.is_white c = false -> Js.trimEnd (String c r) <> EmptyString.
Proof.
  intros Hc. cbn. destruct (Js.trimEnd r); [rewrite Hc|]; discriminate.
Qed.

(** [trim] gives the empty string exactly on the strings of white space. *)
Lemma trim_empty_iff_blank (s : string) :
  Js.trim s = EmptyString <-> blank s = true.
Proof.
  unfold Js.trim. split.
  - intros H. pose proof (trimStart_head s) as Hhead.
    destruct (Js.trimStart s) as [|c r]; [exact Hhead|].
    exfalso. exact (trimEnd_nonblank_head c r Hhead H).
  - intros H. rewrite (trimStart_blank s H). reflexivity.
Qed.

(** X1.  A message of white space only is ignored: [sendMessage] returns
    and the state is exactly what it was, so nothing is added to the
    transcript, no request is issued and the send button is not touched. *)
Theorem sendMessage_ignores_blank_input (w : World) :
  blank (messageInput (dom w)) = true ->
  sendMessage w = (Normal tt, w).
Proof.
  intros Hblank. apply trim_empty_iff_blank in Hblank.
  unfold sendMessage. rewrite run_gets, Hblank. reflexivity.
Qed.

Lemma sendMessage_ignores_blank_input_witness :
  sendMessage (on_dom (with_messageInput "   ") all_up)
  = (Normal tt, on_dom (with_messageInput "   ") all_up).
Proof.
  apply (sendMessage_ignores_blank_input
           (on_dom (with_messageInput "   ") all_up)).
  reflexivity.
Defined.

(* ===================================================================== *)
(** ** The identity: [createUser], the lazy creation, the reload *)
(* ===================================================================== *)

(** X2.  [createUser] never throws and never touches the two globals or the
    stored chat history; what it returns (the body of the created user as
    it came, or the mock user) is what it has written under the
    [medai_user] key; and it does return whenever some answer of the
    [/users] script is not the duplicate e-mail one. *)
Theorem createUser_returns_what_it_stores (name email : string) (w : World) :
  exists c w',
    createUser name email w = (c, w')
    /\ (forall e, c <> Throw e)
    /\ globals w' = globals w
    /\ medai_chat_history (localStorage w') = medai_chat_history (localStorage w)
    /\ (forall u, c = Normal u -> medai_user (localStorage w') = Some u)
    /\ (existsb (fun o => negb (is_duplicate o)) (users_script (network w)) = true
        -> exists u, c = Normal u).
Proof.
  destruct (createUser_run name email w)
    as (c & mu & tc & rest' & rq & tk & dr & Hrun & Hc & Hprog & _).
  exists c, (after_createUser mu tc rest' rq tk dr w).
  split; [exact Hrun|].
  split; [destruct Hc as [->|(u & -> & _)]; discriminate|].
  split; [reflexivity|]. split; [reflexivity|].
  split.
  - intros u Hu. destruct Hc as [->|(u' & -> & ->)]; [discriminate|].
    injection Hu as <-. reflexivity.
  - intros Hscript. destruct Hc as [->|(u & -> & _)]; [|eauto].
    exfalso. apply (Hprog Hscript). reflexivity.
Qed.

Lemma createUser_returns_what_it_stores_witness :
  exists w',
    createUser "Guest User" "guest@example.com" taken_twice
      = (Normal (record alice), w')
    /\ medai_user (localStorage w') = Some (record alice).
Proof.
  destruct (createUser_returns_what_it_stores
              "Guest User" "guest@example.com" taken_twice)
    as (c & w' & Hrun & _ & _ & _ & Hstored & Hreturns).
  destruct (Hreturns eq_refl) as (u & ->).
  assert (Hu : u = record alice).
  { pose proof (f_equal fst Hrun) as H. vm_compute in H.
    injection H as <-. reflexivity. }
  subst u. exists w'. split; [exact Hrun|]. apply Hstored. reflexivity.
Defined.

(** X3.  When the first answer of [/users] is a failure other than the
    duplicate e-mail one (rejection, another status, a body that is not
    JSON), [createUser] issues that one request and returns a mock user:
    an id between 1 and 1000, the name "Guest User", an e-mail made from the
    clock; it stores the mock user and shows no toast. *)
Theorem createUser_falls_back_to_mock_user (nm mail : string) (w : World)
    (o : UsersOutcome) (rest : list UsersOutcome) :
  users_script (network w) = o :: rest ->
  users_call_fails o = true ->
  exists u w',
    createUser nm mail w = (Normal (record u), w')
    /\ 1 <= id u <= 1000
    /\ name u = "Guest User"%string
    /\ email u
       = guest_email (clock (entropy w) (S (ticks (entropy w))))
    /\ medai_user (localStorage w') = Some (record u)
    /\ toastContainer (dom w') = toastContainer (dom w)
    /\ requests (network w')
       = requests (network w)
         ++ [users_request nm mail (clock (entropy w) (ticks (entropy w)))].
Proof.
  intros Hscript Hfails.
  unfold createUser. rewrite Hscript.
  assert (Hbound : 1 <= random (entropy w) (draws (entropy w)) mod 1000 + 1
                   <= 1000).
  { pose proof (Z.mod_pos_bound (random (entropy w) (draws (entropy w))) 1000).
    lia. }
  destruct o as [|status [errorData|]|[created|]]; try discriminate Hfails;
    cbn [createUser_on]; unfold try_catch, bind; cbn [Date_now modify].
  2: (cbn [users_call_fails is_duplicate] in Hfails;
      apply negb_true_iff in Hfails; rewrite Hfails).
  all: cbn -[Z.modulo guest_email users_request];
    do 2 eexists; (split; [reflexivity|]); cbn -[Z.modulo guest_email];
    repeat split; try reflexivity; apply Hbound.
Qed.

Lemma createUser_falls_back_to_mock_user_witness :
  exists u w',
    createUser "Guest User" "guest@example.com" half_filled_form
      = (Normal (record u), w')
    /\ 1 <= id u <= 1000
    /\ medai_user (localStorage w') = Some (record u)
    /\ toastContainer (dom w') = [].
Proof.
  destruct (createUser_falls_back_to_mock_user
              "Guest User" "guest@example.com" half_filled_form Rejected []
              eq_refl eq_refl)
    as (u & w' & Hrun & Hid & _ & _ & Hstored & Htoast & _).
  exists u, w'. auto.
Defined.

Lemma run_result {A} (m : Op A) (w : World) (a : A) :
  fst (m w) = Normal a -> m w = (Normal a, snd (m w)).
Proof. destruct (m w) as [c w']. cbn. intros ->. reflexivity. Qed.


Lemma record_is_truthy (v : UserValue) :
  is_record v = true -> user_truthy v = true.
Proof. destruct v; cbn; congruence. Qed.



(** X5.  The first [POST /users] of a session always carries the fixed
    e-mail [guest@example.com] under the name "Guest User": every caller of
    [createUser] passes that e-mail, so the unique e-mail generated at the
    top of [createUser] is never the one sent.  What follows it are only the
    retries. *)
Theorem first_users_request_has_fixed_email (w : World) :
  user_truthy (currentUser (globals w)) = false ->
  exists retries,
    requests (network (snd (ensureUser w)))
    = requests (network w)
      ++ PostUsers "Guest User" "guest@example.com" :: retries
    /\ List.length retries = leading_duplicates (users_script (network w))
    /\ Forall (is_retry_of "Guest User") retries.
Proof.
  intros Hcu. unfold ensureUser. rewrite run_gets, Hcu. unfold bind.
  destruct (createUser_run "Guest User" "guest@example.com" w)
    as (c & mu & tc & rest' & rq & tk & dr & Hrun & Hc & _ & _
        & (retries & Hrq & Hlen & Hretries) & _).
  rewrite Hrun. exists retries.
  split; [|split; assumption].
  destruct Hc as [->|(u & -> & _)]; cbn; exact Hrq.
Qed.

Lemma first_users_request_has_fixed_email_witness :
  exists retries,
    requests (network (snd (ensureUser taken_twice)))
    = PostUsers "Guest User" "guest@example.com" :: retries
    /\ List.length retries = 2%nat.
Proof.
  destruct (first_users_request_has_fixed_email taken_twice eq_refl)
    as (retries & Hrq & Hlen & _).
  exists retries. split; [exact Hrq|exact Hlen].
Defined.

(** What [loadUserData] does, key by key. *)
Lemma loadUserData_run (w : World) :
  loadUserData w =
    (Normal tt,
     match medai_chat_history (localStorage w) with
     | Some h => on_globals (with_chatHistory h)
     | None => fun w0 => w0
     end
       match medai_user (localStorage w) with
       | Some u => on_globals (with_currentUser u) w
       | None => w
       end).
Proof.
  unfold loadUserData, bind, gets, modify, ret.
  destruct (medai_user (localStorage w)) as [u|];
    cbn [localStorage on_globals];
    destruct (medai_chat_history (localStorage w)); reflexivity.
Qed.

(** X6.  The chat history survives a reload: on any page whose storage is
    the one [saveChatHistory] left, [loadUserData] puts in [chatHistory]
    exactly the array that was in memory after the save. *)
Theorem saved_history_is_restored_on_load (q r : string) (w w2 : World) :
  localStorage w2 = localStorage (snd (saveChatHistory q r w)) ->
  exists w3,
    loadUserData w2 = (Normal tt, w3)
    /\ chatHistory (globals w3)
       = chatHistory (globals (snd (saveChatHistory q r w))).
Proof.
  intros Hstorage. rewrite saveChatHistory_run in Hstorage |- *.
  cbn [snd localStorage on_localStorage on_globals on_entropy globals
       chatHistory with_chatHistory] in Hstorage |- *.
  eexists. split; [apply loadUserData_run|].
  rewrite Hstorage. cbn [medai_chat_history with_medai_chat_history].
  reflexivity.
Qed.

Lemma saved_history_is_restored_on_load_witness :
  let saved := snd (saveChatHistory "q" "r" long_history) in
  exists w3,
    loadUserData (on_localStorage (fun _ => localStorage saved) fresh_page)
    = (Normal tt, w3)
    /\ chatHistory (globals w3) = chatHistory (globals saved)
    /\ List.length (chatHistory (globals w3)) = 50%nat.
Proof.
  intros saved.
  destruct (saved_history_is_restored_on_load "q" "r" long_history
              (on_localStorage (fun _ => localStorage saved) fresh_page)
              eq_refl)
    as (w3 & Hrun & Hhist).
  exists w3. split; [exact Hrun|]. split; [exact Hhist|].
  rewrite Hhist. vm_compute. reflexivity.
Defined.

(** X7.  The identity survives a reload: on any page whose storage is the
    one [createUser] left when it returned a user, [loadUserData] sets
    [currentUser] to that user, so that the next operation creates none. *)
Theorem created_user_is_restored_on_load (nm mail : string) (w w' w2 : World)
    (u : User) :
  createUser nm mail w = (Normal (record u), w') ->
  localStorage w2 = localStorage w' ->
  exists w3,
    loadUserData w2 = (Normal tt, w3)
    /\ currentUser (globals w3) = record u
    /\ ensureUser w3 = (Normal tt, w3).
Proof.
  intros Hrun Hstorage.
  assert (Hstored : medai_user (localStorage w') = Some (record u)).
  { destruct (createUser_run nm mail w)
      as (c & mu & tc & rest' & rq & tk & dr & Hrun' & Hc & _).
    rewrite Hrun in Hrun'. injection Hrun' as <- ->.
    destruct Hc as [Hc|(u' & Hu & ->)]; [discriminate Hc|].
    injection Hu as <-. reflexivity. }
  rewrite <- Hstorage in Hstored.
  assert (Hcu : currentUser (globals (snd (loadUserData w2))) = record u).
  { rewrite loadUserData_run, Hstored. cbn [snd].
    destruct (medai_chat_history (localStorage w2)); reflexivity. }
  exists (snd (loadUserData w2)).
  split; [rewrite loadUserData_run; reflexivity|].
  split; [exact Hcu|].
  unfold ensureUser. rewrite run_gets, Hcu. reflexivity.
Qed.

Lemma created_user_is_restored_on_load_witness :
  exists w3,
    loadUserData
      (on_localStorage
         (fun _ => localStorage
                     (snd (createUser "Guest User" "guest@example.com" taken_once)))
         fresh_page)
    = (Normal tt, w3)
    /\ currentUser (globals w3) = record alice.
Proof.
  destruct (created_user_is_restored_on_load "Guest User" "guest@example.com"
              taken_once
              (snd (createUser "Guest User" "guest@example.com" taken_once))
              (on_localStorage
                 (fun _ => localStorage
                             (snd (createUser "Guest User" "guest@example.com"
                                     taken_once)))
                 fresh_page)
              alice)
    as (w3 & Hrun & Hcu & _).
  - apply run_result. vm_compute. reflexivity.
  - reflexivity.
  - exists w3. split; assumption.
Defined.

(* ===================================================================== *)
(** ** The transcript and the history over several steps *)
(* ===================================================================== *)

Lemma no_welcome_left renders (nodes : list Node) :
  existsb (is_welcome renders) (without_welcome renders nodes) = false.
Proof.
  unfold without_welcome.
  destruct (existsb (is_welcome renders) nodes) eqn:H; [reflexivity|exact H].
Qed.

(** X8.  [addMessage] always returns, with exactly one message added at the
    end of the transcript.  Its test for the welcome screen searches the
    whole container: when the welcome screen is there, or a bot message
    whose rendered markdown holds an element of that class, everything in
    the container is removed first; otherwise the messages already there
    are all kept, in order.  After a user message nothing in the container
    passes the test, so the message added next comes after it.  After a bot
    message the test passes exactly when the rendering of that message
    holds such an element, and then the message added next replaces the
    whole transcript.  Globals, storage and network are untouched. *)
Theorem addMessage_appends_one_message (content : string) (type : MessageType)
    (w : World) :
  let found :=
    match type with
    | user => false
    | bot => renders_welcome w content
    end in
  exists w' time,
    addMessage content type w = (Normal tt, w')
    /\ chatContainer (dom w')
       = without_welcome (renders_welcome w) (chatContainer (dom w))
         ++ [Message type content time]
    /\ (existsb (is_welcome (renders_welcome w)) (chatContainer (dom w))
        = false ->
        chatContainer (dom w')
        = chatContainer (dom w) ++ [Message type content time])
    /\ existsb (is_welcome (renders_welcome w')) (chatContainer (dom w'))
       = found
    /\ (forall content2 type2, exists time2,
          chatContainer (dom (snd (addMessage content2 type2 w')))
          = (if found then [] else chatContainer (dom w'))
            ++ [Message type2 content2 time2])
    /\ renders_welcome w' = renders_welcome w
    /\ globals w' = globals w
    /\ localStorage w' = localStorage w
    /\ network w' = network w.
Proof.
  intros found. do 2 eexists. split; [apply addMessage_run|].
  cbn [dom on_dom on_entropy chatContainer with_chatContainer globals
       localStorage network renders_welcome].
  fold (without_welcome (renders_welcome w) (chatContainer (dom w))).
  assert (Hfound :
    existsb (is_welcome (renders_welcome w))
      (without_welcome (renders_welcome w) (chatContainer (dom w))
       ++ [Message type content (clock (entropy w) (ticks (entropy w)))])
    = found).
  { rewrite existsb_app, no_welcome_left. cbn [existsb orb is_welcome].
    subst found. destruct type; [reflexivity|apply orb_false_r]. }
  split; [reflexivity|].
  split; [intros Hnone; unfold without_welcome; rewrite Hnone; reflexivity|].
  split; [exact Hfound|].
  split; [|auto].
  intros content2 type2. eexists. rewrite addMessage_run.
  cbn [snd dom on_dom on_entropy chatContainer with_chatContainer
       renders_welcome].
  rewrite Hfound. reflexivity.
Qed.

Lemma addMessage_appends_one_message_witness :
  (exists w' t1 t2,
     (addMessage "one" user ;; addMessage "two" bot) fresh_page = (Normal tt, w')
     /\ chatContainer (dom w') = [Message user "one" t1; Message bot "two" t2])
  /\ (exists w' t2,
        (addMessage "<div class=welcome-screen>Hi</div>" bot ;;
         addMessage "thanks" user) raw_html_page = (Normal tt, w')
        /\ chatContainer (dom w') = [Message user "thanks" t2]).
Proof.
  split.
  - destruct (addMessage_appends_one_message "one" user fresh_page)
      as (w1 & t1 & Hrun1 & Hchat1 & _ & _ & Hnext & _).
    destruct (Hnext "two"%string bot) as (t2 & Hchat2).
    exists (snd (addMessage "two" bot w1)), t1, t2.
    unfold bind. rewrite Hrun1.
    split; [apply run_result; rewrite addMessage_run; reflexivity|].
    rewrite Hchat2, Hchat1. reflexivity.
  - destruct (addMessage_appends_one_message
                "<div class=welcome-screen>Hi</div>" bot raw_html_page)
      as (w1 & t1 & Hrun1 & _ & _ & _ & Hnext & _).
    destruct (Hnext "thanks"%string user) as (t2 & Hchat2).
    exists (snd (addMessage "thanks" user w1)), t2.
    unfold bind. rewrite Hrun1.
    split; [apply run_result; rewrite addMessage_run; reflexivity|].
    rewrite Hchat2. reflexivity.
Defined.

Lemma singleton_suffix {A} (e : A) (evicted kept : list A) :
  [e] = evicted ++ kept -> List.length kept = 1%nat -> kept = [e].
Proof.
  intros Heq Hlen. destruct evicted as [|x evicted]; [auto|].
  apply (f_equal (@List.length A)) in Heq.
  rewrite length_app in Heq. cbn in Heq. lia.
Qed.

(** X9.  A new chat starts from nothing: after [startNewChat], a successful
    [sendMessage] leaves a transcript of exactly two messages (the user
    message and the answer) and a history, in memory and in storage, of
    exactly that one exchange. *)
Theorem first_exchange_after_new_chat (w : World) (data : ChatData)
    (rest : list ChatOutcome) :
  Js.trim (messageInput (dom w)) <> EmptyString ->
  identity_available w = true ->
  chat_script (network w) = Ok (Some data) :: rest ->
  let message := Js.trim (messageInput (dom w)) in
  let answer :=
    Js.str_or_else (chat_answer data)
      (Js.str_or_else (chat_response data)
         "I received your message but got an unexpected response.") in
  exists w' t1 t2 t3,
    (startNewChat ;; sendMessage) w = (Normal tt, w')
    /\ chatContainer (dom w') = [Message user message t1; Message bot answer t2]
    /\ chatHistory (globals w') = [mkEntry message answer t3]
    /\ medai_chat_history (localStorage w') = Some [mkEntry message answer t3].
Proof.
  intros Hmsg Hid Hscript message answer.
  unfold bind at 1. unfold startNewChat. run_script.
  match goal with
  | |- context [sendMessage ?w1] =>
      destruct (sendMessage_chat_success w1 data rest Hmsg Hid Hscript)
        as (w' & t1 & t2 & t3 & evicted & Hrun & Hchat & Hhist & Hlen
            & Hstored & _)
  end.
  exists w', t1, t2, t3. split; [exact Hrun|].
  split; [exact Hchat|].
  cbn in Hhist, Hlen.
  rewrite Hstored, (singleton_suffix _ _ _ Hhist Hlen). auto.
Qed.

Lemma first_exchange_after_new_chat_witness :
  exists w' t3,
    (startNewChat ;; sendMessage) all_up = (Normal tt, w')
    /\ chatHistory (globals w') = [mkEntry "hello" "Hi there." t3].
Proof.
  destruct (first_exchange_after_new_chat all_up
              (mkChatData (Some "Hi there."%string) None) [])
    as (w' & t1 & t2 & t3 & Hrun & _ & Hhist & _).
  - vm_compute. discriminate.
  - reflexivity.
  - reflexivity.
  - exists w', t3. split; [exact Hrun|exact Hhist].
Defined.

(** X10.  After [startNewChat] the stored history is gone and the stored
    identity is not: on any page whose storage is the one [startNewChat]
    left, [loadUserData] leaves [chatHistory] as the page initialised it and
    sets [currentUser] to the user that was stored before the new chat. *)
Theorem new_chat_survives_reload (w w2 : World) :
  localStorage w2 = localStorage (snd (startNewChat w)) ->
  exists w3,
    loadUserData w2 = (Normal tt, w3)
    /\ chatHistory (globals w3) = chatHistory (globals w2)
    /\ (forall u, medai_user (localStorage w) = Some u ->
                  currentUser (globals w3) = u).
Proof.
  intros Hstorage.
  change (localStorage (snd (startNewChat w)))
    with (with_medai_chat_history None (localStorage w)) in Hstorage.
  eexists. split; [apply loadUserData_run|].
  rewrite Hstorage. cbn [medai_chat_history medai_user with_medai_chat_history].
  split.
  - destruct (medai_user (localStorage w)); reflexivity.
  - intros u Hu. rewrite Hu. reflexivity.
Qed.

Lemma new_chat_survives_reload_witness :
  let stored :=
    on_localStorage (with_medai_user (Some (record alice))) stored_51 in
  exists w3,
    loadUserData
      (on_localStorage (fun _ => localStorage (snd (startNewChat stored)))
         fresh_page)
    = (Normal tt, w3)
    /\ chatHistory (globals w3) = []
    /\ currentUser (globals w3) = record alice.
Proof.
  intros stored.
  destruct (new_chat_survives_reload stored
              (on_localStorage (fun _ => localStorage (snd (startNewChat stored)))
                 fresh_page) eq_refl)
    as (w3 & Hrun & Hhist & Hcu).
  exists w3. split; [exact Hrun|]. split; [exact Hhist|].
  apply Hcu. reflexivity.
Defined.

(** X11.  Saving one exchange after another: the history is always the end
    of what the old history followed by the new entries would be, the new
    entries carry the queries and answers in the order given, and after at
    least one save the length is [min (old + number saved) 50]. *)
Theorem save_each_keeps_the_most_recent (exchanges : list (string * string)) :
  forall w : World,
  exists w' entries evicted,
    save_each exchanges w = (Normal tt, w')
    /\ map (fun e => (query e, response e)) entries = exchanges
    /\ chatHistory (globals w) ++ entries = evicted ++ chatHistory (globals w')
    /\ List.length (chatHistory (globals w'))
       = match exchanges with
         | [] => List.length (chatHistory (globals w))
         | _ :: _ =>
             Nat.min (List.length (chatHistory (globals w))
                      + List.length exchanges) 50
         end.
Proof.
  induction exchanges as [|[q r] rest IH]; intros w.
  - exists w, [], []. rewrite app_nil_r. auto.
  - cbn [save_each]. unfold bind. rewrite saveChatHistory_run.
    match goal with
    | |- context [save_each rest ?w1] =>
        destruct (IH w1) as (w' & entries & evicted & Hrun & Hmap & Hhist & Hlen)
    end.
    cbn [globals chatHistory on_globals on_localStorage on_entropy
         with_chatHistory] in Hhist, Hlen.
    set (h := chatHistory (globals w)) in *.
    set (e := mkEntry q r (clock (entropy w) (ticks (entropy w)))) in *.
    exists w', (e :: entries),
      (firstn (List.length h + 1 - 50) (h ++ [e]) ++ evicted).
    split; [exact Hrun|]. split; [cbn; rewrite Hmap; reflexivity|].
    split.
    + rewrite <- app_assoc, <- Hhist, app_assoc, firstn_skipn, <- app_assoc.
      reflexivity.
    + rewrite Hlen, length_skipn, length_app. cbn [List.length].
      destruct rest; cbn [List.length]; lia.
Qed.

(** X12.  A line of the summary: a query of at most fifty characters is
    listed whole, a longer one is cut to exactly fifty, and the three dots
    are appended in both cases (also when nothing was cut). *)
Theorem topic_line_cuts_at_50 (chat : ChatHistoryEntry) :
  ((String.length (query chat) <= 50)%nat ->
   topic_line chat = ("* " ++ query chat ++ "...")%string)
  /\ ((50 < String.length (query chat))%nat ->
      exists head,
        topic_line chat = ("* " ++ head ++ "...")%string
        /\ String.length head = 50%nat
        /\ String.prefix head (query chat) = true).
Proof.
  unfold topic_line, Js.substring0. split.
  - intros Hshort. rewrite substring_whole by exact Hshort. reflexivity.
  - intros Hlong. exists (String.substring 0 50 (query chat)).
    split; [reflexivity|]. split; [apply substring_cut; lia|].
    apply substring_prefix.
Qed.

Lemma topic_line_cuts_at_50_witness :
  topic_line old_entry = "* How to sleep better?..."%string
  /\ exists head,
       topic_line
         (mkEntry "What are the early warning signs of type 2 diabetes in adults?"
            "..." 0)
       = ("* " ++ head ++ "...")%string
       /\ String.length head = 50%nat.
Proof.
  split.
  - apply (proj1 (topic_line_cuts_at_50 old_entry)). vm_compute. lia.
  - destruct (proj2 (topic_line_cuts_at_50
                       (mkEntry "What are the early warning signs of type 2 diabetes in adults?"
                          "..." 0)))
      as (head & Hline & Hlen & _); [vm_compute; lia|].
    exists head. split; assumption.
Defined.
(* ===================================================================== *)
(** ** What [sendMessage] sends and shows *)
(* ===================================================================== *)

Lemma ensureUser_when_set (w : World) (u : User) :
  currentUser (globals w) = record u -> ensureUser w = (Normal tt, w).
Proof.
  intros Hcu. unfold ensureUser. rewrite run_gets, Hcu. reflexivity.
Qed.

(** [ensureUser] when the identity is at hand: it returns; the user record
    it leaves in [currentUser], the requests it has added (none when the
    user was there), and the rest of the state as [createUser] leaves it. *)
Lemma ensureUser_returns (w : World) :
  identity_available w = true ->
  exists u mu tc rest rq tk dr issued,
    ensureUser w
      = (Normal tt, on_globals (with_currentUser (record u))
                      (after_createUser mu tc rest rq tk dr w))
    /\ (exists ts, tc = toastContainer (dom w) ++ ts
                   /\ (ts = [] \/ ts = [success_toast]))
    /\ rq = requests (network w) ++ issued
    /\ forallb is_PostUsers issued = true
    /\ (forall u0, currentUser (globals w) = record u0 -> u = u0 /\ issued = []).
Proof.
  intros Hid.
  destruct (ensureUser_run w)
    as (c & cu & mu & tc & rest & rq & tk & dr & Hrun & Hc & Htoast
        & (issued & Hrq & Hissued) & Htruthy & _).
  destruct Hc as [(_ & Hna)|(-> & Hu)]; [congruence|].
  destruct (Hu Hid) as (u & ->).
  exists u, mu, tc, rest, rq, tk, dr, issued.
  split; [exact Hrun|]. split; [exact Htoast|]. split; [exact Hrq|].
  split; [exact Hissued|]. intros u0 Hu0.
  rewrite Hu0 in Htruthy. destruct (Htruthy eq_refl) as (_ & Hsame & Hnone).
  split; [congruence|].
  rewrite Hnone in Hrq. rewrite <- (app_nil_r (requests (network w))) in Hrq at 1.
  apply app_inv_head in Hrq. auto.
Qed.

(** The requests of [sendMessage], for every answer of the backend. *)
Lemma sendMessage_requests (w : World) :
  Js.trim (messageInput (dom w)) <> EmptyString ->
  let w' := snd (sendMessage w) in
  let message := Js.trim (messageInput (dom w)) in
  exists issued chat,
    requests (network w') = requests (network w) ++ issued ++ chat
    /\ forallb is_PostUsers issued = true
    /\ (user_truthy (currentUser (globals w)) = true ->
        issued = [] /\ currentUser (globals w') = currentUser (globals w))
    /\ (chat = []
        \/ chat = [PostChat (id_of (currentUser (globals w'))) message])
    /\ (chat = [] <-> user_truthy (currentUser (globals w')) = false)
    /\ (identity_available w = true ->
        exists u, currentUser (globals w') = record u
                  /\ chat = [PostChat (Some (id u)) message])
    /\ In (Message user message (clock (entropy w) (ticks (entropy w))))
          (chatContainer (dom w'))
    /\ messageInput (dom w') = EmptyString.
Proof.
  intros Hmsg w' message. subst w' message.
  destruct (sendMessage w) as [c w'] eqn:E. cbn [snd].
  unfold sendMessage in E. rewrite run_gets in E.
  destruct (Js.trim (messageInput (dom w))) as [|c0 s0] eqn:Htrim;
    [congruence|].
  rewrite run_addMessage, !run_modify in E.
  unfold try_finally, try_catch in E.
  unfold bind at 1 in E.
  match type of E with
  | context [ensureUser ?w2] =>
      destruct (ensureUser_run w2)
        as (c1 & cu & mu & tc & rest' & rq & tk & dr & Hrun & Hc & _
            & (issued & Hrq & Hissued) & Htruthy & Hfalsy);
      rewrite Hrun in E
  end.
  cbn [network on_dom on_entropy requests globals currentUser] in Hrq, Htruthy,
    Hfalsy.
  assert (Hid2 : forall w2 : World,
            globals w2 = globals w -> network w2 = network w ->
            identity_available w2 = identity_available w).
  { intros w2 Hg Hn. unfold identity_available. rewrite Hg, Hn. reflexivity. }
  rewrite Hid2 in Hc by reflexivity.
  subst rq.
  assert (Hfinish :
    forall (w0 : World) (chat : list Request),
      currentUser (globals w0) = cu ->
      requests (network w0) = (requests (network w) ++ issued) ++ chat ->
      (exists more,
         chatContainer (dom w0)
         = (without_welcome (renders_welcome w) (chatContainer (dom w))
            ++ [Message user (String c0 s0)
                  (clock (entropy w) (ticks (entropy w)))]) ++ more) ->
      messageInput (dom w0) = EmptyString ->
      (chat = [] /\ user_truthy cu = false
       \/ chat = [PostChat (id_of cu) (String c0 s0)] /\ user_truthy cu = true) ->
      (user_truthy (currentUser (globals w)) = true ->
       issued = [] /\ cu = currentUser (globals w)) ->
      (identity_available w = true -> exists u, cu = record u) ->
      exists issued chat,
        requests (network w0) = requests (network w) ++ issued ++ chat
        /\ forallb is_PostUsers issued = true
        /\ (user_truthy (currentUser (globals w)) = true ->
            issued = [] /\ currentUser (globals w0) = currentUser (globals w))
        /\ (chat = []
            \/ chat = [PostChat (id_of (currentUser (globals w0)))
                         (String c0 s0)])
        /\ (chat = [] <-> user_truthy (currentUser (globals w0)) = false)
        /\ (identity_available w = true ->
            exists u, currentUser (globals w0) = record u
                      /\ chat = [PostChat (Some (id u)) (String c0 s0)])
        /\ In (Message user (String c0 s0)
                 (clock (entropy w) (ticks (entropy w))))
              (chatContainer (dom w0))
        /\ messageInput (dom w0) = EmptyString).
  { intros w0 chat Hcu0 Hrq0 (more & Hchat0) Hinput0 Hchat Hset Hrec.
    exists issued, chat. rewrite Hrq0, Hchat0, Hcu0, <- !app_assoc.
    split; [reflexivity|]. split; [exact Hissued|].
    split; [exact Hset|].
    split; [destruct Hchat as [(-> & _)|(-> & _)]; auto|].
    split.
    { destruct Hchat as [(-> & Hf)|(-> & Ht)]; split; congruence. }
    split.
    { intros Hid. destruct (Hrec Hid) as (u & ->). exists u.
      split; [reflexivity|].
      destruct Hchat as [(_ & Hf)|(-> & _)]; [discriminate Hf|reflexivity]. }
    split; [|exact Hinput0].
    apply in_or_app. right. left. reflexivity. }
  assert (Hset : user_truthy (currentUser (globals w)) = true ->
                 issued = [] /\ cu = currentUser (globals w)).
  { intros Ht. destruct (Htruthy Ht) as (_ & Hsame & Hnone).
    split; [|exact Hsame].
    rewrite <- (app_nil_r (requests (network w))) in Hnone at 2.
    apply app_inv_head in Hnone. exact Hnone. }
  destruct Hc as [(-> & Hna)|(-> & Hu)].
  { (* [/users] is not answered *)
    injection E as <- <-.
    apply (Hfinish _ []); try reflexivity.
    - rewrite app_nil_r. reflexivity.
    - exists []. rewrite app_nil_r. reflexivity.
    - left. split; [reflexivity|].
      destruct (user_truthy (currentUser (globals w))) eqn:Ht.
      + destruct (Htruthy eq_refl) as (Hc & _). discriminate Hc.
      + destruct (Hfalsy eq_refl) as (Hpending & _).
        destruct (Hpending eq_refl) as (-> & _). exact Ht.
    - exact Hset.
    - rewrite Hna. discriminate. }
  unfold bind at 1 in E. unfold callGeminiAPI at 1 in E. rewrite run_gets in E.
  cbn [globals on_globals currentUser with_currentUser] in E.
  destruct (user_truthy cu) eqn:Hcu; cbn [negb] in E.
  2:{ (* [currentUser] is still falsy: "User not created" *)
      rewrite throw_run in E. cbv beta iota in E.
      repeat (progress (autorewrite with run in E; cbv beta iota in E)).
      injection E as <- <-.
      apply (Hfinish _ []); try reflexivity; auto.
      - cbn. rewrite app_nil_r. reflexivity.
      - cbn. rewrite no_welcome_after_message. eexists. reflexivity. }
  assert (Hid_of : forall {B} (k : option Z -> Op B) (w0 : World),
            currentUser (globals w0) = cu ->
            bind currentUser_id k w0 = k (id_of cu) w0).
  { intros B k w0 Hw0. unfold currentUser_id, bind, gets. rewrite Hw0.
    destruct cu as [|u|[|]]; try discriminate Hcu; reflexivity. }
  rewrite Hid_of in E by reflexivity.
  unfold bind at 1 in E. unfold fetch at 1 in E.
  cbn [network on_network on_globals after_createUser chat_script
       with_requests with_users_script with_chat_script on_dom on_entropy] in E.
  destruct (chat_script (network w)) as [|o rest].
  - cbv beta iota in E. injection E as <- <-.
    apply (Hfinish _ [PostChat (id_of cu) (String c0 s0)]);
      try reflexivity; auto.
    exists []. rewrite app_nil_r. reflexivity.
  - destruct o as [|status errorText|[data|]]; cbv beta iota in E;
      repeat (progress (autorewrite with run in E; cbv beta iota in E));
      injection E as <- <-;
      apply (Hfinish _ [PostChat (id_of cu) (String c0 s0)]);
      try reflexivity; auto;
      cbn; rewrite no_welcome_after_message; eexists; reflexivity.
Qed.

(** X13.  A message that is not blank is sent at most once, and only under
    a truthy [currentUser].  Whatever the backend answers (or if it never
    answers), the requests [sendMessage] adds are the [POST /users] of the
    identity creation, none when [currentUser] was truthy, and then, when
    [currentUser] is truthy after that, one [POST /chat] with the trimmed
    text and the [id] of [currentUser] (none, when that value has no [id]).
    When [currentUser] is still falsy ([/users] was not answered, or the
    created user came as [null] or another falsy value) there is no
    [POST /chat].  With the identity at hand the [POST /chat] carries the
    id of the user record.  In every case the user message is in the
    transcript and the input is emptied. *)
Theorem sendMessage_posts_the_trimmed_message (w : World) :
  Js.trim (messageInput (dom w)) <> EmptyString ->
  let w' := snd (sendMessage w) in
  let message := Js.trim (messageInput (dom w)) in
  exists issued chat,
    requests (network w') = requests (network w) ++ issued ++ chat
    /\ forallb is_PostUsers issued = true
    /\ (user_truthy (currentUser (globals w)) = true ->
        issued = [] /\ currentUser (globals w') = currentUser (globals w))
    /\ (chat = []
        \/ chat = [PostChat (id_of (currentUser (globals w'))) message])
    /\ (chat = [] <-> user_truthy (currentUser (globals w')) = false)
    /\ (identity_available w = true ->
        exists u, currentUser (globals w') = record u
                  /\ chat = [PostChat (Some (id u)) message])
    /\ In (Message user message (clock (entropy w) (ticks (entropy w))))
          (chatContainer (dom w'))
    /\ messageInput (dom w') = EmptyString.
Proof. exact (sendMessage_requests w). Qed.

Lemma sendMessage_posts_the_trimmed_message_witness :
  requests (network (snd (sendMessage chat_down)))
  = [PostUsers "Guest User" "guest@example.com";
     PostChat (Some 7) "What is a normal BMI?"]
  /\ requests (network (snd (sendMessage null_user_created)))
     = [PostUsers "Guest User" "guest@example.com"]
  /\ messageInput (dom (snd (sendMessage chat_down))) = EmptyString.
Proof.
  destruct (sendMessage_posts_the_trimmed_message chat_down)
    as (issued & chat & Hrq & Hissued & _ & _ & _ & Hsent & _ & Hinput);
    [vm_compute; discriminate|].
  destruct (sendMessage_posts_the_trimmed_message null_user_created)
    as (issued' & chat' & Hrq' & _ & _ & _ & Hnone & _);
    [vm_compute; discriminate|].
  split; [|split; [|exact Hinput]].
  - destruct (Hsent eq_refl) as (u & Hu & ->).
    assert (Hu7 : u = alice).
    { assert (H : currentUser (globals (snd (sendMessage chat_down)))
                  = record alice) by (vm_compute; reflexivity).
      rewrite Hu in H. injection H as ->. reflexivity. }
    subst u. reflexivity.
  - reflexivity.
Defined.

(** X15.  A successful exchange: when the trimmed input is not empty and
    the [/chat] call is made and answered with a JSON body, [sendMessage]
    returns with the transcript grown by the user message and the answer
    (the body's [answer], else its [response], else a fixed acknowledgment),
    with exactly one entry pushed on the history, which keeps its last
    fifty, with the same array stored, and with the send button enabled. *)
Theorem successful_exchange_is_recorded (w : World) (data : ChatData)
    (rest : list ChatOutcome) :
  Js.trim (messageInput (dom w)) <> EmptyString ->
  identity_available w = true ->
  chat_script (network w) = Ok (Some data) :: rest ->
  let message := Js.trim (messageInput (dom w)) in
  let answer :=
    Js.str_or_else (chat_answer data)
      (Js.str_or_else (chat_response data) unexpected_response) in
  exists w' t1 t2 t3 evicted,
    sendMessage w = (Normal tt, w')
    /\ chatContainer (dom w')
       = without_welcome (renders_welcome w) (chatContainer (dom w))
         ++ [Message user message t1; Message bot answer t2]
    /\ chatHistory (globals w) ++ [mkEntry message answer t3]
       = evicted ++ chatHistory (globals w')
    /\ List.length (chatHistory (globals w'))
       = Nat.min (List.length (chatHistory (globals w)) + 1) 50
    /\ medai_chat_history (localStorage w') = Some (chatHistory (globals w'))
    /\ sendBtn_disabled (dom w') = false.
Proof.
  intros Hmsg Hid Hscript. exact (sendMessage_chat_success w data rest Hmsg Hid Hscript).
Qed.

Lemma successful_exchange_is_recorded_witness :
  exists w' t1 t2 t3,
    sendMessage all_up = (Normal tt, w')
    /\ chatContainer (dom w')
       = [Message user "hello" t1; Message bot "Hi there." t2]
    /\ List.length (chatHistory (globals w')) = 1%nat
    /\ medai_chat_history (localStorage w') = Some (chatHistory (globals w'))
    /\ In (mkEntry "hello" "Hi there." t3) (chatHistory (globals w')).
Proof.
  destruct (successful_exchange_is_recorded all_up
              (mkChatData (Some "Hi there."%string) None) [])
    as (w' & t1 & t2 & t3 & evicted & Hrun & Hchat & Hhist & Hlen & Hstored & _).
  - vm_compute. discriminate.
  - reflexivity.
  - reflexivity.
  - exists w', t1, t2, t3. split; [exact Hrun|]. split; [exact Hchat|].
    split; [exact Hlen|]. split; [exact Hstored|].
    cbn in Hhist, Hlen.
    rewrite (singleton_suffix _ _ _ Hhist Hlen). left. reflexivity.
Defined.

(** X14.  Which field of the [/chat] body is shown: a non-empty [answer];
    when [answer] is missing or empty, a non-empty [response]; when both
    are missing or empty, the fixed acknowledgment. *)
Theorem chat_answer_precedence (q : string) (w : World)
    (data : ChatData) (rest : list ChatOutcome) :
  user_truthy (currentUser (globals w)) = true ->
  chat_script (network w) = Ok (Some data) :: rest ->
  exists a w',
    callGeminiAPI q w = (Normal a, w')
    /\ (forall s, chat_answer data = Some s -> s <> EmptyString -> a = s)
    /\ (missing (chat_answer data) ->
        forall s, chat_response data = Some s -> s <> EmptyString -> a = s)
    /\ (missing (chat_answer data) -> missing (chat_response data) ->
        a = unexpected_response).
Proof.
  intros Hcu Hscript.
  assert (Hrun : exists w',
            callGeminiAPI q w
            = (Normal (Js.str_or_else (chat_answer data)
                         (Js.str_or_else (chat_response data)
                            unexpected_response)), w')).
  { unfold callGeminiAPI, currentUser_id, bind, gets, fetch, ret, throw.
    cbv beta.
    destruct (currentUser (globals w)) as [|u|[|]] eqn:Hu;
      try discriminate Hcu;
      cbn [user_truthy negb]; cbv beta iota; rewrite ?Hu; cbv beta iota;
      cbn [network on_network chat_script with_requests];
      rewrite Hscript; eexists; reflexivity. }
  destruct Hrun as (w' & Hrun). do 2 eexists. split; [exact Hrun|].
  unfold missing. split; [|split].
  - intros s -> Hs. destruct s; [congruence|reflexivity].
  - intros [->| ->] s -> Hs; (destruct s; [congruence|reflexivity]).
  - intros [->| ->] [->| ->]; reflexivity.
Qed.

Lemma chat_answer_precedence_witness :
  exists w',
    callGeminiAPI "hi"
      (on_network
         (with_chat_script [Ok (Some (mkChatData (Some EmptyString)
                                        (Some "from response")))])
         signed_in)
    = (Normal "from response"%string, w').
Proof.
  destruct (chat_answer_precedence "hi"
              (on_network
                 (with_chat_script [Ok (Some (mkChatData (Some EmptyString)
                                                (Some "from response")))])
                 signed_in)
              (mkChatData (Some EmptyString) (Some "from response"%string)) []
              eq_refl eq_refl)
    as (a & w' & Hrun & _ & Hresponse & _).
  exists w'. rewrite Hrun.
  rewrite (Hresponse (or_intror eq_refl) "from response"%string eq_refl);
    [reflexivity|discriminate].
Defined.

(** X16.  A quick-action button sends its prompt, whatever was typed: the
    one [POST /chat] issued carries the trimmed prompt, and the input ends
    empty; with a blank prompt nothing is sent and the typed text is
    replaced by the prompt all the same. *)
Theorem quickAction_sends_the_prompt (prompt : string) (w : World) :
  (Js.trim prompt <> EmptyString ->
   identity_available w = true ->
   let w' := snd (quickAction prompt w) in
   exists u issued,
     requests (network w')
     = requests (network w) ++ issued
       ++ [PostChat (Some (id u)) (Js.trim prompt)]
     /\ forallb is_PostUsers issued = true
     /\ messageInput (dom w') = EmptyString)
  /\ (blank prompt = true ->
      quickAction prompt w = (Normal tt, on_dom (with_messageInput prompt) w)).
Proof.
  unfold quickAction. rewrite run_modify. split.
  - intros Hprompt Hid.
    destruct (sendMessage_requests
                (on_dom (with_messageInput prompt) w) Hprompt)
      as (issued & chat & Hrq & Hissued & _ & _ & _ & Hsent & _ & Hinput).
    destruct (Hsent Hid) as (u & _ & ->).
    exists u, issued. split; [exact Hrq|]. split; [exact Hissued|exact Hinput].
  - intros Hblank. apply trim_empty_iff_blank in Hblank.
    unfold sendMessage. rewrite run_gets. cbn [dom on_dom messageInput
      with_messageInput]. rewrite Hblank. reflexivity.
Qed.

Lemma quickAction_sends_the_prompt_witness :
  (exists u issued,
     requests (network (snd (quickAction "What are common symptoms of diabetes?"
                               all_up)))
     = requests (network all_up) ++ issued
       ++ [PostChat (Some (id u)) "What are common symptoms of diabetes?"])
  /\ quickAction "  " all_up = (Normal tt, on_dom (with_messageInput "  ") all_up).
Proof.
  split.
  - destruct (proj1 (quickAction_sends_the_prompt
                       "What are common symptoms of diabetes?" all_up))
      as (u & issued & Hrq & _); [vm_compute; discriminate|reflexivity|].
    exists u, issued. exact Hrq.
  - apply (proj2 (quickAction_sends_the_prompt "  " all_up)). reflexivity.
Defined.

(** X17.  No time-out: when the backend never answers the [/chat] request,
    [sendMessage] stays suspended with the send button disabled; when it
    never answers the [/predict] request, [submitPredictionForm] stays
    suspended with the loading modal and the overlay shown. *)
Theorem unanswered_request_keeps_busy risk_percent (w : World) :
  (Js.trim (messageInput (dom w)) <> EmptyString ->
   identity_available w = true ->
   chat_script (network w) = [] ->
   exists w', sendMessage w = (Pending, w')
              /\ sendBtn_disabled (dom w') = true)
  /\ (identity_available w = true ->
      predict_script (network w) = [] ->
      exists w', submitPredictionForm risk_percent w = (Pending, w')
                 /\ loadingModal_shown (dom w') = true
                 /\ modalOverlay_active (dom w') = true).
Proof.
  split.
  - intros Hmsg Hid Hscript.
    unfold sendMessage. rewrite run_gets.
    destruct (Js.trim (messageInput (dom w))) as [|c0 s0] eqn:Htrim;
      [congruence|].
    rewrite run_addMessage, !run_modify.
    unfold try_finally, try_catch. unfold bind at 1.
    match goal with
    | |- context [ensureUser ?w2] =>
        destruct (ensureUser_returns w2 Hid)
          as (u & mu & tc & rest' & rq & tk & dr & issued & Hrun & _);
        rewrite Hrun
    end.
    unfold bind at 1. unfold callGeminiAPI at 1. rewrite run_gets.
    cbn [globals on_globals currentUser with_currentUser user_truthy negb].
    erewrite currentUser_id_run by reflexivity.
    unfold bind at 1. unfold fetch at 1.
    cbn [network on_network on_globals after_createUser chat_script
         with_requests with_users_script with_chat_script on_dom on_entropy].
    rewrite Hscript. eexists. split; reflexivity.
  - intros Hid Hscript.
    unfold submitPredictionForm. rewrite run_gets. unfold bind at 1.
    destruct (ensureUser_returns w Hid)
      as (u & mu & tc & rest' & rq & tk & dr & issued & Hrun & _).
    rewrite Hrun.
    erewrite currentUser_id_run by reflexivity.
    rewrite run_showLoading.
    unfold try_finally, try_catch. unfold bind at 1. unfold fetch at 1.
    cbn [network on_network on_globals after_createUser predict_script
         with_requests with_users_script with_predict_script on_dom on_entropy].
    rewrite Hscript. eexists. split; [reflexivity|]. split; reflexivity.
Qed.

Lemma unanswered_request_keeps_busy_witness :
  exists w', sendMessage silent_backend = (Pending, w')
             /\ sendBtn_disabled (dom w') = true.
Proof.
  apply (proj1 (unanswered_request_keeps_busy percent_stub silent_backend)).
  - vm_compute. discriminate.
  - reflexivity.
  - reflexivity.
Defined.

(* ===================================================================== *)
(** ** Outcomes of [submitPredictionForm] and [analyzeReport] *)
(* ===================================================================== *)

(** X18.  A prediction that succeeds: [submitPredictionForm] returns with
    one bot message, the formatted result, added to the transcript, the
    prediction modal hidden, the form reset, the success toast shown last
    and the loading modal hidden; the chat history is not touched. *)
Theorem prediction_success_is_rendered risk_percent (w : World)
    (result : PredictionResult) (rest : list PredictOutcome) :
  identity_available w = true ->
  predict_script (network w) = Ok (Some result) :: rest ->
  exists w' time ts,
    submitPredictionForm risk_percent w = (Normal tt, w')
    /\ chatContainer (dom w')
       = without_welcome (renders_welcome w) (chatContainer (dom w))
         ++ [Message bot (predictionMessage risk_percent result) time]
    /\ predictionModal_shown (dom w') = false
    /\ predictionForm (dom w') = reset (predictionForm (dom w))
    /\ toastContainer (dom w')
       = toastContainer (dom w) ++ ts ++ [prediction_done_toast]
    /\ (ts = [] \/ ts = [success_toast])
    /\ loadingModal_shown (dom w') = false
    /\ chatHistory (globals w') = chatHistory (globals w).
Proof.
  intros Hid Hscript.
  unfold submitPredictionForm. rewrite run_gets. unfold bind at 1.
  destruct (ensureUser_returns w Hid)
    as (u & mu & tc & rest' & rq & tk & dr & issued & Hrun
        & (ts & -> & Hts) & _).
  rewrite Hrun.
  erewrite currentUser_id_run by reflexivity.
  rewrite run_showLoading.
  unfold try_finally, try_catch. unfold bind at 1. unfold fetch at 1.
  cbn [network on_network on_globals after_createUser predict_script
       with_requests with_users_script with_predict_script on_dom on_entropy].
  rewrite Hscript. cbv beta iota. run_script.
  do 2 eexists. exists ts. split; [reflexivity|].
  cbn. rewrite <- !app_assoc. auto 10.
Qed.

Lemma prediction_success_is_rendered_witness :
  exists w' time,
    submitPredictionForm percent_stub all_up = (Normal tt, w')
    /\ chatContainer (dom w')
       = [Message bot
            (predictionMessage percent_stub
               (mkPredictionResult "diabetes" (Js.Finite 125 (-3))
                  "glucose" "walk"))
            time]
    /\ predictionModal_shown (dom w') = false.
Proof.
  destruct (prediction_success_is_rendered percent_stub all_up
              (mkPredictionResult "diabetes" (Js.Finite 125 (-3))
                 "glucose" "walk") [] eq_refl eq_refl)
    as (w' & time & ts & Hrun & Hchat & Hmodal & _).
  exists w', time. split; [exact Hrun|]. split; [exact Hchat|exact Hmodal].
Defined.

(** X19.  A prediction that fails (the request is rejected, the response is
    not ok, or its body is not JSON): [submitPredictionForm] returns with
    the error toast shown last; the transcript, the values of the form and
    the display of the prediction modal are as they were, while the loading
    modal is hidden and the overlay is switched off. *)
Theorem prediction_failure_keeps_the_form risk_percent (w : World)
    (o : PredictOutcome) (rest : list PredictOutcome) :
  identity_available w = true ->
  predict_script (network w) = o :: rest ->
  json_call_fails o = true ->
  exists w' ts,
    submitPredictionForm risk_percent w = (Normal tt, w')
    /\ chatContainer (dom w') = chatContainer (dom w)
    /\ predictionForm (dom w') = predictionForm (dom w)
    /\ predictionModal_shown (dom w') = predictionModal_shown (dom w)
    /\ toastContainer (dom w')
       = toastContainer (dom w) ++ ts ++ [prediction_error_toast]
    /\ (ts = [] \/ ts = [success_toast])
    /\ loadingModal_shown (dom w') = false
    /\ modalOverlay_active (dom w') = false.
Proof.
  intros Hid Hscript Hfails.
  unfold submitPredictionForm. rewrite run_gets. unfold bind at 1.
  destruct (ensureUser_returns w Hid)
    as (u & mu & tc & rest' & rq & tk & dr & issued & Hrun
        & (ts & -> & Hts) & _).
  rewrite Hrun.
  erewrite currentUser_id_run by reflexivity.
  rewrite run_showLoading.
  unfold try_finally, try_catch. unfold bind at 1. unfold fetch at 1.
  cbn [network on_network on_globals after_createUser predict_script
       with_requests with_users_script with_predict_script on_dom on_entropy].
  rewrite Hscript.
  destruct o as [|status errorText|[result|]]; try discriminate Hfails;
    cbv beta iota; run_script;
    (eexists; exists ts; split; [reflexivity|]);
    cbn; rewrite <- !app_assoc; auto 10.
Qed.

Lemma prediction_failure_keeps_the_form_witness :
  exists w',
    submitPredictionForm percent_stub predict_down = (Normal tt, w')
    /\ form_values (predictionForm (dom w')) = [("age", "41"); ("bmi", "27.5")]
    /\ predictionModal_shown (dom w') = true
    /\ modalOverlay_active (dom w') = false
    /\ toastContainer (dom w') = [prediction_error_toast].
Proof.
  destruct (prediction_failure_keeps_the_form percent_stub predict_down
              Rejected [] eq_refl eq_refl eq_refl)
    as (w' & ts & Hrun & _ & Hform & Hmodal & Htoast & Hts & _ & Hoverlay).
  exists w'. split; [exact Hrun|].
  rewrite Hform, Hmodal. split; [reflexivity|]. split; [reflexivity|].
  split; [exact Hoverlay|].
  assert (Hw : w' = snd (submitPredictionForm percent_stub predict_down))
    by (rewrite Hrun; reflexivity).
  rewrite Hw. vm_compute. reflexivity.
Defined.

(** X20.  An analysis that succeeds: [analyzeReport] posts the selected
    file with the id of the current user, and returns with one bot message,
    the findings and the advice, added to the transcript, the analysis modal
    hidden, the file input emptied and the success toast shown last. *)
Theorem analysis_success_is_rendered (w : World) (file : File)
    (result : AnalysisResult) (rest : list AnalyzeOutcome) :
  reportFile (dom w) = Some file ->
  identity_available w = true ->
  analyze_script (network w) = Ok (Some result) :: rest ->
  exists w' time ts u issued,
    analyzeReport w = (Normal tt, w')
    /\ currentUser (globals w') = record u
    /\ requests (network w')
       = requests (network w) ++ issued
         ++ [PostAnalyzeReport file (Some (id u))]
    /\ forallb is_PostUsers issued = true
    /\ chatContainer (dom w')
       = without_welcome (renders_welcome w) (chatContainer (dom w))
         ++ [Message bot (analysisMessage result) time]
    /\ analyzeModal_shown (dom w') = false
    /\ reportFile (dom w') = None
    /\ toastContainer (dom w')
       = toastContainer (dom w) ++ ts ++ [analysis_done_toast]
    /\ (ts = [] \/ ts = [success_toast])
    /\ loadingModal_shown (dom w') = false.
Proof.
  intros Hfile Hid Hscript.
  unfold analyzeReport. rewrite run_gets, Hfile. unfold bind at 1.
  destruct (ensureUser_returns w Hid)
    as (u & mu & tc & rest' & rq & tk & dr & issued & Hrun
        & (ts & -> & Hts) & -> & Hissued & _).
  rewrite Hrun. rewrite run_showLoading.
  unfold try_finally, try_catch.
  erewrite currentUser_id_run by reflexivity.
  unfold bind at 1. unfold fetch at 1.
  cbn [network on_network on_globals after_createUser analyze_script
       with_requests with_users_script with_analyze_script on_dom on_entropy].
  rewrite Hscript. cbv beta iota. run_script.
  do 2 eexists. exists ts, u, issued. split; [reflexivity|].
  cbn. rewrite <- !app_assoc. auto 12.
Qed.

Lemma analysis_success_is_rendered_witness :
  exists w' u issued,
    analyzeReport all_up = (Normal tt, w')
    /\ requests (network w')
       = requests (network all_up) ++ issued
         ++ [PostAnalyzeReport (sample_pdf 2048) (Some (id u))]
    /\ reportFile (dom w') = None.
Proof.
  destruct (analysis_success_is_rendered all_up (sample_pdf 2048)
              (mkAnalysisResult None None) [] eq_refl eq_refl eq_refl)
    as (w' & time & ts & u & issued & Hrun & _ & Hrq & _ & _ & _ & Hfile & _).
  exists w', u, issued. split; [exact Hrun|]. split; [exact Hrq|exact Hfile].
Defined.

(** X21.  An analysis that fails (the request is rejected, the response is
    not ok, or its body is not JSON): [analyzeReport] returns with the error
    toast shown last; the file stays selected, and the transcript and the
    display of the analysis modal are as they were. *)
Theorem analysis_failure_keeps_the_file (w : World) (file : File)
    (o : AnalyzeOutcome) (rest : list AnalyzeOutcome) :
  reportFile (dom w) = Some file ->
  identity_available w = true ->
  analyze_script (network w) = o :: rest ->
  json_call_fails o = true ->
  exists w' ts,
    analyzeReport w = (Normal tt, w')
    /\ reportFile (dom w') = Some file
    /\ chatContainer (dom w') = chatContainer (dom w)
    /\ analyzeModal_shown (dom w') = analyzeModal_shown (dom w)
    /\ toastContainer (dom w')
       = toastContainer (dom w) ++ ts ++ [analysis_error_toast]
    /\ (ts = [] \/ ts = [success_toast])
    /\ loadingModal_shown (dom w') = false.
Proof.
  intros Hfile Hid Hscript Hfails.
  unfold analyzeReport. rewrite run_gets, Hfile. unfold bind at 1.
  destruct (ensureUser_returns w Hid)
    as (u & mu & tc & rest' & rq & tk & dr & issued & Hrun
        & (ts & -> & Hts) & _).
  rewrite Hrun. rewrite run_showLoading.
  unfold try_finally, try_catch.
  erewrite currentUser_id_run by reflexivity.
  unfold bind at 1. unfold fetch at 1.
  cbn [network on_network on_globals after_createUser analyze_script
       with_requests with_users_script with_analyze_script on_dom on_entropy].
  rewrite Hscript.
  destruct o as [|status errorText|[result|]]; try discriminate Hfails;
    cbv beta iota; run_script;
    (eexists; exists ts; split; [reflexivity|]);
    cbn; rewrite <- !app_assoc; auto 10.
Qed.

Lemma analysis_failure_keeps_the_file_witness :
  exists w' ts,
    analyzeReport analyze_down = (Normal tt, w')
    /\ reportFile (dom w') = Some (sample_pdf 2048)
    /\ toastContainer (dom w')
       = toastContainer (dom analyze_down) ++ ts ++ [analysis_error_toast].
Proof.
  destruct (analysis_failure_keeps_the_file analyze_down (sample_pdf 2048)
              (NotOk 500 "boom"%string) [] eq_refl eq_refl eq_refl eq_refl)
    as (w' & ts & Hrun & Hfile & _ & _ & Htoast & _).
  exists w', ts. split; [exact Hrun|]. split; [exact Hfile|exact Htoast].
Defined.

(* ===================================================================== *)
(** ** [generateReport] when the backend is asked for the report *)
(* ===================================================================== *)

(** The three lookups, once the identity is there and the history script
    holds three answers. *)
Lemma three_lookups (w : World) (u : User) (o1 o2 o3 : HistoryOutcome)
    (rest : list HistoryOutcome) {B} (k : option Z -> option Z -> option Z -> Op B) :
  currentUser (globals w) = record u ->
  history_script (network w) = o1 :: o2 :: o3 :: rest ->
  (predictionId <- latestId predictions ;;
   chatId <- latestId chats ;;
   reportId <- latestId reports ;;
   k predictionId chatId reportId) w
  = k (latest_of o1) (latest_of o2) (latest_of o3)
      (on_network (with_history_script rest)
         (on_network (fun n =>
            with_requests
              (requests n ++ [GetHistory predictions (Some (id u));
                              GetHistory chats (Some (id u));
                              GetHistory reports (Some (id u))]) n) w)).
Proof.
  intros Hcu Hscript.
  unfold bind at 1.
  erewrite latestId_run; [|exact Hcu|exact Hscript].
  unfold bind at 1.
  erewrite latestId_run; [|exact Hcu|cbn; reflexivity].
  unfold bind at 1.
  erewrite latestId_run; [|exact Hcu|cbn; reflexivity].
  f_equal. destruct_world w. unfold on_network. cbn.
  rewrite <- !app_assoc. reflexivity.
Qed.

(** X22.  When at least one lookup finds an identifier, [generateReport]
    issues, after the [POST /users] of the identity creation if any, the
    three history lookups in the order predictions, chats, reports, each
    whatever the others answered, and then one [POST /generate-report]
    carrying the three results as found ([null] where nothing was found).
    This holds whatever the backend then answers, or if it never answers;
    the transcript is not touched. *)
Theorem generateReport_posts_found_ids (w : World)
    (o1 o2 o3 : HistoryOutcome) (rest : list HistoryOutcome) :
  identity_available w = true ->
  history_script (network w) = o1 :: o2 :: o3 :: rest ->
  no_id (latest_of o1) && no_id (latest_of o2) && no_id (latest_of o3) = false ->
  let w' := snd (generateReport w) in
  exists u issued,
    currentUser (globals w') = record u
    /\ requests (network w')
       = requests (network w) ++ issued
         ++ [GetHistory predictions (Some (id u));
             GetHistory chats (Some (id u));
             GetHistory reports (Some (id u));
             PostGenerateReport (Some (id u)) (latest_of o1) (latest_of o2)
               (latest_of o3)]
    /\ forallb is_PostUsers issued = true
    /\ chatContainer (dom w') = chatContainer (dom w).
Proof.
  intros Hid Hscript Hfound w'. subst w'.
  destruct (generateReport w) as [c w'] eqn:E. cbn [snd].
  unfold generateReport in E. unfold bind at 1 in E.
  destruct (ensureUser_returns w Hid)
    as (u & mu & tc & rest' & rq & tk & dr & issued & Hrun & _ & ->
        & Hissued & _).
  rewrite Hrun in E. rewrite run_showLoading in E.
  unfold try_finally, try_catch in E.
  erewrite three_lookups in E; [|reflexivity|cbn; exact Hscript].
  rewrite Hfound in E.
  erewrite currentUser_id_run in E by reflexivity.
  unfold bind at 1 in E. unfold fetch at 1 in E.
  cbn [network on_network on_globals after_createUser generate_script
       with_requests with_users_script with_history_script
       with_generate_script on_dom on_entropy] in E.
  exists u, issued.
  destruct (generate_script (network w)) as [|o rest0].
  - cbv beta iota in E. injection E as <- <-.
    cbn. rewrite <- !app_assoc. auto.
  - destruct o as [|status []|generated]; cbv beta iota in E;
      try destruct (is_pdf (content_type generated));
      try destruct (body_is_json generated);
      try (unfold bind at 1 in E; unfold Date_now at 1 in E;
           cbv beta iota zeta in E);
      repeat (progress (autorewrite with run in E; cbv beta iota in E));
      injection E as <- <-; cbn; rewrite <- !app_assoc; auto.
Qed.

Lemma generateReport_posts_found_ids_witness :
  exists u issued,
    requests (network (snd (generateReport all_up)))
    = requests (network all_up) ++ issued
      ++ [GetHistory predictions (Some (id u));
          GetHistory chats (Some (id u));
          GetHistory reports (Some (id u));
          PostGenerateReport (Some (id u)) (Some 3) None None].
Proof.
  destruct (generateReport_posts_found_ids all_up
              (Ok (Some [3])) (Ok (Some [])) Rejected []
              eq_refl eq_refl eq_refl)
    as (u & issued & _ & Hrq & _).
  exists u, issued. exact Hrq.
Defined.

(** X23.  What the answer to [POST /generate-report] leads to.  A PDF is
    downloaded and its toast shown; a JSON body only raises the "generated"
    toast; a rejection, a response that is not ok, or a body that is neither
    PDF nor JSON raises the error toast and downloads nothing.  In every
    case [generateReport] returns with the loading modal hidden. *)
Theorem generateReport_answer_is_handled (w : World)
    (o1 o2 o3 : HistoryOutcome) (rest : list HistoryOutcome)
    (o : GenerateOutcome) (rest0 : list GenerateOutcome) :
  identity_available w = true ->
  history_script (network w) = o1 :: o2 :: o3 :: rest ->
  no_id (latest_of o1) && no_id (latest_of o2) && no_id (latest_of o3) = false ->
  generate_script (network w) = o :: rest0 ->
  exists w' ts today,
    generateReport w = (Normal tt, w')
    /\ loadingModal_shown (dom w') = false
    /\ (ts = [] \/ ts = [success_toast])
    /\ (forall generated,
          o = Ok generated -> is_pdf (content_type generated) = true ->
          downloads (dom w') = downloads (dom w) ++ [today]
          /\ toastContainer (dom w')
             = toastContainer (dom w) ++ ts ++ [report_downloaded_toast])
    /\ (forall generated,
          o = Ok generated -> is_pdf (content_type generated) = false ->
          body_is_json generated = true ->
          downloads (dom w') = downloads (dom w)
          /\ toastContainer (dom w')
             = toastContainer (dom w) ++ ts ++ [report_generated_toast])
    /\ (generate_call_fails o = true ->
        downloads (dom w') = downloads (dom w)
        /\ toastContainer (dom w')
           = toastContainer (dom w) ++ ts ++ [report_error_toast]).
Proof.
  intros Hid Hscript Hfound Hgenerate.
  unfold generateReport. unfold bind at 1.
  destruct (ensureUser_returns w Hid)
    as (u & mu & tc & rest' & rq & tk & dr & issued & Hrun
        & (ts & -> & Hts) & _).
  rewrite Hrun. rewrite run_showLoading.
  unfold try_finally, try_catch.
  erewrite three_lookups; [|reflexivity|cbn; exact Hscript].
  rewrite Hfound.
  erewrite currentUser_id_run by reflexivity.
  unfold bind at 1. unfold fetch at 1.
  cbn [network on_network on_globals after_createUser generate_script
       with_requests with_users_script with_history_script
       with_generate_script on_dom on_entropy].
  rewrite Hgenerate.
  destruct o as [|status []|generated]; cbv beta iota;
    try destruct (is_pdf (content_type generated)) eqn:Hpdf;
    try destruct (body_is_json generated) eqn:Hjson;
    try (unfold bind at 1; unfold Date_now at 1; cbv beta iota zeta);
    run_script;
    (eexists; exists ts, (clock (entropy w) tk); split; [reflexivity|]);
    cbn [dom on_dom on_network on_globals on_entropy after_createUser
         loadingModal_shown with_loadingModal_shown with_modalOverlay_active
         with_loadingText with_toastContainer with_downloads toastContainer
         downloads generate_call_fails];
    (split; [reflexivity|]); (split; [exact Hts|]);
    rewrite <- ?app_assoc;
    (split; [|split]);
    try (intros g Hg; injection Hg as <-);
    try discriminate; try congruence;
    try (rewrite ?Hpdf, ?Hjson; cbn [negb andb]);
    intros; try discriminate; try congruence;
    (split; reflexivity).
Qed.

Lemma generateReport_answer_is_handled_witness :
  exists w' today,
    generateReport all_up = (Normal tt, w')
    /\ downloads (dom w') = [today]
    /\ loadingModal_shown (dom w') = false.
Proof.
  destruct (generateReport_answer_is_handled all_up
              (Ok (Some [3])) (Ok (Some [])) Rejected []
              (Ok (mkGenerated (Some "application/pdf"%string) false)) []
              eq_refl eq_refl eq_refl eq_refl)
    as (w' & ts & today & Hrun & Hload & _ & Hpdf & _).
  destruct (Hpdf _ eq_refl eq_refl) as (Hdownloads & _).
  exists w', today. split; [exact Hrun|]. split; [exact Hdownloads|exact Hload].
Defined.

(** X24.  An identifier of 0 counts as none: when each lookup finds nothing
    or finds a latest record whose id is 0, [generateReport] issues no
    [POST /generate-report] and appends the local summary to the
    transcript. *)
Theorem generateReport_treats_id_zero_as_none (w : World)
    (o1 o2 o3 : HistoryOutcome) (rest : list HistoryOutcome) :
  identity_available w = true ->
  history_script (network w) = o1 :: o2 :: o3 :: rest ->
  (latest_of o1 = None \/ latest_of o1 = Some 0) ->
  (latest_of o2 = None \/ latest_of o2 = Some 0) ->
  (latest_of o3 = None \/ latest_of o3 = Some 0) ->
  exists w' issued time,
    generateReport w = (Normal tt, w')
    /\ requests (network w') = requests (network w) ++ issued
    /\ forallb (fun r => negb (is_PostGenerateReport r)) issued = true
    /\ generate_script (network w') = generate_script (network w)
    /\ chatContainer (dom w')
       = without_welcome (renders_welcome w) (chatContainer (dom w))
         ++ [Message bot (reportMessage (chatHistory (globals w))) time].
Proof.
  intros Hid Hscript H1 H2 H3.
  assert (Hnone : no_id (latest_of o1) && no_id (latest_of o2)
                  && no_id (latest_of o3) = true).
  { destruct H1 as [-> | ->], H2 as [-> | ->], H3 as [-> | ->]; reflexivity. }
  unfold generateReport. unfold bind at 1.
  destruct (ensureUser_returns w Hid)
    as (u & mu & tc & rest' & rq & tk & dr & issued & Hrun & _ & ->
        & Hissued & _).
  rewrite Hrun. rewrite run_showLoading.
  unfold try_finally, try_catch.
  erewrite three_lookups; [|reflexivity|cbn; exact Hscript].
  rewrite Hnone. unfold createFallbackReport. run_script.
  eexists. exists (issued ++ [GetHistory predictions (Some (id u));
                              GetHistory chats (Some (id u));
                              GetHistory reports (Some (id u))]).
  eexists. split; [reflexivity|].
  cbn. rewrite <- !app_assoc.
  split; [reflexivity|]. split; [|auto].
  rewrite forallb_app. cbn. rewrite andb_true_r.
  rewrite forallb_forall in Hissued |- *. intros r Hin.
  specialize (Hissued r Hin). destruct r; try discriminate; reflexivity.
Qed.

Lemma generateReport_treats_id_zero_as_none_witness :
  exists w' time,
    generateReport zero_ids = (Normal tt, w')
    /\ generate_script (network w') = [Ok (mkGenerated None true)]
    /\ chatContainer (dom w') = [Message bot (reportMessage []) time].
Proof.
  destruct (generateReport_treats_id_zero_as_none zero_ids
              (Ok (Some [0])) (Ok (Some [0; 4])) (Ok (Some [0])) []
              eq_refl eq_refl (or_intror eq_refl) (or_intror eq_refl)
              (or_intror eq_refl))
    as (w' & issued & time & Hrun & _ & _ & Hscript & Hchat).
  exists w', time. split; [exact Hrun|]. split; [exact Hscript|exact Hchat].
Defined.

(** X25.  What the prediction form sends when it is filled: a numeric field
    whose text parses to a number other than 0 is sent as that number, and
    a non-empty gender, lifestyle or symptoms as typed; an empty text in
    these three is replaced by the placeholder, like a missing one. *)
Theorem filled_fields_are_sent_as_entered risk_percent (w : World) :
  let formData := form_values (predictionForm (dom w)) in
  exists issued,
    requests (network (snd (submitPredictionForm risk_percent w)))
      = requests (network w) ++ issued
    /\ (identity_available w = true -> exists d, In (PostPredict d) issued)
    /\ forall d, In (PostPredict d) issued ->
         (Js.truthy (Js.parseInt (get "age" formData)) = true ->
          age (demographics d) = Js.parseInt (get "age" formData))
         /\ (Js.truthy (Js.parseFloat (get "bmi" formData)) = true ->
             bmi (vitals d) = Js.parseFloat (get "bmi" formData))
         /\ (Js.truthy (Js.parseInt (get "glucose" formData)) = true ->
             glucose (vitals d) = Js.parseInt (get "glucose" formData))
         /\ (Js.truthy (Js.parseInt (get "blood_pressure" formData)) = true ->
             blood_pressure (vitals d)
             = Js.parseInt (get "blood_pressure" formData))
         /\ (Js.truthy (Js.parseFloat (get "diabetes_pedigree" formData)) = true ->
             diabetes_pedigree (vitals d)
             = Js.parseFloat (get "diabetes_pedigree" formData))
         /\ (Js.truthy (Js.parseInt (get "pregnancies" formData)) = true ->
             pregnancies (vitals d) = Js.parseInt (get "pregnancies" formData))
         /\ (Js.truthy (Js.parseFloat (get "skin_thickness" formData)) = true ->
             skin_thickness (vitals d)
             = Js.parseFloat (get "skin_thickness" formData))
         /\ (Js.truthy (Js.parseInt (get "insulin" formData)) = true ->
             insulin (vitals d) = Js.parseInt (get "insulin" formData))
         /\ (forall c s, get "gender" formData = Some (String c s) ->
                         gender (demographics d) = String c s)
         /\ (forall c s, get "lifestyle" formData = Some (String c s) ->
                         lifestyle d = String c s)
         /\ (forall c s, get "symptoms" formData = Some (String c s) ->
                         symptoms d = String c s)
         /\ (get "gender" formData = Some EmptyString ->
             gender (demographics d) = "unknown"%string)
         /\ (get "lifestyle" formData = Some EmptyString ->
             lifestyle d = "Not specified"%string)
         /\ (get "symptoms" formData = Some EmptyString ->
             symptoms d = "No symptoms reported"%string).
Proof.
  intros formData.
  destruct (submitPredictionForm_requests risk_percent w)
    as (issued & Hreq & Hshape & Hsent).
  fold formData in Hshape, Hsent.
  exists issued. split; [exact Hreq|]. split.
  - intros Hid. destruct (Hsent Hid) as (uid & Hin). eauto.
  - intros d Hin. destruct (Hshape d Hin) as (uid & ->).
    unfold predictionData, Js.or_else.
    cbn [age gender demographics vitals bmi glucose blood_pressure
         diabetes_pedigree pregnancies skin_thickness insulin lifestyle
         symptoms].
    repeat split; intros; try (rewrite H; reflexivity).
Qed.

Lemma filled_fields_are_sent_as_entered_witness :
  exists d,
    In (PostPredict d)
       (requests (network (snd (submitPredictionForm percent_stub predict_down))))
    /\ age (demographics d) = Js.Finite 41 0
    /\ bmi (vitals d) = Js.Finite 275 (-1).
Proof.
  destruct (filled_fields_are_sent_as_entered percent_stub predict_down)
    as (issued & Hreq & Hsent & Hvalues).
  destruct (Hsent eq_refl) as (d & Hin).
  exists d. split; [rewrite Hreq; apply in_or_app; right; exact Hin|].
  destruct (Hvalues d Hin) as (Hage & Hbmi & _).
  split; [apply Hage; reflexivity|apply Hbmi; reflexivity].
Defined.

(* ===================================================================== *)
(** ** What the operations leave alone, in every outcome *)
(* ===================================================================== *)

Section Frame.

(** A relation between the state before and the state after that holds
    across any change of the DOM, the network or the clock, and across the
    two statements that write the globals. *)
Variable R : World -> World -> Prop.
Hypothesis R_refl : forall w, R w w.
Hypothesis R_trans : forall w1 w2 w3, R w1 w2 -> R w2 w3 -> R w1 w3.
Hypothesis R_dom : forall f w, R w (on_dom f w).
Hypothesis R_network : forall f w, R w (on_network f w).
Hypothesis R_entropy : forall f w, R w (on_entropy f w).
Hypothesis R_ensureUser : respects R ensureUser.

Lemma respects_ret {A} (a : A) : respects R (ret a).
Proof. intros w. apply R_refl. Qed.

Lemma respects_throw {A} (e : string) : respects R (@throw A e).
Proof. intros w. apply R_refl. Qed.

Lemma respects_gets {A} (f : World -> A) : respects R (gets f).
Proof. intros w. apply R_refl. Qed.

Lemma respects_bind {A B} (m : Op A) (k : A -> Op B) :
  respects R m -> (forall a, respects R (k a)) -> respects R (bind m k).
Proof.
  intros Hm Hk w. specialize (Hm w). unfold bind.
  destruct (m w) as [[a|e|] w1]; cbn [snd] in *; [|assumption|assumption].
  exact (R_trans _ _ _ Hm (Hk a w1)).
Qed.

Lemma respects_try_catch {A} (body : Op A) (handler : string -> Op A) :
  respects R body -> (forall e, respects R (handler e)) ->
  respects R (try_catch body handler).
Proof.
  intros Hbody Hhandler w. specialize (Hbody w). unfold try_catch.
  destruct (body w) as [[a|e|] w1]; cbn [snd] in *; [assumption| |assumption].
  exact (R_trans _ _ _ Hbody (Hhandler e w1)).
Qed.

Lemma respects_try_finally {A} (body : Op A) (finalizer : Op unit) :
  respects R body -> respects R finalizer ->
  respects R (try_finally body finalizer).
Proof.
  intros Hbody Hfinal w. specialize (Hbody w). unfold try_finally.
  destruct (body w) as [[a|e|] w1]; cbn [snd] in *; [| |assumption];
    specialize (Hfinal w1); destruct (finalizer w1) as [[[]|e'|] w2];
    cbn [snd] in *; exact (R_trans _ _ _ Hbody Hfinal).
Qed.

Lemma respects_modify_dom (f : Dom -> Dom) : respects R (modify (on_dom f)).
Proof. intros w. apply R_dom. Qed.

Lemma respects_Date_now : respects R Date_now.
Proof. intros w. apply R_entropy. Qed.

Lemma respects_fetch {E A} (script : Network -> list (Outcome E A))
    (with_script : list (Outcome E A) -> Network -> Network) (request : Request) :
  respects R (fetch script with_script request).
Proof.
  intros w. unfold fetch.
  destruct (script _) as [|o rest]; cbn [snd].
  - apply R_network.
  - exact (R_trans _ _ _ (R_network _ w) (R_network _ _)).
Qed.

Ltac frame_step :=
  lazymatch goal with
  | |- respects _ (bind _ _) => apply respects_bind; [|intro]
  | |- respects _ (try_finally _ _) => apply respects_try_finally
  | |- respects _ (try_catch _ _) => apply respects_try_catch; [|intro]
  | |- respects _ (ret _) => apply respects_ret
  | |- respects _ (throw _) => apply respects_throw
  | |- respects _ (gets _) => apply respects_gets
  | |- respects _ (modify (on_dom _)) => apply respects_modify_dom
  | |- respects _ Date_now => apply respects_Date_now
  | |- respects _ (fetch _ _ _) => apply respects_fetch
  | |- respects _ ensureUser => exact R_ensureUser
  | |- respects _ (saveChatHistory _ _) => solve [auto]
  | |- respects _ (match ?x with _ => _ end) => destruct x
  | |- respects _ (let _ := _ in _) => cbv zeta
  | |- respects _ (addMessage _ _) => unfold addMessage
  | |- respects _ (showToast _ _) => unfold showToast
  | |- respects _ (showLoading _) => unfold showLoading
  | |- respects _ hideLoading => unfold hideLoading
  | |- respects _ (showModal _) => unfold showModal
  | |- respects _ (hideModal _) => unfold hideModal
  | |- respects _ clearFile => unfold clearFile
  | |- respects _ (callGeminiAPI _) => unfold callGeminiAPI
  | |- respects _ currentUser_id => unfold currentUser_id
  | |- respects _ (latestId _) => unfold latestId
  | |- respects _ createFallbackReport => unfold createFallbackReport
  end.

Ltac frame := repeat frame_step.

Lemma respects_submitPredictionForm risk_percent :
  respects R (submitPredictionForm risk_percent).
Proof. unfold submitPredictionForm. frame. Qed.

Lemma respects_analyzeReport : respects R analyzeReport.
Proof. unfold analyzeReport. frame. Qed.

Lemma respects_generateReport : respects R generateReport.
Proof. unfold generateReport. frame. Qed.

Lemma respects_handleFileSelect : respects R handleFileSelect.
Proof. unfold handleFileSelect. frame. Qed.

Hypothesis R_saveChatHistory : forall q r, respects R (saveChatHistory q r).

Lemma respects_sendMessage : respects R sendMessage.
Proof. unfold sendMessage. frame. Qed.

Lemma respects_run risk_percent (op : Operation) :
  respects R (run risk_percent op).
Proof.
  destruct op; cbn [run].
  - apply respects_sendMessage.
  - apply respects_submitPredictionForm.
  - apply respects_analyzeReport.
  - apply respects_generateReport.
Qed.

Lemma respects_run_each risk_percent (ops : list Operation) :
  respects R (run_each risk_percent ops).
Proof.
  induction ops as [|op rest IH]; cbn [run_each].
  - apply respects_ret.
  - intros w. pose proof (respects_run risk_percent op w) as Hop.
    destruct (run risk_percent op w) as [[[]|e|] w1]; cbn [snd] in Hop |- *.
    + exact (R_trans _ _ _ Hop (IH w1)).
    + exact (R_trans _ _ _ Hop (IH w1)).
    + exact Hop.
Qed.

End Frame.

Lemma ensureUser_keeps_history : respects keeps_history ensureUser.
Proof.
  intros w.
  destruct (ensureUser_run w)
    as (c & cu & mu & tc & rest & rq & tk & dr & Hrun & _).
  rewrite Hrun. split; reflexivity.
Qed.

(** X26.  Only a chat exchange writes the history: [submitPredictionForm],
    [analyzeReport] and [generateReport] leave [chatHistory] and the
    [medai_chat_history] key exactly as they were, whether they return, are
    stopped by a failure or are left waiting. *)
Theorem only_sendMessage_writes_the_history risk_percent (w : World) :
  keeps_history w (snd (submitPredictionForm risk_percent w))
  /\ keeps_history w (snd (analyzeReport w))
  /\ keeps_history w (snd (generateReport w)).
Proof.
  assert (Hrefl : forall w0, keeps_history w0 w0) by (split; reflexivity).
  assert (Htrans : forall w1 w2 w3, keeps_history w1 w2 ->
                     keeps_history w2 w3 -> keeps_history w1 w3).
  { intros w1 w2 w3 [H1 H2] [H3 H4]. split; congruence. }
  assert (Hdom : forall f w0, keeps_history w0 (on_dom f w0))
    by (split; reflexivity).
  assert (Hnet : forall f w0, keeps_history w0 (on_network f w0))
    by (split; reflexivity).
  assert (Hent : forall f w0, keeps_history w0 (on_entropy f w0))
    by (split; reflexivity).
  split; [|split].
  - apply (respects_submitPredictionForm keeps_history Hrefl Htrans Hdom Hnet
             Hent ensureUser_keeps_history).
  - apply (respects_analyzeReport keeps_history Hrefl Htrans Hdom Hnet Hent
             ensureUser_keeps_history).
  - apply (respects_generateReport keeps_history Hrefl Htrans Hdom Hnet Hent
             ensureUser_keeps_history).
Qed.

(** X27.  The cap is kept by every sequence of operations: from a state
    whose history has at most fifty entries, whatever operations are run one
    after the other and however each ends, the history has at most fifty
    entries. *)
Theorem operations_keep_the_cap risk_percent (ops : list Operation) (w : World) :
  (List.length (chatHistory (globals w)) <= 50)%nat ->
  (List.length (chatHistory (globals (snd (run_each risk_percent ops w)))) <= 50)%nat.
Proof.
  apply (respects_run_each keeps_cap).
  - intros w0 H. exact H.
  - intros w1 w2 w3 H1 H2 H. exact (H2 (H1 H)).
  - intros f w0 H. exact H.
  - intros f w0 H. exact H.
  - intros f w0 H. exact H.
  - intros w0 H. destruct (ensureUser_keeps_history w0) as [Hh _].
    rewrite Hh. exact H.
  - intros q r w0 _. rewrite saveChatHistory_run.
    cbn [snd globals chatHistory on_globals on_localStorage on_entropy
         with_chatHistory].
    rewrite length_skipn, length_app. cbn [List.length]. lia.
Qed.

Lemma operations_keep_the_cap_witness :
  (List.length
     (chatHistory
        (globals (snd (run_each percent_stub
                         [SendMessage; GenerateReport; SendMessage] all_up))))
   <= 50)%nat.
Proof.
  apply (operations_keep_the_cap percent_stub
           [SendMessage; GenerateReport; SendMessage] all_up).
  vm_compute. lia.
Defined.

(** X28.  The identity, once set, is never replaced: from a state where
    [currentUser] holds a user record, whatever operations are run one
    after the other and however each ends, [currentUser] is the same user
    and the [medai_user] key holds what it held. *)
Theorem operations_keep_the_identity risk_percent (ops : list Operation)
    (w : World) (u : User) :
  currentUser (globals w) = record u ->
  let w' := snd (run_each risk_percent ops w) in
  currentUser (globals w') = record u
  /\ medai_user (localStorage w') = medai_user (localStorage w).
Proof.
  intros Hcu. revert u Hcu.
  change (keeps_identity w (snd (run_each risk_percent ops w))).
  apply (respects_run_each keeps_identity).
  - intros w0 u H. auto.
  - intros w1 w2 w3 H1 H2 u H. destruct (H1 u H) as [H1u H1s].
    destruct (H2 u H1u) as [H2u H2s]. split; congruence.
  - intros f w0 u H. auto.
  - intros f w0 u H. auto.
  - intros f w0 u H. auto.
  - intros w0 u H. rewrite (ensureUser_when_set w0 u H). auto.
  - intros q r w0 u H. rewrite saveChatHistory_run. auto.
Qed.

Lemma operations_keep_the_identity_witness :
  currentUser
    (globals (snd (run_each percent_stub [SendMessage; AnalyzeReport]
                     silent_backend)))
  = record alice.
Proof.
  apply (operations_keep_the_identity percent_stub [SendMessage; AnalyzeReport]
           silent_backend alice).
  reflexivity.
Defined.

(* ===================================================================== *)
(** ** Two more edges: the file that is uploaded, the answer that is not JSON *)
(* ===================================================================== *)

Lemma analyzeReport_requests (w : World) (file : File) :
  reportFile (dom w) = Some file ->
  exists issued,
    requests (network (snd (analyzeReport w))) = requests (network w) ++ issued
    /\ forall f uid, In (PostAnalyzeReport f uid) issued -> f = file.
Proof.
  intros Hfile.
  unfold analyzeReport. rewrite run_gets, Hfile. unfold bind at 1.
  destruct (ensureUser_run w)
    as (c & cu & mu & tc & rest' & rq & tk & dr & Hrun & Hc & _
        & (issued & -> & Hissued) & _).
  rewrite Hrun.
  destruct Hc as [(-> & Hna)|(-> & Hu)].
  { exists issued. split; [reflexivity|].
    intros f uid Hin. apply (PostUsers_only _ _ Hissued) in Hin. discriminate. }
  rewrite run_showLoading.
  unfold try_finally, try_catch.
  destruct cu as [|u|truthy].
  { (* [currentUser.id] throws inside the [try]: nothing is uploaded *)
    rewrite currentUser_id_null by reflexivity. run_script.
    exists issued. split; [reflexivity|].
    intros f uid Hin. apply (PostUsers_only _ _ Hissued) in Hin. discriminate. }
  all: first [ erewrite currentUser_id_run by reflexivity
             | erewrite currentUser_id_other by reflexivity ].
  all: unfold bind at 1; unfold fetch at 1.
  all: cbn [network on_network on_globals after_createUser analyze_script
       with_requests with_users_script with_analyze_script on_dom on_entropy].
  all: match goal with
       | |- context [PostAnalyzeReport ?f ?uid] =>
           exists (issued ++ [PostAnalyzeReport f uid])
       end.
  all: split;
    [ destruct (analyze_script (network w)) as [|o rest];
      [ cbn; rewrite <- app_assoc; reflexivity
      | destruct o as [|status errorText|[result|]]; cbv beta iota; run_script;
        cbn; rewrite <- app_assoc; reflexivity ]
    | intros f uid Hin; apply in_app_or in Hin;
      destruct Hin as [Hin|[Heq|[]]];
      [ apply (PostUsers_only _ _ Hissued) in Hin; discriminate
      | congruence ] ].
Qed.

(** What a selection leaves in the input: nothing, or the file, which then
    has passed both checks; the network is not touched. *)
Lemma selectFile_outcome (file : File) (w : World) :
  exists w1,
    selectFile file w = (Normal tt, w1)
    /\ network w1 = network w
    /\ (reportFile (dom w1) = None
        \/ (reportFile (dom w1) = Some file
            /\ file_type file = "application/pdf"%string
            /\ file_size file <= 10 * 1024 * 1024)).
Proof.
  unfold selectFile. rewrite run_modify. unfold handleFileSelect.
  rewrite run_gets. cbn [dom on_dom reportFile with_reportFile].
  destruct (String.eqb (file_type file) "application/pdf") eqn:Htype;
    cbn [negb].
  - destruct (file_size file >? 10 * 1024 * 1024) eqn:Hsize.
    + run_script. eexists. split; [reflexivity|]. split; [reflexivity|].
      left. reflexivity.
    + run_script. eexists. split; [reflexivity|]. split; [reflexivity|].
      right. split; [reflexivity|]. split; [apply String.eqb_eq; exact Htype|].
      rewrite Z.gtb_ltb in Hsize. apply Z.ltb_ge in Hsize. exact Hsize.
  - run_script. eexists. split; [reflexivity|]. split; [reflexivity|].
    left. reflexivity.
Qed.

(** X29.  No file that failed the checks is ever uploaded: after a file has
    been selected, whatever [analyzeReport] then posts to [/analyze-report]
    is that very file, and it is a PDF of at most 10 MiB. *)
Theorem only_a_validated_file_is_uploaded (file : File) (w : World) :
  let w1 := snd (selectFile file w) in
  exists issued,
    requests (network (snd (analyzeReport w1))) = requests (network w) ++ issued
    /\ forall f uid, In (PostAnalyzeReport f uid) issued ->
         f = file
         /\ file_type f = "application/pdf"%string
         /\ file_size f <= 10 * 1024 * 1024.
Proof.
  intros w1. subst w1.
  destruct (selectFile_outcome file w) as (w1 & Hsel & Hnet & Hfile).
  rewrite Hsel. cbn [snd].
  destruct Hfile as [Hnone|(Hsome & Htype & Hsize)].
  - rewrite (analyzeReport_without_file w1 Hnone). cbn [snd].
    exists []. rewrite app_nil_r.
    split; [cbn; rewrite Hnet; reflexivity|]. intros f uid [].
  - destruct (analyzeReport_requests w1 file Hsome) as (issued & Hrq & Honly).
    exists issued. rewrite Hrq, Hnet. split; [reflexivity|].
    intros f uid Hin. rewrite (Honly f uid Hin). auto.
Qed.

Lemma only_a_validated_file_is_uploaded_witness :
  exists issued,
    requests (network (snd (analyzeReport
                              (snd (selectFile (sample_pdf 2048) all_up)))))
    = requests (network all_up) ++ issued
    /\ In (PostAnalyzeReport (sample_pdf 2048) (Some 7)) issued
    /\ file_size (sample_pdf 2048) <= 10 * 1024 * 1024.
Proof.
  destruct (only_a_validated_file_is_uploaded (sample_pdf 2048) all_up)
    as (issued & Hrq & Hvalid).
  exists issued. split; [exact Hrq|].
  assert (Hin : In (PostAnalyzeReport (sample_pdf 2048) (Some 7)) issued).
  { vm_compute in Hrq. rewrite <- Hrq. right. left. reflexivity. }
  split; [exact Hin|]. apply (Hvalid _ _ Hin).
Defined.

(** X30.  A [/chat] response that is ok but whose body is not JSON is
    handled like a failed call: the transcript gains the user message
    followed by the apology, the error toast is shown last, and nothing is
    recorded in the history. *)
Theorem sendMessage_unparseable_answer (w : World) (rest : list ChatOutcome) :
  Js.trim (messageInput (dom w)) <> EmptyString ->
  identity_available w = true ->
  chat_script (network w) = Ok None :: rest ->
  exists w' t1 t2 ts,
    sendMessage w = (Normal tt, w')
    /\ chatContainer (dom w')
       = without_welcome (renders_welcome w) (chatContainer (dom w))
         ++ [Message user (Js.trim (messageInput (dom w))) t1;
             Message bot apology t2]
    /\ toastContainer (dom w') = toastContainer (dom w) ++ ts ++ [error_toast]
    /\ (ts = [] \/ ts = [success_toast])
    /\ chatHistory (globals w') = chatHistory (globals w)
    /\ medai_chat_history (localStorage w') = medai_chat_history (localStorage w)
    /\ sendBtn_disabled (dom w') = false.
Proof.
  intros Hmsg Hid Hscript.
  unfold sendMessage. rewrite run_gets.
  destruct (Js.trim (messageInput (dom w))) as [|c0 s0] eqn:Htrim;
    [congruence|].
  rewrite run_addMessage, !run_modify.
  unfold try_finally, try_catch. unfold bind at 1.
  match goal with
  | |- context [ensureUser ?w2] =>
      destruct (ensureUser_returns w2 Hid)
        as (u & mu & tc & rest' & rq & tk & dr & issued & Hrun
            & (ts & -> & Hts) & _);
      rewrite Hrun
  end.
  unfold bind at 1. unfold callGeminiAPI at 1. rewrite run_gets.
  cbn [globals on_globals currentUser with_currentUser user_truthy negb].
  erewrite currentUser_id_run by reflexivity.
  unfold bind at 1. unfold fetch at 1.
  cbn [network on_network on_globals after_createUser chat_script
       with_requests with_users_script with_chat_script on_dom on_entropy].
  rewrite Hscript. cbv beta iota. run_script.
  do 3 eexists. exists ts. split; [reflexivity|].
  unfold without_welcome. cbn.
  rewrite no_welcome_after_message, <- !app_assoc. cbn. auto 10.
Qed.

Lemma sendMessage_unparseable_answer_witness :
  exists w' t1 t2,
    sendMessage (on_network (with_chat_script [Ok None]) chat_down)
    = (Normal tt, w')
    /\ chatContainer (dom w')
       = [Message user "What is a normal BMI?" t1; Message bot apology t2]
    /\ chatHistory (globals w') = [].
Proof.
  destruct (sendMessage_unparseable_answer
              (on_network (with_chat_script [Ok None]) chat_down) [])
    as (w' & t1 & t2 & ts & Hrun & Hchat & _ & _ & Hhist & _).
  - vm_compute. discriminate.
  - reflexivity.
  - reflexivity.
  - exists w', t1, t2. split; [exact Hrun|]. split; [exact Hchat|exact Hhist].
Defined.
